(** * SecureBank transaction pipeline: a shallow embedding of
    [src/lambda_function.py] and the properties of its risk engine,
    validator, orchestrator and batch coordinator.

    Conventions of the embedding.
    - A Python [float] is idealised as an exact rational ([Q]); the only
      float operation that is not rational, [x ** 0.5], is a parameter
      ([pow_half]).  Division raises [ZeroDivisionError] on a zero divisor
      and [x ** 2] raises [OverflowError] on a square out of the range of
      a [float], as in Python.  Values that are not finite ([nan], [inf])
      are not represented.
    - A dict with a fixed set of keys is a record; a key that may be
      missing is an [option] field, [d['k']] raises [KeyError] on [None],
      [d.get('k', v)] falls back to [v].
    - Numbers that travel through the DynamoDB conversions keep their
      Python type ([int], [float], [Decimal], [str]), because the code's
      behaviour depends on it.
    - A timestamp is the instant its ISO-8601 text denotes, in microseconds
      since the epoch (UTC).  Text that [fromisoformat] rejects, and times
      without an offset or with an offset other than UTC, are not
      represented: where a property speaks of a timestamp, it is one that
      denotes an instant. *)

From Stdlib Require Import ZArith QArith Qabs Qround Qminmax Lqa Lia String
  List Bool.
From Stdlib Require Import Sorted.
From stdpp Require Import base gmap strings pretty.
Import ListNotations.

Local Open Scope string_scope.
Local Open Scope Z_scope.

(** ** Python exceptions and results *)

Inductive service :=
| CustomersGet | CustomersPut | TransactionsQuery | TransactionsPut
| S3Put | CloudWatchPut.

Inductive exn :=
| KeyError (key : string)
| ValueError (msg : string)
| TypeError
| AttributeError
| ZeroDivisionError
| OverflowError
| ClientError (s : service).

Inductive result (A : Type) :=
| Ok (a : A)
| Raise (e : exn).
Arguments Ok {A} a.
Arguments Raise {A} e.

#[export] Instance result_ret : MRet result := fun A a => Ok a.
#[export] Instance result_bind : MBind result := fun A B k r =>
  match r with
  | Ok a => k a
  | Raise e => Raise e
  end.

(** [d['key']] on an optional field. *)
Definition getitem {A} (key : string) (field : option A) : result A :=
  match field with
  | Some a => Ok a
  | None => Raise (KeyError key)
  end.

(** ** Rational arithmetic as Python floats use it *)

Definition Qlt_bool (x y : Q) : bool := negb (Qle_bool y x).

(** [min(a, b)] returns [a] unless [b < a]; [max(a, b)] returns [a]
    unless [b > a]. *)
Definition py_min (a b : Q) : Q := if Qlt_bool b a then b else a.
Definition py_max (a b : Q) : Q := if Qlt_bool a b then b else a.

(** [x / y] on floats. *)
Definition py_div (x y : Q) : result Q :=
  if Qeq_bool y 0 then Raise ZeroDivisionError else Ok (x / y)%Q.

(** From this magnitude on a result does not round to a [float]: the
    midpoint between the largest [float] and [2 ** 1024]. *)
Definition float_overflow : Q := inject_Z (2 ^ 1024 - 2 ^ 970).

(** [x ** 2] on floats: [OverflowError] when the square is out of range. *)
Definition py_pow2 (x : Q) : result Q :=
  if Qle_bool float_overflow (x ^ 2) then Raise OverflowError
  else Ok (x ^ 2)%Q.

(** [round(x, ndigits)]: to the nearest multiple of [10 ** -ndigits],
    ties to even. *)
Definition round_half_even (y : Q) : Z :=
  let f := Qfloor y in
  let r := (y - inject_Z f)%Q in
  if Qlt_bool r (1 # 2) then f
  else if Qlt_bool (1 # 2) r then f + 1
  else if Z.even f then f else f + 1.

Definition py_round (x : Q) (ndigits : nat) : Q :=
  let s := inject_Z (10 ^ Z.of_nat ndigits) in
  (inject_Z (round_half_even (x * s)) / s)%Q.

(** ** Python values of numeric dict entries *)

(** A [str]: either the decimal literal of a number (what [str] of a
    [Decimal] gives, and what [float] accepts), or any other text, which
    [float] rejects.  (The spellings of [nan] and of the infinities, which
    [float] accepts, stand for values that are not represented.) *)
Inductive pystr :=
| Numeral (q : Q)
| Text (s : string).

Inductive pyval :=
| PInt (z : Z)
| PFloat (x : Q)
| PDecimal (q : Q)
| PStr (s : pystr).

(** [float(v)] *)
Definition py_float (v : pyval) : result Q :=
  match v with
  | PInt z => Ok (inject_Z z)
  | PFloat x => Ok x
  | PDecimal q => Ok q
  | PStr (Numeral q) => Ok q
  | PStr (Text s) => Raise (ValueError "could not convert string to float")
  end.

(** Truth value of [d.get('k')]: [None], a zero number and the empty
    string are false. *)
Definition truthy (v : option pyval) : bool :=
  match v with
  | None => false
  | Some (PInt z) => negb (z =? 0)
  | Some (PFloat x) => negb (Qeq_bool x 0)
  | Some (PDecimal q) => negb (Qeq_bool q 0)
  | Some (PStr (Numeral _)) => true
  | Some (PStr (Text s)) => negb (String.eqb s "")
  end.

(** [v + 1] for an [int] literal on the right: numbers stay in their
    type, [str + int] is a [TypeError]. *)
Definition py_add_int (v : pyval) (n : Z) : result pyval :=
  match v with
  | PInt z => Ok (PInt (z + n))
  | PFloat x => Ok (PFloat (x + inject_Z n)%Q)
  | PDecimal q => Ok (PDecimal (q + inject_Z n)%Q)
  | PStr _ => Raise TypeError
  end.

(** [v > 0] *)
Definition py_gt_zero (v : pyval) : result bool :=
  match v with
  | PInt z => Ok (0 <? z)
  | PFloat x => Ok (Qlt_bool 0 x)
  | PDecimal q => Ok (Qlt_bool 0 q)
  | PStr _ => Raise TypeError
  end.

(** An operand of arithmetic that also involves a [float]: an [int] or a
    [float] takes part with its value; a [Decimal] or a [str] makes the
    expression raise [TypeError] ([Decimal] and [float] do not mix, and
    [str * int] is a [str], which cannot be added to a [float]). *)
Definition float_operand (v : pyval) : result Q :=
  match v with
  | PInt z => Ok (inject_Z z)
  | PFloat x => Ok x
  | PDecimal _ => Raise TypeError
  | PStr _ => Raise TypeError
  end.

(** ** Data model *)

(** Microseconds since the epoch, UTC. *)
Definition datetime := Z.
Definition timedelta_hours (h : Z) : Z := h * 3600 * 1000000.
Definition hour_of (t : datetime) : Z := (t / timedelta_hours 1) mod 24.

(** The value under a ['location'] key: a dict, or anything else. *)
Record Location := {
  latitude : option pyval;
  longitude : option pyval;
  city : option string;
  state : option string;
  country : option string
}.

Inductive LocationValue :=
| LocDict (l : Location)
| LocOther.

Definition empty_location : Location :=
  {| latitude := None; longitude := None; city := None; state := None;
     country := None |}.

(** [v.get(k)] where [v] is the value under ['location']: only a dict
    has [get]. *)
Definition loc_get {A} (v : LocationValue) (k : Location -> option A)
  : result (option A) :=
  match v with
  | LocDict l => Ok (k l)
  | LocOther => Raise AttributeError
  end.

(** A transaction dict: the decoded payload, the validated transaction
    and the entries of the recent-transaction window. *)
Record Transaction := {
  transaction_id : option string;
  customer_id : option string;
  amount : option pyval;
  currency : option string;
  merchant_id : option string;
  merchant_category : option string;
  timestamp : option datetime;
  location : option LocationValue
}.

(** A customer profile dict (key ['location'] is [home_location], key
    ['customer_id'] is [profile_customer_id]). *)
Record Profile := {
  profile_customer_id : string;
  account_created : option datetime;
  risk_profile : option string;
  average_monthly_spend : option pyval;
  transaction_count : option pyval;
  fraud_count : option pyval;
  home_location : option LocationValue;
  last_transaction_timestamp : option datetime;
  last_updated : option datetime
}.

Record RiskAssessment := {
  risk_score : Q;
  risk_factors : list (string * Q);
  is_fraud : bool;
  fraud_reasons : list string
}.

(** ** Configuration (environment variables) *)

Class Config := {
  FRAUD_THRESHOLD : Q;
  VELOCITY_THRESHOLD : Z;
  AMOUNT_THRESHOLD_MULTIPLIER : Q
}.

(** [x ** 0.5] on floats. *)
Class FloatMath := { pow_half : Q -> Q }.

(** ** FraudDetector *)

Section FraudDetector.
Context `{Config} `{FloatMath}.

(** [self.risk_weights] *)
Definition weight_velocity : Q := 0.4.
Definition weight_amount : Q := 0.3.
Definition weight_location : Q := 0.2.
Definition weight_time : Q := 0.1.

(** The loop of [_check_velocity_risk]: entries later than
    [one_hour_ago] are counted. *)
Fixpoint count_recent (one_hour_ago : datetime)
    (recent_transactions : list Transaction) (recent_count : Z)
  : result Z :=
  match recent_transactions with
  | [] => Ok recent_count
  | txn :: rest =>
      txn_time ← getitem "timestamp" (timestamp txn);
      count_recent one_hour_ago rest
        (if one_hour_ago <? txn_time then recent_count + 1
         else recent_count)
  end.

Definition _check_velocity_risk (transaction : Transaction)
    (recent_transactions : list Transaction) : result Q :=
  match recent_transactions with
  | [] => Ok 0%Q
  | _ =>
      current_time ← getitem "timestamp" (timestamp transaction);
      let one_hour_ago := current_time - timedelta_hours 1 in
      recent_count ← count_recent one_hour_ago recent_transactions 0;
      if VELOCITY_THRESHOLD <=? recent_count then
        r ← py_div (inject_Z recent_count)
              (inject_Z (VELOCITY_THRESHOLD * 2));
        Ok (py_min 1 r)
      else Ok 0%Q
  end.

Definition _check_amount_risk (transaction : Transaction)
    (customer_profile : Profile) : result Q :=
  a ← getitem "amount" (amount transaction);
  amount ← py_float a;
  s ← py_float
        (default (PInt 1000) (average_monthly_spend customer_profile));
  let avg_spend := (s / 30)%Q in
  if Qlt_bool (avg_spend * AMOUNT_THRESHOLD_MULTIPLIER) amount then
    risk ← py_div amount (avg_spend * AMOUNT_THRESHOLD_MULTIPLIER * 2);
    Ok (py_min 1 risk)
  else if Qlt_bool 10000 amount then Ok 0.8%Q
  else Ok 0%Q.

(** The [try] body of [_calculate_distance]. *)
Definition distance_body (loc1 loc2 : Location) : result Q :=
  lat1 ← getitem "latitude" (latitude loc1) ≫= py_float;
  lon1 ← getitem "longitude" (longitude loc1) ≫= py_float;
  lat2 ← getitem "latitude" (latitude loc2) ≫= py_float;
  lon2 ← getitem "longitude" (longitude loc2) ≫= py_float;
  let dlat := Qabs (lat1 - lat2) in
  let dlon := Qabs (lon1 - lon2) in
  dlat2 ← py_pow2 dlat;
  dlon2 ← py_pow2 dlon;
  Ok (pow_half (dlat2 + dlon2) * 69)%Q.

Definition _calculate_distance (loc1 loc2 : Location) : result Q :=
  match distance_body loc1 loc2 with
  | Ok distance => Ok distance
  | Raise (KeyError _) | Raise (ValueError _) | Raise TypeError => Ok 0%Q
  | Raise e => Raise e
  end.

(** [recent_transactions[-5:]] *)
Definition last5 {A} (l : list A) : list A := drop (length l - 5)%nat l.

(** The loop of [_check_location_risk] over the slice: the first entry
    with coordinates farther than 500 miles decides; falling out of the
    loop reaches [return 0.0]. *)
Fixpoint scan_recent (txn_location : Location)
    (slice : list Transaction) : result Q :=
  match slice with
  | [] => Ok 0%Q
  | recent_txn :: rest =>
      let recent_location :=
        default (LocDict empty_location) (location recent_txn) in
      lat ← loc_get recent_location latitude;
      has_coordinates ←
        (if truthy lat then
           lon ← loc_get recent_location longitude; Ok (truthy lon)
         else Ok false);
      if has_coordinates : bool then
        distance ←
          _calculate_distance txn_location
            (match recent_location with
             | LocDict l => l
             | LocOther => empty_location
             end);
        if Qlt_bool 500 distance then Ok (py_min 0.8 (distance / 1000))
        else scan_recent txn_location rest
      else scan_recent txn_location rest
  end.

Definition _check_location_risk (transaction : Transaction)
    (customer_profile : Profile)
    (recent_transactions : list Transaction) : result Q :=
  let txn_location :=
    default (LocDict empty_location) (location transaction) in
  let customer_location :=
    default (LocDict empty_location) (home_location customer_profile) in
  customer_country ← loc_get customer_location country;
  international ←
    (if bool_decide (customer_country = Some "US") then
       txn_country ← loc_get txn_location country;
       Ok (negb (bool_decide (txn_country = Some "US")))
     else Ok false);
  if international : bool then Ok 0.6%Q
  else
    match recent_transactions with
    | [] => Ok 0%Q
    | _ =>
        lat ← loc_get txn_location latitude;
        has_coordinates ←
          (if truthy lat then
             lon ← loc_get txn_location longitude; Ok (truthy lon)
           else Ok false);
        if has_coordinates : bool then
          scan_recent
            (match txn_location with
             | LocDict l => l
             | LocOther => empty_location
             end)
            (last5 recent_transactions)
        else Ok 0%Q
    end.

Definition _check_time_risk (transaction : Transaction) : result Q :=
  txn_time ← getitem "timestamp" (timestamp transaction);
  let hour := hour_of txn_time in
  if (2 <=? hour) && (hour <=? 6) then Ok 0.4%Q
  else if (hour <? 6) || (22 <? hour) then Ok 0.2%Q
  else Ok 0%Q.

Definition calculate_risk_score (transaction : Transaction)
    (customer_profile : Profile)
    (recent_transactions : list Transaction) : result RiskAssessment :=
  let total_risk := 0%Q in
  velocity_risk ← _check_velocity_risk transaction recent_transactions;
  let total_risk := (total_risk + velocity_risk * weight_velocity)%Q in
  amount_risk ← _check_amount_risk transaction customer_profile;
  let total_risk := (total_risk + amount_risk * weight_amount)%Q in
  location_risk ←
    _check_location_risk transaction customer_profile recent_transactions;
  let total_risk := (total_risk + location_risk * weight_location)%Q in
  time_risk ← _check_time_risk transaction;
  let total_risk := (total_risk + time_risk * weight_time)%Q in
  let risk_factors :=
    [("velocity", velocity_risk); ("amount", amount_risk);
     ("location", location_risk); ("time", time_risk)] in
  let total_risk := py_min (py_max total_risk 0) 1 in
  Ok {| risk_score := py_round total_risk 3;
        risk_factors := risk_factors;
        is_fraud := Qlt_bool FRAUD_THRESHOLD total_risk;
        fraud_reasons :=
          map fst
            (filter (fun fs => Qlt_bool 0.5 (snd fs) = true)
               risk_factors) |}.

End FraudDetector.

(** ** Pipeline data *)

(** [{**validated_transaction, 'risk_score': ..., 'is_fraud': ...,
    'fraud_reasons': ..., 'risk_factors': ..., 'processed_timestamp': ...,
    'processor_version': ...}]: the four analysis entries are kept together
    in [analysis]. *)
Record EnrichedTransaction := {
  base : Transaction;
  analysis : RiskAssessment;
  processed_timestamp : datetime;
  processor_version : string
}.

(** The dict returned by [process_transaction]. *)
Record Summary := {
  status : string;
  summary_transaction_id : string;
  summary_risk_score : Q;
  summary_is_fraud : bool
}.

Record MetricDatum := {
  MetricName : string;
  Value : Q;
  Unit : string
}.

(** The S3 key [transactions/year=%Y/month=%m/day=%d/hour=%H/<id>.json]:
    the partition path is determined by the hour the timestamp falls in. *)
Record S3Key := {
  partition_hour : Z;
  key_transaction_id : string
}.

Inductive LogRecord :=
| LogError (msg : string) (e : exn)
| LogWarning (msg : string) (score : Q)
| LogInfo (msg : string).

(** One record of the Kinesis event: its data decodes
    ([json.loads(base64.b64decode(...))]) to a payload, or decoding
    raises. *)
Inductive KinesisRecord :=
| Payload (transaction_data : Transaction)
| Undecodable (e : exn).

(** The body of the response of [lambda_handler]. *)
Record Response := {
  statusCode : Z;
  processed : Z;
  errors : Z;
  fraud_detected : Z;
  response_timestamp : datetime
}.

(** ** The DynamoDB conversions

    [_convert_to_dynamodb_format] is
    [json.loads(json.dumps(item, default=str), parse_float=Decimal)]: a
    [float] comes out as a [Decimal]; a [Decimal] on the way in is not JSON
    and goes through [default=str].  [_convert_from_dynamodb_format] is
    [json.loads(json.dumps(item, default=str))]: a [Decimal] comes out as a
    [str].  Both act on every entry of the dict. *)

Definition to_dynamodb_value (v : pyval) : pyval :=
  match v with
  | PInt z => PInt z
  | PFloat x => PDecimal x
  | PDecimal q => PStr (Numeral q)
  | PStr s => PStr s
  end.

Definition from_dynamodb_value (v : pyval) : pyval :=
  match v with
  | PInt z => PInt z
  | PFloat x => PFloat x
  | PDecimal q => PStr (Numeral q)
  | PStr s => PStr s
  end.

Definition map_location (f : pyval -> pyval) (v : LocationValue)
  : LocationValue :=
  match v with
  | LocDict l =>
      LocDict {| latitude := f <$> latitude l;
                 longitude := f <$> longitude l;
                 city := city l; state := state l; country := country l |}
  | LocOther => LocOther
  end.

Definition map_transaction (f : pyval -> pyval) (t : Transaction)
  : Transaction :=
  {| transaction_id := transaction_id t;
     customer_id := customer_id t;
     amount := f <$> amount t;
     currency := currency t;
     merchant_id := merchant_id t;
     merchant_category := merchant_category t;
     timestamp := timestamp t;
     location := map_location f <$> location t |}.

Definition map_profile (f : pyval -> pyval) (p : Profile) : Profile :=
  {| profile_customer_id := profile_customer_id p;
     account_created := account_created p;
     risk_profile := risk_profile p;
     average_monthly_spend := f <$> average_monthly_spend p;
     transaction_count := f <$> transaction_count p;
     fraud_count := f <$> fraud_count p;
     home_location := map_location f <$> home_location p;
     last_transaction_timestamp := last_transaction_timestamp p;
     last_updated := last_updated p |}.

Definition map_enriched (f : pyval -> pyval) (e : EnrichedTransaction)
  : EnrichedTransaction :=
  {| base := map_transaction f (base e);
     analysis := analysis e;
     processed_timestamp := processed_timestamp e;
     processor_version := processor_version e |}.

(** The two conversions at the dict types the pipeline passes to them. *)
Class Item (A : Type) := map_item : (pyval -> pyval) -> A -> A.
#[export] Instance profile_item : Item Profile := map_profile.
#[export] Instance transaction_item : Item Transaction := map_transaction.
#[export] Instance enriched_item : Item EnrichedTransaction := map_enriched.

Definition _convert_to_dynamodb_format `{Item A} (item : A) : A :=
  map_item to_dynamodb_value item.

Definition _convert_from_dynamodb_format `{Item A} (item : A) : A :=
  map_item from_dynamodb_value item.

(** ** The collaborators: tables, bucket, metrics, log, clock

    The module-level clients ([transactions_table], [customers_table],
    [s3_client], [cloudwatch], [logger]) and the sources of time and
    randomness are the state the pipeline runs in.  Any external call may
    raise; which ones do is the [outage] of the world. *)

Inductive call :=
| GetItem (customer : string)
| PutProfile (item : Profile)
| Query (customer : string) (start_time : datetime)
| PutTransaction (item : EnrichedTransaction)
| PutObject (key : S3Key) (body : EnrichedTransaction)
| PutMetricData (metrics : list MetricDatum).

Definition service_of (c : call) : service :=
  match c with
  | GetItem _ => CustomersGet
  | PutProfile _ => CustomersPut
  | Query _ _ => TransactionsQuery
  | PutTransaction _ => TransactionsPut
  | PutObject _ _ => S3Put
  | PutMetricData _ => CloudWatchPut
  end.

Record World := {
  customers_table : gmap string Profile;
  transactions_table : list EnrichedTransaction;
  s3_raw_bucket : list (S3Key * EnrichedTransaction);
  cloudwatch : list (list MetricDatum);
  logger : list LogRecord;
  clock : datetime;
  uuid_hex : nat -> string;
  uuid_drawn : nat;
  outage : call -> bool
}.

Definition with_customers (f : gmap string Profile -> gmap string Profile)
    (w : World) : World :=
  {| customers_table := f (customers_table w);
     transactions_table := transactions_table w;
     s3_raw_bucket := s3_raw_bucket w;
     cloudwatch := cloudwatch w;
     logger := logger w;
     clock := clock w;
     uuid_hex := uuid_hex w;
     uuid_drawn := uuid_drawn w;
     outage := outage w |}.

Definition with_transactions
    (f : list EnrichedTransaction -> list EnrichedTransaction)
    (w : World) : World :=
  {| customers_table := customers_table w;
     transactions_table := f (transactions_table w);
     s3_raw_bucket := s3_raw_bucket w;
     cloudwatch := cloudwatch w;
     logger := logger w;
     clock := clock w;
     uuid_hex := uuid_hex w;
     uuid_drawn := uuid_drawn w;
     outage := outage w |}.

Definition with_bucket
    (f : list (S3Key * EnrichedTransaction) ->
         list (S3Key * EnrichedTransaction))
    (w : World) : World :=
  {| customers_table := customers_table w;
     transactions_table := transactions_table w;
     s3_raw_bucket := f (s3_raw_bucket w);
     cloudwatch := cloudwatch w;
     logger := logger w;
     clock := clock w;
     uuid_hex := uuid_hex w;
     uuid_drawn := uuid_drawn w;
     outage := outage w |}.

Definition with_cloudwatch
    (f : list (list MetricDatum) -> list (list MetricDatum))
    (w : World) : World :=
  {| customers_table := customers_table w;
     transactions_table := transactions_table w;
     s3_raw_bucket := s3_raw_bucket w;
     cloudwatch := f (cloudwatch w);
     logger := logger w;
     clock := clock w;
     uuid_hex := uuid_hex w;
     uuid_drawn := uuid_drawn w;
     outage := outage w |}.

Definition with_logger (f : list LogRecord -> list LogRecord)
    (w : World) : World :=
  {| customers_table := customers_table w;
     transactions_table := transactions_table w;
     s3_raw_bucket := s3_raw_bucket w;
     cloudwatch := cloudwatch w;
     logger := f (logger w);
     clock := clock w;
     uuid_hex := uuid_hex w;
     uuid_drawn := uuid_drawn w;
     outage := outage w |}.

Definition with_uuid_drawn (f : nat -> nat) (w : World) : World :=
  {| customers_table := customers_table w;
     transactions_table := transactions_table w;
     s3_raw_bucket := s3_raw_bucket w;
     cloudwatch := cloudwatch w;
     logger := logger w;
     clock := clock w;
     uuid_hex := uuid_hex w;
     uuid_drawn := f (uuid_drawn w);
     outage := outage w |}.

(** Effectful code: a result and the world after it, also when it
    raises. *)
Definition M (A : Type) : Type := World -> result A * World.

#[export] Instance M_ret : MRet M := fun A a w => (Ok a, w).
#[export] Instance M_bind : MBind M := fun A B k m w =>
  match m w with
  | (Ok a, w') => k a w'
  | (Raise e, w') => (Raise e, w')
  end.

Definition raise {A} (e : exn) : M A := fun w => (Raise e, w).
Definition lift {A} (r : result A) : M A := fun w => (r, w).

(** [try: body  except Exception as e: handler(e)] *)
Definition try_except {A} (body : M A) (handler : exn -> M A) : M A :=
  fun w =>
    match body w with
    | (Ok a, w') => (Ok a, w')
    | (Raise e, w') => handler e w'
    end.

(** Reading and changing the state. *)
Definition gets {A} (f : World -> A) : M A := fun w => (Ok (f w), w).
Definition modify (f : World -> World) : M unit := fun w => (Ok tt, f w).

(** An external call raises when the service is out. *)
Definition external (c : call) : M unit := fun w =>
  if outage w c then (Raise (ClientError (service_of c)), w)
  else (Ok tt, w).

Definition logger_log (r : LogRecord) : M unit :=
  modify (with_logger (cons r)).

(** [datetime.now()] *)
Definition datetime_now : M datetime := gets clock.

(** [f"txn_{int(datetime.now().timestamp())}_{uuid.uuid4().hex[:8]}"]:
    reads the clock and draws a uuid; it cannot raise. *)
Definition generate_transaction_id (w : World) : string * World :=
  ("txn_" +:+ pretty (clock w / 1000000) +:+ "_"
     +:+ uuid_hex w (uuid_drawn w),
   with_uuid_drawn S w).

(** DynamoDB has one number type, and the resource API hands every number
    back as a [Decimal]. *)
Definition number_as_decimal (v : pyval) : pyval :=
  match v with
  | PInt z => PDecimal (inject_Z z)
  | PFloat x => PDecimal x
  | PDecimal q => PDecimal q
  | PStr s => PStr s
  end.

(** [customers_table.get_item(Key={'customer_id': customer_id})]: the
    item, if there is one ([response['Item']]). *)
Definition customers_get_item (customer : string) : M (option Profile) :=
  external (GetItem customer);;
  gets (fun w =>
          map_profile number_as_decimal <$> customers_table w !! customer).

(** [customers_table.put_item(Item=item)] *)
Definition customers_put_item (item : Profile) : M unit :=
  external (PutProfile item);;
  modify (with_customers <[profile_customer_id item := item]>).

(** The key of the transactions table is (['customer_id'], ['timestamp']),
    the two attributes of the query's key condition. *)
Definition same_key (x y : EnrichedTransaction) : bool :=
  bool_decide (customer_id (base x) = customer_id (base y)
               /\ timestamp (base x) = timestamp (base y)).

(** [transactions_table.put_item(Item=item)]: an upsert on the key. *)
Definition transactions_put_item (item : EnrichedTransaction) : M unit :=
  external (PutTransaction item);;
  modify
    (with_transactions
       (fun table =>
          item :: filter (fun x => same_key x item = false) table)).

(** Descending order on the sort key. *)
Fixpoint insert_desc (x : EnrichedTransaction)
    (sorted : list EnrichedTransaction) : list EnrichedTransaction :=
  match sorted with
  | [] => [x]
  | y :: rest =>
      if default 0 (timestamp (base y)) <=? default 0 (timestamp (base x))
      then x :: y :: rest
      else y :: insert_desc x rest
  end.

Definition sort_desc (items : list EnrichedTransaction)
  : list EnrichedTransaction :=
  foldr insert_desc [] items.

(** [transactions_table.query(...)] with the key condition
    [customer_id = :customer_id AND timestamp >= :start_time],
    [ScanIndexForward=False] and [Limit=50]: the ['Items']. *)
Definition transactions_query (customer : string) (start_time : datetime)
  : M (list EnrichedTransaction) :=
  external (Query customer start_time);;
  gets (fun w =>
          take 50
            (sort_desc
               (filter
                  (fun x =>
                     customer_id (base x) = Some customer
                     /\ start_time <= default 0 (timestamp (base x)))
                  (map_enriched number_as_decimal
                     <$> transactions_table w)))).

(** [s3_client.put_object(...)] *)
Definition s3_put_object (key : S3Key) (body : EnrichedTransaction)
  : M unit :=
  external (PutObject key body);;
  modify (with_bucket (cons (key, body))).

(** [cloudwatch.put_metric_data(...)] *)
Definition cloudwatch_put_metric_data (metrics : list MetricDatum)
  : M unit :=
  external (PutMetricData metrics);;
  modify (with_cloudwatch (cons metrics)).

(** ** TransactionProcessor *)

Definition present {A} (field : option A) : bool :=
  match field with
  | Some _ => true
  | None => false
  end.

(** [required_fields], each with the test [field in transaction]. *)
Definition required_fields : list (string * (Transaction -> bool)) :=
  [("customer_id", fun t => present (customer_id t));
   ("amount", fun t => present (amount t));
   ("currency", fun t => present (currency t));
   ("merchant_id", fun t => present (merchant_id t));
   ("merchant_category", fun t => present (merchant_category t));
   ("timestamp", fun t => present (timestamp t));
   ("location", fun t => present (location t))].

Fixpoint check_required (fields : list (string * (Transaction -> bool)))
    (transaction : Transaction) : result unit :=
  match fields with
  | [] => Ok tt
  | (field, is_in) :: rest =>
      if is_in transaction then check_required rest transaction
      else Raise (ValueError ("Missing required field: " +:+ field))
  end.

(** [transaction['transaction_id'] = ...] *)
Definition set_transaction_id (id : string) (t : Transaction)
  : Transaction :=
  {| transaction_id := Some id;
     customer_id := customer_id t;
     amount := amount t;
     currency := currency t;
     merchant_id := merchant_id t;
     merchant_category := merchant_category t;
     timestamp := timestamp t;
     location := location t |}.

Definition supported_currencies : list string :=
  ["USD"; "EUR"; "GBP"; "CAD"].

(** The amount, currency and location checks, and [return transaction]. *)
Definition validate_checks (transaction : Transaction)
  : result Transaction :=
  a ← getitem "amount" (amount transaction);
  amount ← py_float a;
  if Qle_bool amount 0 then
    Raise (ValueError "Transaction amount must be positive")
  else
    c ← getitem "currency" (currency transaction);
    if bool_decide (c ∈ supported_currencies) then
      match default (LocDict empty_location) (location transaction) with
      | LocDict _ => Ok transaction
      | LocOther => Raise (ValueError "Location must be an object")
      end
    else Raise (ValueError ("Unsupported currency: " +:+ c)).

(** [_validate_transaction] works on the dict it is given.  The result
    is: what the call returns or raises, the caller's dict as the call
    leaves it, and the world after the call. *)
Definition _validate_transaction (transaction : Transaction) (w : World)
  : result Transaction * Transaction * World :=
  match check_required required_fields transaction with
  | Raise e => (Raise e, transaction, w)
  | Ok _ =>
      let '(transaction, w) :=
        match transaction_id transaction with
        | Some _ => (transaction, w)
        | None =>
            let '(id, w) := generate_transaction_id w in
            (set_transaction_id id transaction, w)
        end in
      (validate_checks transaction, transaction, w)
  end.

Definition default_profile (customer : string) (now : datetime) : Profile :=
  {| profile_customer_id := customer;
     account_created := Some now;
     risk_profile := Some "medium";
     average_monthly_spend := Some (PFloat 1000);
     transaction_count := Some (PInt 0);
     fraud_count := Some (PInt 0);
     home_location := None;
     last_transaction_timestamp := None;
     last_updated := None |}.

Definition fallback_profile (customer : string) : Profile :=
  {| profile_customer_id := customer;
     account_created := None;
     risk_profile := Some "high";
     average_monthly_spend := Some (PFloat 500);
     transaction_count := Some (PInt 0);
     fraud_count := Some (PInt 0);
     home_location := None;
     last_transaction_timestamp := None;
     last_updated := None |}.

Definition _get_customer_profile (customer : string) : M Profile :=
  try_except
    (response ← customers_get_item customer;
     match response with
     | None =>
         now ← datetime_now;
         let profile := default_profile customer now in
         customers_put_item (_convert_to_dynamodb_format profile);;
         mret profile
     | Some item => mret (_convert_from_dynamodb_format item)
     end)
    (fun e =>
       logger_log
         (LogError ("Error retrieving customer profile for " +:+ customer)
            e);;
       mret (fallback_profile customer)).

Definition _get_recent_transactions (customer : string) (hours : Z)
  : M (list Transaction) :=
  try_except
    (end_time ← datetime_now;
     let start_time := end_time - timedelta_hours hours in
     items ← transactions_query customer start_time;
     mret ((fun item => base (_convert_from_dynamodb_format item))
             <$> items))
    (fun e =>
       logger_log
         (LogError
            ("Error retrieving recent transactions for " +:+ customer) e);;
       mret []).

Definition _store_transaction (transaction : EnrichedTransaction)
  : M unit :=
  try_except
    (let item := _convert_to_dynamodb_format transaction in
     transactions_put_item item)
    (fun e =>
       id ← lift (getitem "transaction_id"
                    (transaction_id (base transaction)));
       logger_log (LogError ("Error storing transaction " +:+ id) e);;
       raise e).

Definition _archive_to_s3 (transaction : EnrichedTransaction) : M unit :=
  try_except
    (ts ← lift (getitem "timestamp" (timestamp (base transaction)));
     id ← lift (getitem "transaction_id"
                  (transaction_id (base transaction)));
     let s3_key :=
       {| partition_hour := ts / timedelta_hours 1;
          key_transaction_id := id |} in
     s3_put_object s3_key transaction)
    (fun e => logger_log (LogError "Error archiving transaction to S3" e)).

(** The [try] body of [_update_customer_profile] up to the dict it
    writes. *)
Definition updated_profile (transaction : EnrichedTransaction)
    (current_profile : Profile) (now : datetime) : result Profile :=
  let current_count :=
    default (PInt 0) (transaction_count current_profile) in
  let current_avg :=
    default (PInt 0) (average_monthly_spend current_profile) in
  new_count ← py_add_int current_count 1;
  a ← getitem "amount" (amount (base transaction));
  transaction_amount ← py_float a;
  positive ← py_gt_zero current_count;
  new_avg ←
    (if positive : bool then
       avg ← float_operand current_avg;
       count ← float_operand current_count;
       n ← float_operand new_count;
       py_div (avg * count + transaction_amount) n
     else Ok transaction_amount);
  let fraud_count := default (PInt 0) (fraud_count current_profile) in
  fraud_count ←
    (if is_fraud (analysis transaction) then py_add_int fraud_count 1
     else Ok fraud_count);
  ts ← getitem "timestamp" (timestamp (base transaction));
  Ok {| profile_customer_id := profile_customer_id current_profile;
        account_created := account_created current_profile;
        risk_profile := risk_profile current_profile;
        average_monthly_spend := Some (PFloat (py_round new_avg 2));
        transaction_count := Some new_count;
        fraud_count := Some fraud_count;
        home_location := home_location current_profile;
        last_transaction_timestamp := Some ts;
        last_updated := Some now |}.

Definition _update_customer_profile (transaction : EnrichedTransaction)
    (current_profile : Profile) : M unit :=
  try_except
    (now ← datetime_now;
     updated ← lift (updated_profile transaction current_profile now);
     customers_put_item (_convert_to_dynamodb_format updated))
    (fun e => logger_log (LogError "Error updating customer profile" e)).

Definition _send_metrics (transaction : EnrichedTransaction) : M unit :=
  try_except
    (a ← lift (getitem "amount" (amount (base transaction)));
     transaction_amount ← lift (py_float a);
     let metrics :=
       [ {| MetricName := "ProcessedTransactions"; Value := 1;
            Unit := "Count" |};
         {| MetricName := "TransactionAmount"; Value := transaction_amount;
            Unit := "None" |};
         {| MetricName := "RiskScore";
            Value := risk_score (analysis transaction);
            Unit := "None" |} ] in
     let metrics :=
       if is_fraud (analysis transaction) then
         (metrics ++ [ {| MetricName := "FraudDetected"; Value := 1;
                          Unit := "Count" |} ])%list
       else metrics in
     cloudwatch_put_metric_data metrics)
    (fun e => logger_log (LogError "Error sending metrics" e)).

Definition _handle_fraud_alert (transaction : EnrichedTransaction)
  : M unit :=
  try_except
    (id ← lift (getitem "transaction_id"
                  (transaction_id (base transaction)));
     customer ← lift (getitem "customer_id"
                        (customer_id (base transaction)));
     logger_log
       (LogWarning
          ("FRAUD DETECTED: Transaction " +:+ id +:+ " for customer "
             +:+ customer)
          (risk_score (analysis transaction))))
    (fun e => logger_log (LogError "Error handling fraud alert" e)).

Section TransactionProcessor.
Context `{Config} `{FloatMath}.

Definition process_transaction (transaction_data : Transaction)
  : M Summary :=
  try_except
    (validated_transaction ←
       (fun w =>
          let '(r, _, w) := _validate_transaction transaction_data w in
          (r, w)) : M Transaction;
     customer ← lift (getitem "customer_id"
                        (customer_id validated_transaction));
     customer_profile ← _get_customer_profile customer;
     customer ← lift (getitem "customer_id"
                        (customer_id validated_transaction));
     recent_transactions ← _get_recent_transactions customer 24;
     fraud_analysis ←
       lift (calculate_risk_score validated_transaction customer_profile
               recent_transactions);
     now ← datetime_now;
     let enriched_transaction :=
       {| base := validated_transaction;
          analysis := fraud_analysis;
          processed_timestamp := now;
          processor_version := "1.0.0" |} in
     _store_transaction enriched_transaction;;
     _archive_to_s3 enriched_transaction;;
     _update_customer_profile enriched_transaction customer_profile;;
     _send_metrics enriched_transaction;;
     (if is_fraud (analysis enriched_transaction) then
        _handle_fraud_alert enriched_transaction
      else mret tt);;
     id ← lift (getitem "transaction_id"
                  (transaction_id (base enriched_transaction)));
     logger_log (LogInfo ("Successfully processed transaction " +:+ id));;
     mret {| status := "success";
             summary_transaction_id := id;
             summary_risk_score :=
               risk_score (analysis enriched_transaction);
             summary_is_fraud := is_fraud (analysis enriched_transaction) |})
    (fun e =>
       logger_log (LogError "Error processing transaction" e);;
       raise e).

(** [json.loads(base64.b64decode(record['kinesis']['data'])...)] *)
Definition decode (record : KinesisRecord) : result Transaction :=
  match record with
  | Payload transaction_data => Ok transaction_data
  | Undecodable e => Raise e
  end.

(** The [for record in event.get('Records', [])] loop with its three
    counters. *)
Fixpoint process_records (records : list KinesisRecord)
    (processed_count error_count fraud_count : Z) (w : World)
  : Z * Z * Z * World :=
  match records with
  | [] => (processed_count, error_count, fraud_count, w)
  | record :: rest =>
      match (payload ← lift (decode record);
             process_transaction payload) w with
      | (Ok result, w) =>
          process_records rest (processed_count + 1) error_count
            (if summary_is_fraud result then fraud_count + 1
             else fraud_count) w
      | (Raise e, w) =>
          process_records rest processed_count (error_count + 1)
            fraud_count
            (with_logger (cons (LogError "Error processing record" e)) w)
      end
  end.

Definition lambda_handler (event : list KinesisRecord) (w : World)
  : Response * World :=
  let '(processed_count, error_count, fraud_count, w) :=
    process_records event 0 0 0 w in
  ({| statusCode := 200;
      processed := processed_count;
      errors := error_count;
      fraud_detected := fraud_count;
      response_timestamp := clock w |}, w).

End TransactionProcessor.

(** ** The phases of [process_transaction]

    The body of its [try] block, cut at the persist step: steps 1 to 5
    produce the enriched transaction and the profile that was fetched;
    steps 7 to 10 and the summary follow the persist step. *)

Section Phases.
Context `{Config} `{FloatMath}.

(** Step 1, as the orchestrator uses it: the returned dict. *)
Definition validated (transaction_data : Transaction) : M Transaction :=
  fun w =>
    let '(r, _, w) := _validate_transaction transaction_data w in
    (r, w).

(** Steps 3 to 5. *)
Definition score_and_enrich (validated_transaction : Transaction)
    (customer_profile : Profile) : M EnrichedTransaction :=
  customer ← lift (getitem "customer_id"
                     (customer_id validated_transaction));
  recent_transactions ← _get_recent_transactions customer 24;
  fraud_analysis ←
    lift (calculate_risk_score validated_transaction customer_profile
            recent_transactions);
  now ← datetime_now;
  mret {| base := validated_transaction;
          analysis := fraud_analysis;
          processed_timestamp := now;
          processor_version := "1.0.0" |}.

Definition scoring_steps (transaction_data : Transaction)
  : M (EnrichedTransaction * Profile) :=
  validated_transaction ← validated transaction_data;
  customer ← lift (getitem "customer_id"
                     (customer_id validated_transaction));
  customer_profile ← _get_customer_profile customer;
  enriched_transaction ←
    score_and_enrich validated_transaction customer_profile;
  mret (enriched_transaction, customer_profile).

Definition best_effort_steps (enriched_transaction : EnrichedTransaction)
    (customer_profile : Profile) : M unit :=
  _archive_to_s3 enriched_transaction;;
  _update_customer_profile enriched_transaction customer_profile;;
  _send_metrics enriched_transaction;;
  (if is_fraud (analysis enriched_transaction) then
     _handle_fraud_alert enriched_transaction
   else mret tt).

Definition success_summary (enriched_transaction : EnrichedTransaction)
  : M Summary :=
  id ← lift (getitem "transaction_id"
               (transaction_id (base enriched_transaction)));
  logger_log (LogInfo ("Successfully processed transaction " +:+ id));;
  mret {| status := "success";
          summary_transaction_id := id;
          summary_risk_score := risk_score (analysis enriched_transaction);
          summary_is_fraud := is_fraud (analysis enriched_transaction) |}.

(** Steps 3 to 10 and the summary: what follows the profile fetch. *)
Definition after_fetch (validated_transaction : Transaction)
    (customer_profile : Profile) : M Summary :=
  enriched_transaction ←
    score_and_enrich validated_transaction customer_profile;
  _store_transaction enriched_transaction;;
  best_effort_steps enriched_transaction customer_profile;;
  success_summary enriched_transaction.

(** [except Exception as e: logger.error(...); raise] *)
Definition log_and_reraise {A} (e : exn) : M A :=
  logger_log (LogError "Error processing transaction" e);;
  raise e.

End Phases.

(** ** Concrete settings *)

(** The defaults of the environment variables. *)
Definition default_config : Config :=
  {| FRAUD_THRESHOLD := 0.8;
     VELOCITY_THRESHOLD := 5;
     AMOUNT_THRESHOLD_MULTIPLIER := 3 |}.

(** A square root that is exact on squares of rationals, for running the
    engine on concrete coordinates. *)
Definition sqrt_on_squares (q : Q) : Q :=
  Qmake (Z.sqrt (Qnum q)) (Z.to_pos (Z.sqrt (Zpos (Qden q)))).

Definition exact_math : FloatMath := {| pow_half := sqrt_on_squares |}.

(** A world with empty tables in which every service answers. *)
Definition empty_world (now : datetime) : World :=
  {| customers_table := ∅;
     transactions_table := [];
     s3_raw_bucket := [];
     cloudwatch := [];
     logger := [];
     clock := now;
     uuid_hex := fun n => pretty n;
     uuid_drawn := 0;
     outage := fun _ => false |}.

Definition with_outage (f : call -> bool) (w : World) : World :=
  {| customers_table := customers_table w;
     transactions_table := transactions_table w;
     s3_raw_bucket := s3_raw_bucket w;
     cloudwatch := cloudwatch w;
     logger := logger w;
     clock := clock w;
     uuid_hex := uuid_hex w;
     uuid_drawn := uuid_drawn w;
     outage := f |}.

(** A location dict with coordinates and a country. *)
Definition place (lat lon : Q) (c : string) : LocationValue :=
  LocDict {| latitude := Some (PFloat lat); longitude := Some (PFloat lon);
             city := None; state := None; country := Some c |}.

(** A payload with every required field and an id. *)
Definition purchase (id customer : string) (a : Q) (ts : datetime)
    (l : LocationValue) : Transaction :=
  {| transaction_id := Some id;
     customer_id := Some customer;
     amount := Some (PFloat a);
     currency := Some "USD";
     merchant_id := Some "m-1";
     merchant_category := Some "grocery";
     timestamp := Some ts;
     location := Some l |}.

(** ** The composite score in the words of the specification *)

(** [clamp(0.4·velocity + 0.3·amount + 0.2·location + 0.1·time, 0, 1)] *)
Definition spec_composite (velocity amount location time : Q) : Q :=
  Qmin 1
    (Qmax 0
       (0.4 * velocity + 0.3 * amount + 0.2 * location + 0.1 * time))%Q.

(** Whether a window entry falls after [one_hour_ago]. *)
Definition in_last_hour (one_hour_ago : datetime) (txn : Transaction)
  : bool :=
  match timestamp txn with
  | Some txn_time => one_hour_ago <? txn_time
  | None => false
  end.

(** ** Sample inputs *)

Definition hour : Z := timedelta_hours 1.
Definition minute : Z := 60 * 1000000.

(** A profile as the table hands it to the scorer, with the given
    average monthly spend. *)
Definition stored_profile (spend : pyval) : Profile :=
  {| profile_customer_id := "c1";
     account_created := None;
     risk_profile := Some "medium";
     average_monthly_spend := Some spend;
     transaction_count := Some (PStr (Numeral 1));
     fraud_count := Some (PStr (Numeral 0));
     home_location := None;
     last_transaction_timestamp := None;
     last_updated := None |}.

(** An afternoon purchase in New York. *)
Definition afternoon_purchase (a : Q) : Transaction :=
  purchase "t-now" "c1" a (14 * hour) (place 40 (-74) "US").

(** The same payload without a ['transaction_id']. *)
Definition anonymous_purchase : Transaction :=
  {| transaction_id := None;
     customer_id := Some "c1";
     amount := Some (PFloat 50);
     currency := Some "USD";
     merchant_id := Some "m-1";
     merchant_category := Some "grocery";
     timestamp := Some (14 * hour);
     location := Some (place 40 (-74) "US") |}.

(** Five earlier purchases of the customer, 10 to 50 minutes before
    [afternoon_purchase], most recent first. *)
Definition five_in_last_hour : list Transaction :=
  (fun i : Z =>
     purchase ("t-" +:+ pretty i) "c1" 20 (14 * hour - i * 10 * minute)
       (place 40 (-74) "US"))
    <$> [1; 2; 3; 4; 5].

(** Ten purchases of the customer in the hour before 03:30, most recent
    first. *)
Definition ten_in_last_hour : list Transaction :=
  (fun i : Z =>
     purchase ("n-" +:+ pretty i) "c1" 20
       (3 * hour + 30 * minute - i * 5 * minute) (place 40 (-74) "US"))
    <$> [1; 2; 3; 4; 5; 6; 7; 8; 9; 10].

(** A customer at home in the US, with the default average spend. *)
Definition us_profile : Profile :=
  {| profile_customer_id := "c1";
     account_created := None;
     risk_profile := Some "medium";
     average_monthly_spend := Some (PStr (Numeral 1000));
     transaction_count := Some (PStr (Numeral 12));
     fraud_count := Some (PStr (Numeral 0));
     home_location := Some (place 40 (-74) "US");
     last_transaction_timestamp := None;
     last_updated := None |}.

(** A purchase of 160.16 in Canada at 03:30. *)
Definition night_purchase_abroad : Transaction :=
  purchase "t-night" "c1" 160.16 (3 * hour + 30 * minute)
    (place 43.7 (-79.4) "CA").

(** A first purchase of less than half a cent. *)
Definition tiny_purchase : Transaction :=
  purchase "t-tiny" "c1" 0.004 (13 * hour) (place 40 (-74) "US").

(** An outage in which the transactions table refuses the transaction
    ["t-now"], and the bucket, the metrics and every profile write are
    out. *)
Definition partial_outage (c : call) : bool :=
  match c with
  | PutTransaction item =>
      bool_decide (transaction_id (base item) = Some "t-now")
  | PutObject _ _ | PutMetricData _ | PutProfile _ => true
  | GetItem _ | Query _ _ => false
  end.

Definition troubled_world : World :=
  with_outage partial_outage (empty_world (13 * hour)).

Definition morning_purchase : Transaction :=
  purchase "t-morning" "c1" 20 (11 * hour) (place 40 (-74) "US").


(** [afternoon_purchase 50], scored as harmless. *)
Definition scored_purchase : EnrichedTransaction :=
  {| base := afternoon_purchase 50;
     analysis :=
       {| risk_score := 0;
          risk_factors :=
            [("velocity", 0%Q); ("amount", 0%Q); ("location", 0%Q);
             ("time", 0%Q)];
          is_fraud := false;
          fraud_reasons := [] |};
     processed_timestamp := 14 * hour;
     processor_version := "1.0.0" |}.

(** A window of six, most recent first: the latest purchase was made 10
    degrees away (690 miles on the code's scale), the five before it on
    the spot. *)
Definition far_then_near : list Transaction :=
  purchase "t-far" "c1" 20 (14 * hour - 5 * minute) (place 46 (-82) "US")
    :: five_in_last_hour.

(** ** Vocabulary for the pipeline properties *)

(** Every service answers. *)
Definition no_outage (w : World) : Prop := forall c, outage w c = false.

(** Every stored profile has a ['transaction_count'], as the profiles this
    code writes have. *)
Definition counted_profiles (w : World) : Prop :=
  forall customer item,
    customers_table w !! customer = Some item ->
    is_Some (transaction_count item).

(** A run of [m] from [w] ends in a world related to [w], whether it
    returns or raises. *)
Definition respects (R : relation World) {A} (m : M A) : Prop :=
  forall w r w', m w = (r, w') -> R w w'.

(** The customers table and the outages are as before. *)
Definition same_customers : relation World := fun w w' =>
  customers_table w' = customers_table w /\ outage w' = outage w.

(** Nothing but the log has changed. *)
Definition only_logged : relation World := fun w w' =>
  exists records, w' = with_logger (app records) w.

(** Profiles were at most added or overwritten, by profiles that have a
    ['transaction_count']. *)
Definition more_customers : relation World := fun w w' =>
  outage w' = outage w
  /\ dom (customers_table w) ⊆ dom (customers_table w')
  /\ (counted_profiles w -> counted_profiles w').

(** ** Vocabulary for the coverage properties *)

(** The value under ['location'] is a dict, or the key is missing. *)
Definition dict_or_absent (v : option LocationValue) : Prop :=
  v <> Some LocOther.

(** Two dicts agree on what the risk engine reads of a transaction. *)
Definition same_for_scoring (x y : Transaction) : Prop :=
  amount x = amount y /\ timestamp x = timestamp y
  /\ location x = location y.

(** A purchase on the equator. *)
Definition equator_purchase : Transaction :=
  purchase "t-eq" "c1" 50 (14 * hour) (place 0 (-74) "US").

(** The same purchase as [afternoon_purchase 50] from another merchant,
    in another currency, under another id. *)
Definition other_merchant_purchase : Transaction :=
  {| transaction_id := Some "t-other";
     customer_id := Some "c2";
     amount := Some (PFloat 50);
     currency := Some "EUR";
     merchant_id := Some "m-2";
     merchant_category := Some "jewelry";
     timestamp := Some (14 * hour);
     location := Some (place 40 (-74) "US") |}.

(** Two window entries agree on what the risk engine reads of them. *)
Definition same_window_entry (x y : Transaction) : Prop :=
  timestamp x = timestamp y /\ location x = location y.

(** [us_profile] with another risk profile and other counters. *)
Definition flagged_us_profile : Profile :=
  {| profile_customer_id := "c2";
     account_created := Some (2 * hour);
     risk_profile := Some "high";
     average_monthly_spend := Some (PStr (Numeral 1000));
     transaction_count := Some (PStr (Numeral 900));
     fraud_count := Some (PStr (Numeral 40));
     home_location := Some (place 40 (-74) "US");
     last_transaction_timestamp := Some (13 * hour);
     last_updated := Some (13 * hour) |}.

(** [x] is not older than [y]. *)
Definition not_older (x y : Transaction) : Prop :=
  default 0 (timestamp y) <= default 0 (timestamp x).

(** A world in which the customers table does not answer reads. *)
Definition customers_unreadable : World :=
  with_outage
    (fun c => match c with GetItem _ => true | _ => false end)
    (empty_world (14 * hour)).

(** The transactions table is as before. *)
Definition same_transactions : relation World := fun w w' =>
  transactions_table w' = transactions_table w.

(** Nothing was recorded: the transactions table, the bucket and the
    metrics are as before. *)
Definition same_records : relation World := fun w w' =>
  transactions_table w' = transactions_table w
  /\ s3_raw_bucket w' = s3_raw_bucket w
  /\ cloudwatch w' = cloudwatch w.

(** The fraud warnings of a log, latest first. *)
Fixpoint warnings (log : list LogRecord) : list (string * Q) :=
  match log with
  | [] => []
  | LogWarning msg score :: rest => (msg, score) :: warnings rest
  | _ :: rest => warnings rest
  end.

(** No fraud warning was logged. *)
Definition same_warnings : relation World := fun w w' =>
  warnings (logger w') = warnings (logger w).

(** A payload without a currency. *)
Definition purchase_without_currency : Transaction :=
  {| transaction_id := None;
     customer_id := Some "c1";
     amount := Some (PFloat 50);
     currency := None;
     merchant_id := Some "m-1";
     merchant_category := Some "grocery";
     timestamp := Some (14 * hour);
     location := Some (place 40 (-74) "US") |}.

(** A world at 03:30 in which the customer of [us_profile] has it stored
    and has made the ten purchases of [ten_in_last_hour]. *)
Definition busy_world : World :=
  with_customers <["c1" := us_profile]>
    (with_transactions
       (fun _ =>
          (fun txn =>
             {| base := txn;
                analysis := analysis scored_purchase;
                processed_timestamp := 3 * hour + 30 * minute;
                processor_version := "1.0.0" |})
            <$> ten_in_last_hour)
       (empty_world (3 * hour + 30 * minute))).

(** Numbers up to this magnitude are far from the range in which the
    arithmetic of this code overflows; their inverses are far from the
    range in which it underflows. *)
Definition magnitude_bound : Q := inject_Z (10 ^ 150).

(** A number of ordinary magnitude: not zero, and between [1e-150] and
    [1e150] in absolute value. *)
Definition ordinary (x : Q) : Prop :=
  (/ magnitude_bound <= Qabs x <= magnitude_bound)%Q.

(** Every coordinate of the location that is a number is at most
    [magnitude_bound] in absolute value. *)
Definition coordinates_in_range (l : Location) : Prop :=
  forall c x,
    latitude l = Some c \/ longitude l = Some c ->
    py_float c = Ok x -> (Qabs x <= magnitude_bound)%Q.

(** The same of the value under a ['location'] key, when it is a dict. *)
Definition located_in_range (v : option LocationValue) : Prop :=
  forall l, v = Some (LocDict l) -> coordinates_in_range l.

(** A place whose latitude is 1e200. *)
Definition place_out_of_range : Location :=
  {| latitude := Some (PFloat (inject_Z (10 ^ 200)));
     longitude := Some (PFloat (-74));
     city := None; state := None; country := Some "US" |}.




(** * Properties *)

(** ** Arithmetic *)

Lemma Qlt_bool_iff (x y : Q) : Qlt_bool x y = true <-> (x < y)%Q.
Proof.
  unfold Qlt_bool. rewrite negb_true_iff, <- not_true_iff_false.
  rewrite Qle_bool_iff. split; [apply Qnot_le_lt | apply Qlt_not_le].
Qed.

Lemma Qlt_bool_false (x y : Q) : Qlt_bool x y = false <-> (y <= x)%Q.
Proof.
  unfold Qlt_bool. rewrite negb_false_iff. apply Qle_bool_iff.
Qed.

Lemma py_min_spec (a b : Q) :
  (b < a /\ py_min a b = b)%Q \/ (a <= b /\ py_min a b = a)%Q.
Proof.
  unfold py_min. destruct (Qlt_bool b a) eqn:E.
  - left. split; [by apply Qlt_bool_iff | done].
  - right. split; [by apply Qlt_bool_false | done].
Qed.

Lemma py_max_spec (a b : Q) :
  (a < b /\ py_max a b = b)%Q \/ (b <= a /\ py_max a b = a)%Q.
Proof.
  unfold py_max. destruct (Qlt_bool a b) eqn:E.
  - left. split; [by apply Qlt_bool_iff | done].
  - right. split; [by apply Qlt_bool_false | done].
Qed.

Lemma py_min_bounds (a b lo : Q) :
  (lo <= a -> lo <= b -> lo <= py_min a b <= a)%Q.
Proof.
  intros Ha Hb. destruct (py_min_spec a b) as [[? ->]|[? ->]]; lra.
Qed.

(** The clamp of [calculate_risk_score] lands in the unit interval. *)
Lemma clamp_bounds (x : Q) : (0 <= py_min (py_max x 0) 1 <= 1)%Q.
Proof.
  destruct (py_max_spec x 0) as [[? ->]|[? ->]];
    destruct (py_min_spec x 1) as [[? E]|[? E]];
    destruct (py_min_spec 0 1) as [[? E0]|[? E0]];
    rewrite ?E, ?E0; lra.
Qed.

(** It is the usual clamp. *)
Lemma clamp_is_Qmin_Qmax (x : Q) :
  (py_min (py_max x 0) 1 == Qmin 1 (Qmax 0 x))%Q.
Proof.
  destruct (py_max_spec x 0) as [[? ->]|[? ->]].
  - rewrite (Q.max_l 0 x) by lra.
    destruct (py_min_spec 0 1) as [[? ->]|[? ->]]; [lra |].
    rewrite Q.min_r; lra.
  - rewrite (Q.max_r 0 x) by lra.
    destruct (py_min_spec x 1) as [[? ->]|[? ->]].
    + rewrite Q.min_l; lra.
    + rewrite Q.min_r; lra.
Qed.

Lemma round_half_even_bounds (y : Q) (n : Z) :
  0 <= n -> (0 <= y <= inject_Z n)%Q -> 0 <= round_half_even y <= n.
Proof.
  intros Hn [Hlo Hhi]. unfold round_half_even.
  pose proof (Qfloor_le y) as Hf. pose proof (Qlt_floor y) as Hf'.
  assert (0 <= Qfloor y) as H0.
  { change 0 with (Qfloor 0). by apply Qfloor_resp_le. }
  assert (Qfloor y <= n) as H1.
  { rewrite <- (Qfloor_Z n). by apply Qfloor_resp_le. }
  destruct (Qlt_bool (y - inject_Z (Qfloor y)) (1 # 2)) eqn:E1; [lia |].
  apply Qlt_bool_false in E1.
  assert (Qfloor y < n).
  { destruct (Z.eq_dec (Qfloor y) n) as [E|]; [| lia].
    rewrite E in E1. lra. }
  destruct (Qlt_bool (1 # 2) (y - inject_Z (Qfloor y))); [lia |].
  destruct (Z.even (Qfloor y)); lia.
Qed.



Lemma py_round_unit (x : Q) (ndigits : nat) :
  (0 <= x <= 1 -> 0 <= py_round x ndigits <= 1)%Q.
Proof.
  intros [Hlo Hhi]. unfold py_round.
  set (s := 10 ^ Z.of_nat ndigits).
  assert (0 < s) as Hs by (apply Z.pow_pos_nonneg; lia).
  assert (0 < inject_Z s)%Q as Hs'.
  { change 0%Q with (inject_Z 0). by rewrite <- Zlt_Qlt. }
  destruct (round_half_even_bounds (x * inject_Z s) s) as [H0 H1];
    [lia | split; nra |].
  rewrite Zle_Qle in H0, H1. change (inject_Z 0) with 0%Q in H0. split.
  - apply Qle_shift_div_l; [done | lra].
  - apply Qle_shift_div_r; [done | lra].
Qed.

(** ** Results *)

Lemma bind_Ok {A B} (r : result A) (k : A -> result B) (b : B) :
  r ≫= k = Ok b <-> exists a, r = Ok a /\ k a = Ok b.
Proof.
  destruct r as [a|e]; simpl; split.
  - intros Hk. by exists a.
  - by intros (a' & [= <-] & Hk).
  - done.
  - by intros (a' & [=] & _).
Qed.

Lemma py_div_Ok (x y q : Q) :
  py_div x y = Ok q -> ~ (y == 0)%Q /\ q = (x / y)%Q.
Proof.
  unfold py_div. destruct (Qeq_bool y 0) eqn:E; [done |].
  intros [= <-]. split; [| done].
  intros Hy. apply Qeq_bool_iff in Hy. congruence.
Qed.

(** Splits a hypothesis [x ← r; k = Ok b] into its steps. *)
Ltac bind_inv H :=
  let a := fresh "a" in
  let Ha := fresh "H" a in
  apply bind_Ok in H as (a & Ha & H).

(** ** The four signals *)

Section Signals.
Context `{Config} `{FloatMath}.

Lemma velocity_in_unit (transaction : Transaction)
    (recent_transactions : list Transaction) (v : Q) :
  0 < VELOCITY_THRESHOLD ->
  _check_velocity_risk transaction recent_transactions = Ok v ->
  (0 <= v <= 1)%Q.
Proof.
  intros HT. unfold _check_velocity_risk.
  destruct recent_transactions as [|txn rest]; [intros [= <-]; lra |].
  intros Hv. bind_inv Hv. bind_inv Hv.
  destruct (VELOCITY_THRESHOLD <=? a0) eqn:E; [| injection Hv as <-; lra].
  apply Z.leb_le in E. bind_inv Hv. injection Hv as <-.
  apply py_div_Ok in Ha1 as [_ ->].
  apply py_min_bounds; [lra |].
  apply Qle_shift_div_l.
  - change 0%Q with (inject_Z 0). rewrite <- Zlt_Qlt. lia.
  - rewrite Qmult_0_l. change 0%Q with (inject_Z 0).
    rewrite <- Zle_Qle. lia.
Qed.

Lemma amount_in_unit (transaction : Transaction)
    (customer_profile : Profile) (s a : Q) :
  (0 < AMOUNT_THRESHOLD_MULTIPLIER)%Q ->
  py_float (default (PInt 1000) (average_monthly_spend customer_profile))
    = Ok s ->
  (0 < s)%Q ->
  _check_amount_risk transaction customer_profile = Ok a ->
  (0 <= a <= 1)%Q.
Proof.
  intros HM Hs Hpos. unfold _check_amount_risk. intros Ha.
  bind_inv Ha. bind_inv Ha. bind_inv Ha.
  rewrite Hs in Ha2. injection Ha2 as <-.
  destruct (Qlt_bool _ a1) eqn:E.
  - apply Qlt_bool_iff in E. bind_inv Ha. injection Ha as <-.
    apply py_div_Ok in Ha2 as [_ ->].
    assert (0 < s / 30 * AMOUNT_THRESHOLD_MULTIPLIER)%Q as Hd.
    { apply Qmult_lt_0_compat; [| done].
      apply Qlt_shift_div_l; lra. }
    apply py_min_bounds; [lra |].
    apply Qle_shift_div_l; lra.
  - destruct (Qlt_bool 10000 a1); injection Ha as <-; lra.
Qed.

Lemma scan_recent_bounds (txn_location : Location)
    (slice : list Transaction) (l : Q) :
  scan_recent txn_location slice = Ok l -> (0 <= l <= 0.8)%Q.
Proof.
  induction slice as [|recent_txn rest IH]; simpl.
  - intros [= <-]. lra.
  - intros Hl. bind_inv Hl. bind_inv Hl.
    destruct a0; [| by apply IH].
    bind_inv Hl.
    destruct (Qlt_bool 500 a0) eqn:E; [| by apply IH].
    apply Qlt_bool_iff in E. injection Hl as <-.
    apply py_min_bounds; [lra |].
    apply Qle_shift_div_l; lra.
Qed.

Lemma location_in_unit (transaction : Transaction)
    (customer_profile : Profile) (recent_transactions : list Transaction)
    (l : Q) :
  _check_location_risk transaction customer_profile recent_transactions
    = Ok l ->
  (0 <= l <= 1)%Q.
Proof.
  unfold _check_location_risk. intros Hl.
  bind_inv Hl. bind_inv Hl.
  destruct a0; [injection Hl as <-; lra |].
  destruct recent_transactions as [|txn rest]; [injection Hl as <-; lra |].
  bind_inv Hl. bind_inv Hl.
  destruct a1; [| injection Hl as <-; lra].
  apply scan_recent_bounds in Hl. lra.
Qed.

Lemma time_in_unit (transaction : Transaction) (t : Q) :
  _check_time_risk transaction = Ok t -> (0 <= t <= 1)%Q.
Proof.
  unfold _check_time_risk. intros Ht. bind_inv Ht.
  destruct (_ && _); [injection Ht as <-; lra |].
  destruct (_ || _); injection Ht as <-; lra.
Qed.

(** [calculate_risk_score] returns exactly when the four checks do, with
    their values as the risk factors. *)
Lemma calculate_risk_score_Ok (transaction : Transaction)
    (customer_profile : Profile) (recent_transactions : list Transaction)
    (a : RiskAssessment) :
  calculate_risk_score transaction customer_profile recent_transactions
    = Ok a <->
  exists velocity amount location time,
    _check_velocity_risk transaction recent_transactions = Ok velocity
    /\ _check_amount_risk transaction customer_profile = Ok amount
    /\ _check_location_risk transaction customer_profile
         recent_transactions = Ok location
    /\ _check_time_risk transaction = Ok time
    /\ let total_risk :=
         py_min
           (py_max
              (0 + velocity * weight_velocity + amount * weight_amount
               + location * weight_location + time * weight_time) 0) 1 in
       a = {| risk_score := py_round total_risk 3;
              risk_factors :=
                [("velocity", velocity); ("amount", amount);
                 ("location", location); ("time", time)];
              is_fraud := Qlt_bool FRAUD_THRESHOLD total_risk;
              fraud_reasons :=
                map fst
                  (filter (fun fs => Qlt_bool 0.5 (snd fs) = true)
                     [("velocity", velocity); ("amount", amount);
                      ("location", location); ("time", time)]) |}.
Proof.
  unfold calculate_risk_score. split.
  - intros Ha. do 4 bind_inv Ha. injection Ha as <-.
    by exists a0, a1, a2, a3.
  - intros (v & am & l & t & -> & -> & -> & -> & ->). done.
Qed.

End Signals.

(** ** The risk engine *)

Section RiskEngine.
Context `{Config} `{FloatMath}.


(** C7, as amended. Whenever scoring returns, the velocity, location and
    time signals lie in [0,1] for every transaction, profile and window,
    and so do the composite score and the reported [risk_score]; the
    amount signal lies in [0,1] when the profile's average monthly spend is
    positive (or absent, 1000 being the default).  The thresholds are taken
    positive, as their defaults are: the velocity threshold for the
    velocity signal, the amount multiplier for the amount signal. *)
Theorem signals_and_composite_in_unit_interval
    (transaction : Transaction) (customer_profile : Profile)
    (recent_transactions : list Transaction) (a : RiskAssessment) :
  calculate_risk_score transaction customer_profile recent_transactions
    = Ok a ->
  exists velocity amount location time,
    _check_velocity_risk transaction recent_transactions = Ok velocity
    /\ _check_amount_risk transaction customer_profile = Ok amount
    /\ _check_location_risk transaction customer_profile
         recent_transactions = Ok location
    /\ _check_time_risk transaction = Ok time
    /\ risk_factors a =
         [("velocity", velocity); ("amount", amount);
          ("location", location); ("time", time)]
    /\ (0 <= location <= 1)%Q
    /\ (0 <= time <= 1)%Q
    /\ (0 <= spec_composite velocity amount location time <= 1)%Q
    /\ (0 <= risk_score a <= 1)%Q
    /\ (0 < VELOCITY_THRESHOLD -> (0 <= velocity <= 1)%Q)
    /\ (forall spend,
          (0 < AMOUNT_THRESHOLD_MULTIPLIER)%Q ->
          py_float
            (default (PInt 1000) (average_monthly_spend customer_profile))
            = Ok spend ->
          (0 < spend)%Q ->
          (0 <= amount <= 1)%Q).
Proof.
  intros Ha. apply calculate_risk_score_Ok in Ha
    as (v & am & l & t & Hv & Ham & Hl & Ht & ->).
  exists v, am, l, t. do 5 (split; [done |]). cbn [risk_score].
  split; [by eapply location_in_unit |].
  split; [by eapply time_in_unit |].
  split.
  { unfold spec_composite. split.
    - apply Q.min_glb; [lra | apply Q.le_max_l].
    - apply Q.le_min_l. }
  split; [apply py_round_unit, clamp_bounds |].
  split; [intros HT; by eapply velocity_in_unit |].
  intros spend HM Hs Hpos. by eapply amount_in_unit.
Qed.

(** Scoring raises on a profile whose average monthly spend is zero: any
    validated amount exceeds the zero threshold and is then divided by
    zero. *)
Lemma score_raises_on_zero_average_spend
    (transaction : Transaction) (customer_profile : Profile)
    (recent_transactions : list Transaction) (spend velocity : Q) :
  validate_checks transaction = Ok transaction ->
  py_float (default (PInt 1000) (average_monthly_spend customer_profile))
    = Ok spend ->
  (spend == 0)%Q ->
  _check_velocity_risk transaction recent_transactions = Ok velocity ->
  calculate_risk_score transaction customer_profile recent_transactions
    = Raise ZeroDivisionError.
Proof.
  intros Hvalid Hs Hzero Hv. unfold calculate_risk_score. rewrite Hv. simpl.
  unfold validate_checks in Hvalid. bind_inv Hvalid. bind_inv Hvalid.
  destruct (Qle_bool a0 0) eqn:Epos; [done |]. clear Hvalid.
  assert (0 < a0)%Q as Hpos.
  { apply Qnot_le_lt. intros Hle. apply Qle_bool_iff in Hle. congruence. }
  unfold _check_amount_risk. rewrite Ha, Hs. simpl. rewrite Ha0. simpl.
  assert (spend / 30 * AMOUNT_THRESHOLD_MULTIPLIER == 0)%Q as Hd.
  { rewrite Hzero. unfold Qdiv. ring. }
  assert (Qlt_bool (spend / 30 * AMOUNT_THRESHOLD_MULTIPLIER) a0 = true)
    as ->.
  { apply Qlt_bool_iff. by rewrite Hd. }
  unfold py_div.
  assert (Qeq_bool (spend / 30 * AMOUNT_THRESHOLD_MULTIPLIER * 2) 0 = true)
    as ->; [| done].
  apply Qeq_bool_iff. rewrite Hd. ring.
Qed.

End RiskEngine.

(** ** Velocity *)

(** With every entry carrying a timestamp, the loop counts the entries
    that fall after [one_hour_ago]. *)
Lemma count_recent_counts (one_hour_ago : datetime)
    (recent_transactions : list Transaction) (recent_count : Z) :
  Forall (fun txn => is_Some (timestamp txn)) recent_transactions ->
  count_recent one_hour_ago recent_transactions recent_count
  = Ok (recent_count
        + Z.of_nat
            (length
               (filter (fun txn => in_last_hour one_hour_ago txn = true)
                  recent_transactions))).
Proof.
  intros Hts. revert recent_count.
  induction Hts as [|txn rest [txn_time Htxn] _ IH]; intros recent_count.
  - simpl. f_equal. lia.
  - simpl. rewrite Htxn. simpl. rewrite IH.
    assert (in_last_hour one_hour_ago txn = (one_hour_ago <? txn_time))
      as Hin by (unfold in_last_hour; by rewrite Htxn).
    rewrite filter_cons, Hin.
    destruct (one_hour_ago <? txn_time) eqn:E.
    + rewrite decide_True by done. simpl length. f_equal. lia.
    + rewrite decide_False by done. done.
Qed.






Lemma signals_and_composite_in_unit_interval_witness :
  exists a,
    @calculate_risk_score default_config exact_math (afternoon_purchase 10)
      (stored_profile (PStr (Numeral (-300)))) five_in_last_hour = Ok a
    /\ exists velocity amount location time,
         @_check_velocity_risk default_config (afternoon_purchase 10)
           five_in_last_hour = Ok velocity
         /\ @_check_amount_risk default_config (afternoon_purchase 10)
              (stored_profile (PStr (Numeral (-300)))) = Ok amount
         /\ @_check_location_risk exact_math (afternoon_purchase 10)
              (stored_profile (PStr (Numeral (-300)))) five_in_last_hour
            = Ok location
         /\ _check_time_risk (afternoon_purchase 10) = Ok time
         /\ risk_factors a =
              [("velocity", velocity); ("amount", amount);
               ("location", location); ("time", time)]
         /\ (0 <= location <= 1)%Q
         /\ (0 <= time <= 1)%Q
         /\ (0 <= spec_composite velocity amount location time <= 1)%Q
         /\ (0 <= risk_score a <= 1)%Q
         /\ (0 < @VELOCITY_THRESHOLD default_config ->
             (0 <= velocity <= 1)%Q)
         /\ (forall spend,
               (0 < @AMOUNT_THRESHOLD_MULTIPLIER default_config)%Q ->
               py_float
                 (default (PInt 1000)
                    (average_monthly_spend
                       (stored_profile (PStr (Numeral (-300))))))
                 = Ok spend ->
               (0 < spend)%Q ->
               (0 <= amount <= 1)%Q).
Proof.
  eexists. split; [vm_compute; reflexivity |].
  apply (@signals_and_composite_in_unit_interval default_config exact_math
           (afternoon_purchase 10) (stored_profile (PStr (Numeral (-300))))
           five_in_last_hour).
  vm_compute. reflexivity.
Defined.

(** C7 as stated fails: a profile whose average monthly spend is negative
    makes the amount signal negative. *)
Lemma negative_spend_gives_negative_amount_signal :
  exists a,
    @calculate_risk_score default_config exact_math (afternoon_purchase 10)
      (stored_profile (PStr (Numeral (-300)))) [] = Ok a
    /\ ~ Forall (fun fs => (0 <= snd fs <= 1)%Q) (risk_factors a).
Proof.
  eexists. split; [vm_compute; reflexivity |].
  cbn [risk_factors]. rewrite !Forall_cons.
  intros (_ & [Hlo _] & _). by vm_compute in Hlo.
Qed.

(** ** Location *)

(** C8 fails on the code. On a window of six whose most recent entry is
    690 miles away, [_check_location_risk] returns 0: the slice [[-5:]] of
    the most-recent-first window holds the five oldest entries.  Scanning
    the five most recent entries would have returned 0.69. *)
Theorem location_scan_misses_the_most_recent :
  @_check_location_risk exact_math (afternoon_purchase 50)
    (stored_profile (PStr (Numeral 1000))) far_then_near = Ok 0%Q
  /\ last5 far_then_near = five_in_last_hour
  /\ exists l,
       @scan_recent exact_math
         {| latitude := Some (PFloat 40); longitude := Some (PFloat (-74));
            city := None; state := None; country := Some "US" |}
         (take 5 far_then_near) = Ok l
       /\ (l == 0.69)%Q.
Proof.
  split; [vm_compute; reflexivity |]. split; [reflexivity |].
  eexists. split; [vm_compute; reflexivity |]. by vm_compute.
Qed.

(** ** Validation *)

Lemma validate_checks_Ok (transaction validated : Transaction) :
  validate_checks transaction = Ok validated -> validated = transaction.
Proof.
  unfold validate_checks. intros Hv. bind_inv Hv. bind_inv Hv.
  destruct (Qle_bool a0 0); [done |]. bind_inv Hv.
  destruct (bool_decide _); [| done].
  destruct (default _ _); [| done]. by injection Hv.
Qed.

Lemma check_required_set_id (id : string) (transaction : Transaction) :
  check_required required_fields (set_transaction_id id transaction)
  = check_required required_fields transaction.
Proof. reflexivity. Qed.

Lemma validate_with_id (transaction : Transaction) (w : World) :
  is_Some (transaction_id transaction) ->
  _validate_transaction transaction w
  = (check_required required_fields transaction
       ≫= (fun _ => validate_checks transaction), transaction, w).
Proof.
  intros [id Hid]. unfold _validate_transaction.
  destruct (check_required required_fields transaction); [| done].
  by rewrite Hid.
Qed.

(** The only thing validation does to the world is to draw a uuid. *)
Lemma validate_world (transaction : Transaction) (w : World) :
  (_validate_transaction transaction w).2 = w
  \/ (_validate_transaction transaction w).2 = with_uuid_drawn S w.
Proof.
  unfold _validate_transaction.
  destruct (check_required _ _); [| by left].
  destruct (transaction_id transaction); [by left | by right].
Qed.

(** C9, as amended. Validation writes to no table, bucket, metric or log.
    Given a transaction that has an id it changes nothing, neither the
    dict nor the world.  Given one without an id (and with the required
    fields) it writes a generated id into the caller's dict, also when a
    later check rejects the transaction.  What it returns is the caller's
    dict, and validating that again returns it unchanged, in any world. *)
Theorem validation_only_fills_in_the_id (transaction : Transaction)
    (w : World) :
  let '(r, after, w') := _validate_transaction transaction w in
  (customers_table w' = customers_table w
   /\ transactions_table w' = transactions_table w
   /\ s3_raw_bucket w' = s3_raw_bucket w
   /\ cloudwatch w' = cloudwatch w
   /\ logger w' = logger w)
  /\ (is_Some (transaction_id transaction) ->
      after = transaction /\ w' = w)
  /\ (transaction_id transaction = None ->
      check_required required_fields transaction = Ok tt ->
      after
      = set_transaction_id (generate_transaction_id w).1 transaction)
  /\ (forall validated, r = Ok validated ->
      validated = after
      /\ forall w2,
           _validate_transaction validated w2
           = (Ok validated, validated, w2)).
Proof.
  destruct (_validate_transaction transaction w) as [[r after] w'] eqn:E.
  unfold _validate_transaction in E.
  destruct (check_required required_fields transaction) as [[]|e] eqn:Ereq.
  - destruct (transaction_id transaction) as [id|] eqn:Eid.
    + injection E as <- <- <-.
      split; [done |]. split; [done |]. split; [done |].
      intros validated Hv. pose proof (validate_checks_Ok _ _ Hv) as ->.
      split; [done |]. intros w2.
      rewrite validate_with_id by (by rewrite Eid).
      by rewrite Ereq, Hv.
    + injection E as <- <- <-.
      split; [done |]. split; [by intros [? [=]] |]. split; [done |].
      intros validated Hv. pose proof (validate_checks_Ok _ _ Hv) as ->.
      split; [done |]. intros w2.
      rewrite validate_with_id by (by eexists).
      by rewrite check_required_set_id, Ereq, Hv.
  - injection E as <- <- <-.
    split; [done |]. split; [done |]. split; [done |]. done.
Qed.

Lemma validation_only_fills_in_the_id_witness :
  let '(r, after, w') :=
    _validate_transaction anonymous_purchase (empty_world (14 * hour)) in
  (customers_table w' = customers_table (empty_world (14 * hour))
   /\ transactions_table w' = transactions_table (empty_world (14 * hour))
   /\ s3_raw_bucket w' = s3_raw_bucket (empty_world (14 * hour))
   /\ cloudwatch w' = cloudwatch (empty_world (14 * hour))
   /\ logger w' = logger (empty_world (14 * hour)))
  /\ (is_Some (transaction_id anonymous_purchase) ->
      after = anonymous_purchase /\ w' = empty_world (14 * hour))
  /\ (transaction_id anonymous_purchase = None ->
      check_required required_fields anonymous_purchase = Ok tt ->
      after
      = set_transaction_id
          (generate_transaction_id (empty_world (14 * hour))).1
          anonymous_purchase)
  /\ (forall validated, r = Ok validated ->
      validated = after
      /\ forall w2,
           _validate_transaction validated w2
           = (Ok validated, validated, w2)).
Proof.
  exact (validation_only_fills_in_the_id anonymous_purchase
           (empty_world (14 * hour))).
Defined.

(** C9 as stated fails: validating a payload without an id changes the
    caller's dict. *)
Lemma validation_writes_the_id_into_its_input :
  let '(r, after, _) :=
    _validate_transaction anonymous_purchase (empty_world (14 * hour)) in
  r = Ok after
  /\ transaction_id after = Some "txn_50400_0"
  /\ after <> anonymous_purchase.
Proof.
  vm_compute. split; [reflexivity |]. split; [reflexivity |]. discriminate.
Qed.

(** ** Effectful code *)

Lemma bind_assoc_at {A B C} (m : M A) (f : A -> M B) (g : B -> M C)
    (w : World) :
  ((m ≫= f) ≫= g) w = (m ≫= (fun a => f a ≫= g)) w.
Proof.
  unfold mbind, M_bind. by destruct (m w) as [[a|e] w'].
Qed.

Lemma bind_ext {A B} (m : M A) (f g : A -> M B) (w : World) :
  (forall a w', f a w' = g a w') -> (m ≫= f) w = (m ≫= g) w.
Proof.
  intros Hfg. unfold mbind, M_bind. by destruct (m w) as [[a|e] w'].
Qed.

Lemma try_except_ext {A} (body1 body2 : M A) (handler : exn -> M A)
    (w : World) :
  body1 w = body2 w ->
  try_except body1 handler w = try_except body2 handler w.
Proof. unfold try_except. by intros ->. Qed.

Lemma ret_bind_at {A B} (a : A) (k : A -> M B) (w : World) :
  (mret a ≫= k) w = k a w.
Proof. reflexivity. Qed.

(** One step of a sequence that ran. *)
Lemma bind_run {A B} (m : M A) (k : A -> M B) (w w' : World) (a : A) :
  m w = (Ok a, w') -> (m ≫= k) w = k a w'.
Proof. unfold mbind, M_bind. by intros ->. Qed.

Lemma bind_raise {A B} (m : M A) (k : A -> M B) (w w' : World) (e : exn) :
  m w = (Raise e, w') -> (m ≫= k) w = (Raise e, w').
Proof. unfold mbind, M_bind. by intros ->. Qed.

(** ** The orchestrator *)

Section Orchestrator.
Context `{Config} `{FloatMath}.

(** [process_transaction] is its phases in sequence. *)
Lemma process_transaction_phases (transaction_data : Transaction)
    (w : World) :
  process_transaction transaction_data w
  = try_except
      ('(enriched, customer_profile) ← scoring_steps transaction_data;
       _store_transaction enriched;;
       best_effort_steps enriched customer_profile;;
       success_summary enriched)
      log_and_reraise w.
Proof.
  unfold process_transaction. apply try_except_ext.
  unfold scoring_steps, score_and_enrich, best_effort_steps,
    success_summary.
  do 7 (rewrite !bind_assoc_at; apply bind_ext; intros ? ?).
  rewrite ?bind_assoc_at, !ret_bind_at. apply bind_ext; intros ? ?.
  do 4 (rewrite ?bind_assoc_at; apply bind_ext; intros ? ?).
  done.
Qed.

End Orchestrator.

(** ** What a step leaves unchanged *)

Create HintDb respects.

Section Respects.
Context (R : relation World) `{!PreOrder R}.

Lemma respects_ret {A} (a : A) : respects R (mret a).
Proof. intros w r w' [= <- <-]. reflexivity. Qed.

Lemma respects_raise {A} (e : exn) : respects R (raise e : M A).
Proof. intros w r w' [= <- <-]. reflexivity. Qed.

Lemma respects_lift {A} (r : result A) : respects R (lift r).
Proof. intros w r' w' [= <- <-]. reflexivity. Qed.

Lemma respects_gets {A} (f : World -> A) : respects R (gets f).
Proof. intros w r w' [= <- <-]. reflexivity. Qed.

Lemma respects_external (c : call) : respects R (external c).
Proof.
  intros w r w'. unfold external.
  destruct (outage w c); intros [= <- <-]; reflexivity.
Qed.

Lemma respects_modify (f : World -> World) :
  (forall w, R w (f w)) -> respects R (modify f).
Proof. intros Hf w r w' [= <- <-]. apply Hf. Qed.

Lemma respects_bind {A B} (m : M A) (k : A -> M B) :
  respects R m -> (forall a, respects R (k a)) -> respects R (m ≫= k).
Proof.
  intros Hm Hk w r w'. unfold mbind, M_bind.
  destruct (m w) as [[a|e] w1] eqn:Em.
  - intros Ek. transitivity w1; [by eapply Hm | by eapply Hk].
  - intros [= <- <-]. by eapply Hm.
Qed.

Lemma respects_try {A} (body : M A) (handler : exn -> M A) :
  respects R body -> (forall e, respects R (handler e)) ->
  respects R (try_except body handler).
Proof.
  intros Hb Hh w r w'. unfold try_except.
  destruct (body w) as [[a|e] w1] eqn:Eb.
  - intros [= <- <-]. by eapply Hb.
  - intros Eh. transitivity w1; [by eapply Hb | by eapply Hh].
Qed.

Lemma respects_if {A} (b : bool) (m1 m2 : M A) :
  respects R m1 -> respects R m2 -> respects R (if b then m1 else m2).
Proof. by destruct b. Qed.

End Respects.

#[export] Instance same_customers_preorder : PreOrder same_customers.
Proof.
  split.
  - by intros w.
  - intros w1 w2 w3 [H1 H2] [H3 H4]. split; congruence.
Qed.

#[export] Instance more_customers_preorder : PreOrder more_customers.
Proof.
  split.
  - by intros w.
  - intros w1 w2 w3 (H1 & H2 & H3) (H4 & H5 & H6).
    split; [congruence |]. split; [set_solver | auto].
Qed.

#[export] Instance only_logged_preorder : PreOrder only_logged.
Proof.
  split.
  - intros w. exists []. by destruct w.
  - intros w1 w2 w3 [r1 ->] [r2 ->]. exists (r2 ++ r1)%list.
    unfold with_logger. simpl. by rewrite app_assoc.
Qed.

Lemma only_logged_same_customers (w w' : World) :
  only_logged w w' -> same_customers w w'.
Proof. by intros [records ->]. Qed.

Lemma same_customers_more_customers (w w' : World) :
  same_customers w w' -> more_customers w w'.
Proof.
  intros [Hc Ho]. split; [done |]. rewrite Hc. split; [done |].
  unfold counted_profiles. by rewrite Hc.
Qed.

Lemma respects_weaken (R1 R2 : relation World) {A} (m : M A) :
  (forall w w', R1 w w' -> R2 w w') -> respects R1 m -> respects R2 m.
Proof. intros Hsub Hm w r w' E. eapply Hsub, Hm, E. Qed.

(** Breaks a goal [respects R m] down along the structure of [m]; the
    steps already dealt with are in the hint database. *)
Ltac respects_steps :=
  repeat first
    [ progress intros
    | match goal with |- PreOrder _ => apply _ end
    | solve [auto 1 with respects]
    | solve [apply (respects_weaken same_customers more_customers);
             [apply same_customers_more_customers | auto 1 with respects]]
    | simple apply respects_bind
    | simple apply respects_try
    | simple apply respects_if
    | simple apply respects_ret
    | simple apply respects_raise
    | simple apply respects_lift
    | simple apply respects_gets
    | simple apply respects_external
    | simple apply respects_modify
    | by split ].

Lemma logger_log_only_logged (r : LogRecord) :
  respects only_logged (logger_log r).
Proof. apply respects_modify. intros w. by exists [r]. Qed.

Lemma logger_log_same_customers (r : LogRecord) :
  respects same_customers (logger_log r).
Proof.
  eapply respects_weaken;
    [apply only_logged_same_customers | apply logger_log_only_logged].
Qed.

#[export] Hint Resolve logger_log_same_customers : respects.

Lemma validated_same_customers (transaction_data : Transaction) :
  respects same_customers (validated transaction_data).
Proof.
  intros w r w'. unfold validated.
  pose proof (validate_world transaction_data w) as Hw.
  destruct (_validate_transaction transaction_data w) as [[r1 after] w1].
  intros [= <- <-]. simpl in Hw. by destruct Hw as [->| ->].
Qed.

Lemma _get_recent_transactions_same_customers (customer : string)
    (hours : Z) :
  respects same_customers (_get_recent_transactions customer hours).
Proof.
  unfold _get_recent_transactions, transactions_query, datetime_now.
  respects_steps; auto with respects.
Qed.

Lemma _store_transaction_same_customers (e : EnrichedTransaction) :
  respects same_customers (_store_transaction e).
Proof.
  unfold _store_transaction, transactions_put_item.
  respects_steps; auto with respects.
Qed.

Lemma _archive_to_s3_same_customers (e : EnrichedTransaction) :
  respects same_customers (_archive_to_s3 e).
Proof.
  unfold _archive_to_s3, s3_put_object.
  respects_steps; auto with respects.
Qed.

Lemma _send_metrics_same_customers (e : EnrichedTransaction) :
  respects same_customers (_send_metrics e).
Proof.
  unfold _send_metrics, cloudwatch_put_metric_data.
  respects_steps; auto with respects.
Qed.

Lemma _handle_fraud_alert_same_customers (e : EnrichedTransaction) :
  respects same_customers (_handle_fraud_alert e).
Proof.
  unfold _handle_fraud_alert. respects_steps; auto with respects.
Qed.

Lemma success_summary_same_customers (e : EnrichedTransaction) :
  respects same_customers (success_summary e).
Proof.
  unfold success_summary. respects_steps; auto with respects.
Qed.

Lemma log_and_reraise_same_customers {A} (e : exn) :
  respects same_customers (log_and_reraise e : M A).
Proof.
  unfold log_and_reraise. respects_steps; auto with respects.
Qed.

#[export] Hint Resolve validated_same_customers
  _get_recent_transactions_same_customers _store_transaction_same_customers
  _archive_to_s3_same_customers _send_metrics_same_customers
  _handle_fraud_alert_same_customers success_summary_same_customers
  log_and_reraise_same_customers : respects.

(** ** The profile steps *)

Lemma respects_lift_bind (R : relation World) `{!PreOrder R} {A B}
    (r : result A) (k : A -> M B) :
  (forall a, r = Ok a -> respects R (k a)) -> respects R (lift r ≫= k).
Proof.
  intros Hk w r' w'. unfold mbind, M_bind, lift. destruct r as [a|e].
  - by apply Hk.
  - intros [= <- <-]. reflexivity.
Qed.

Lemma customers_put_item_more_customers (item : Profile) :
  is_Some (transaction_count item) ->
  respects more_customers (customers_put_item item).
Proof.
  intros Hcount. unfold customers_put_item.
  apply respects_bind; [apply _ | apply respects_external; apply _ |].
  intros _. apply respects_modify. intros w. split; [done |]. split.
  - simpl. rewrite dom_insert. set_solver.
  - intros Hw customer p. simpl.
    destruct (decide (profile_customer_id item = customer)) as [<-|Hne].
    + rewrite lookup_insert_eq. by intros [= <-].
    + rewrite lookup_insert_ne by done. apply Hw.
Qed.

Lemma _get_customer_profile_more_customers (customer : string) :
  respects more_customers (_get_customer_profile customer).
Proof.
  unfold _get_customer_profile, customers_get_item, datetime_now.
  apply respects_try; [apply _ | |].
  - apply respects_bind; [apply _ | |].
    + respects_steps.
    + intros [item|]; [respects_steps |].
      apply respects_bind; [apply _ | respects_steps |]. intros now.
      apply respects_bind; [apply _ | | respects_steps].
      apply customers_put_item_more_customers. by eexists.
  - intros e. respects_steps.
Qed.

(** What the scorer and the updater see of a stored profile: its
    ['transaction_count'] is a [str]. *)
Lemma stored_count_is_str (item : Profile) :
  is_Some (transaction_count item) ->
  exists s,
    transaction_count
      (_convert_from_dynamodb_format (map_profile number_as_decimal item))
    = Some (PStr s).
Proof.
  intros [v Hv]. unfold _convert_from_dynamodb_format, map_item,
    profile_item. simpl. rewrite Hv. simpl.
  destruct v; simpl; eauto.
Qed.

(** With a [str] for a count, [current_count + 1] raises. *)
Lemma updated_profile_str_count (e : EnrichedTransaction) (p : Profile)
    (now : datetime) (s : pystr) :
  transaction_count p = Some (PStr s) ->
  updated_profile e p now = Raise TypeError.
Proof. intros Hs. unfold updated_profile. by rewrite Hs. Qed.

Lemma updated_profile_count (e : EnrichedTransaction) (p updated : Profile)
    (now : datetime) :
  updated_profile e p now = Ok updated ->
  is_Some (transaction_count updated)
  /\ profile_customer_id updated = profile_customer_id p.
Proof.
  unfold updated_profile. intros Hu. do 7 bind_inv Hu.
  injection Hu as <-. simpl. eauto.
Qed.

Lemma _update_customer_profile_str_count (e : EnrichedTransaction)
    (p : Profile) (s : pystr) (w : World) :
  transaction_count p = Some (PStr s) ->
  _update_customer_profile e p w
  = (Ok tt,
     with_logger
       (cons (LogError "Error updating customer profile" TypeError)) w).
Proof.
  intros Hs. unfold _update_customer_profile, try_except, datetime_now,
    gets, lift, mbind, M_bind.
  by rewrite (updated_profile_str_count _ _ _ _ Hs).
Qed.

Lemma _update_customer_profile_more_customers (e : EnrichedTransaction)
    (p : Profile) :
  respects more_customers (_update_customer_profile e p).
Proof.
  unfold _update_customer_profile, datetime_now.
  apply respects_try; [apply _ | |].
  - apply respects_bind; [apply _ | respects_steps |]. intros now.
    apply respects_lift_bind; [apply _ |]. intros updated Hu.
    apply customers_put_item_more_customers.
    apply updated_profile_count in Hu as [[v Hv] _].
    unfold _convert_to_dynamodb_format, map_item, profile_item. simpl.
    rewrite Hv. by eexists.
  - intros err. respects_steps.
Qed.

#[export] Hint Resolve _get_customer_profile_more_customers
  _update_customer_profile_more_customers : respects.

Lemma external_up (c : call) (w : World) :
  outage w c = false -> external c w = (Ok tt, w).
Proof. unfold external. by intros ->. Qed.

Lemma external_down (c : call) (w : World) :
  outage w c = true ->
  external c w = (Raise (ClientError (service_of c)), w).
Proof. unfold external. by intros ->. Qed.

(** A stored profile is handed over as read, and nothing is written. *)
Lemma _get_customer_profile_stored (customer : string) (item : Profile)
    (w : World) :
  customers_table w !! customer = Some item ->
  outage w (GetItem customer) = false ->
  _get_customer_profile customer w
  = (Ok (_convert_from_dynamodb_format
           (map_profile number_as_decimal item)), w).
Proof.
  intros Hitem Hup. unfold _get_customer_profile, try_except,
    customers_get_item, gets, mbind, M_bind.
  by rewrite (external_up _ _ Hup), Hitem.
Qed.


Section Deliveries.
Context `{Config} `{FloatMath}.

Lemma score_and_enrich_same_customers (v : Transaction) (p : Profile) :
  respects same_customers (score_and_enrich v p).
Proof.
  unfold score_and_enrich, datetime_now. respects_steps; auto with respects.
Qed.

#[local] Hint Resolve score_and_enrich_same_customers : respects.


(** On a profile that was read from the table, nothing after the fetch
    writes to the customers table. *)
Lemma after_fetch_same_customers (v : Transaction) (p : Profile)
    (s : pystr) :
  transaction_count p = Some (PStr s) ->
  respects same_customers (after_fetch v p).
Proof.
  intros Hs. unfold after_fetch, best_effort_steps.
  respects_steps. intros w r w' E.
  rewrite (_update_customer_profile_str_count _ _ _ _ Hs) in E.
  by injection E as <- <-.
Qed.

Lemma process_transaction_fetch (transaction_data : Transaction)
    (w : World) :
  process_transaction transaction_data w
  = try_except
      (v ← validated transaction_data;
       customer ← lift (getitem "customer_id" (customer_id v));
       p ← _get_customer_profile customer;
       after_fetch v p)
      log_and_reraise w.
Proof.
  rewrite process_transaction_phases. apply try_except_ext.
  unfold scoring_steps, after_fetch.
  do 3 (rewrite !bind_assoc_at; apply bind_ext; intros ? ?).
  rewrite !bind_assoc_at. apply bind_ext; intros ? ?.
  by rewrite ret_bind_at.
Qed.

End Deliveries.

(** ** Duplicate delivery *)

Lemma check_required_customer (transaction : Transaction) :
  check_required required_fields transaction = Ok tt ->
  is_Some (customer_id transaction).
Proof.
  unfold required_fields. simpl.
  destruct (customer_id transaction); [by eexists | done].
Qed.

(** The checks do not look at the id. *)
Lemma validate_checks_set_id (id : string) (transaction : Transaction) :
  validate_checks (set_transaction_id id transaction)
  = match validate_checks transaction with
    | Ok _ => Ok (set_transaction_id id transaction)
    | Raise e => Raise e
    end.
Proof.
  unfold validate_checks. simpl.
  destruct (amount transaction) as [a|]; [| done]. simpl.
  destruct (py_float a) as [x|]; [| done]. simpl.
  destruct (Qle_bool x 0); [done |].
  destruct (currency transaction) as [c|]; [| done]. simpl.
  destruct (bool_decide _); [| done].
  by destruct (default _ _).
Qed.

Lemma validated_Ok (transaction_data v : Transaction) (w wa : World) :
  validated transaction_data w = (Ok v, wa) ->
  check_required required_fields transaction_data = Ok tt
  /\ (exists t', validate_checks transaction_data = Ok t')
  /\ customer_id v = customer_id transaction_data
  /\ is_Some (transaction_id v).
Proof.
  unfold validated, _validate_transaction.
  destruct (check_required _ _) as [[]|]; [| done].
  destruct (transaction_id transaction_data) as [id|] eqn:Eid.
  - intros [= Hv <-]. pose proof (validate_checks_Ok _ _ Hv) as ->.
    rewrite Eid. eauto.
  - simpl. rewrite validate_checks_set_id.
    destruct (validate_checks transaction_data) as [t'|]; [| done].
    intros [= <- <-]. simpl. eauto.
Qed.


(** The update itself does not look at the transaction id: on a profile
    dict as the code builds it in memory, a second update with the same
    transaction counts it again.  It is the round trip through the table
    that stops the second update. *)
Lemma update_in_memory_counts_twice :
  exists once twice,
    updated_profile scored_purchase (default_profile "c1" (14 * hour))
      (14 * hour) = Ok once
    /\ updated_profile scored_purchase once (14 * hour) = Ok twice
    /\ transaction_count once = Some (PInt 1)
    /\ transaction_count twice = Some (PInt 2).
Proof.
  do 2 eexists. split; [vm_compute; reflexivity |].
  split; [vm_compute; reflexivity |]. by split.
Qed.

Section Duplicates.
Context `{Config} `{FloatMath}.


(** Once the customer has a stored profile, processing one of their
    transactions writes nothing to the customers table. *)
Lemma stored_profile_is_never_updated (transaction_data : Transaction)
    (w : World) :
  no_outage w ->
  counted_profiles w ->
  (forall v wa customer,
     validated transaction_data w = (Ok v, wa) ->
     customer_id transaction_data = Some customer ->
     customer ∈ dom (customers_table w)) ->
  same_customers w (process_transaction transaction_data w).2.
Proof.
  intros Hup Hcounted Hstored.
  rewrite process_transaction_fetch. unfold try_except.
  destruct (validated transaction_data w) as [[v|e] wa] eqn:Ev.
  - pose proof (validated_same_customers _ _ _ _ Ev) as Hwa.
    pose proof Ev as Hv.
    apply validated_Ok in Hv as (Hreq & _ & Hcust & _).
    apply check_required_customer in Hreq as [customer Hc].
    specialize (Hstored _ _ _ eq_refl Hc).
    apply elem_of_dom in Hstored as [item Hitem].
    destruct Hwa as [Hsame Hout].
    rewrite (bind_run _ _ _ _ _ Ev), Hcust, Hc.
    cbn [getitem]. rewrite (ret_bind_at customer).
    rewrite (bind_run _ _ wa wa _
               (_get_customer_profile_stored customer item wa
                  ltac:(by rewrite Hsame)
                  ltac:(by rewrite Hout))).
    destruct (stored_count_is_str item) as [s Hs]; [by eapply Hcounted |].
    pose proof (after_fetch_same_customers v _ s Hs) as Hafter.
    destruct (after_fetch v _ wa) as [[summary|e] wb] eqn:Eafter.
    + simpl. transitivity wa; [done | by eapply Hafter].
    + destruct (log_and_reraise e wb) as [r wc] eqn:Elog. simpl.
      transitivity wa; [done |]. transitivity wb; [by eapply Hafter |].
      by eapply (log_and_reraise_same_customers (A:=Summary)).
  - rewrite (bind_raise _ _ _ _ _ Ev).
    destruct (log_and_reraise e wa) as [r wc] eqn:Elog. simpl.
    transitivity wa; [by eapply validated_same_customers |].
    by eapply (log_and_reraise_same_customers (A:=Summary)).
Qed.



End Duplicates.

(** ** Persisting and the best-effort steps *)

Lemma bind_Ok_at {A B} (m : M A) (k : A -> M B) (w w' : World) (b : B) :
  (m ≫= k) w = (Ok b, w') ->
  exists a w1, m w = (Ok a, w1) /\ k a w1 = (Ok b, w').
Proof.
  unfold mbind, M_bind. destruct (m w) as [[a|e] w1]; [eauto | done].
Qed.

(** A step that logs and swallows every exception returns. *)
Lemma logged_step_returns (body : M unit) (msg : string) (w : World) :
  exists w',
    try_except body (fun e => logger_log (LogError msg e)) w = (Ok tt, w').
Proof.
  unfold try_except. destruct (body w) as [[[]|e] w1]; eauto.
Qed.

Lemma best_effort_steps_return (e : EnrichedTransaction) (p : Profile)
    (w : World) :
  exists w', best_effort_steps e p w = (Ok tt, w').
Proof.
  unfold best_effort_steps.
  destruct (logged_step_returns
              (ts ← lift (getitem "timestamp" (timestamp (base e)));
               id ← lift (getitem "transaction_id"
                            (transaction_id (base e)));
               s3_put_object
                 {| partition_hour := ts / timedelta_hours 1;
                    key_transaction_id := id |} e)
              "Error archiving transaction to S3" w) as [w1 E1].
  fold (_archive_to_s3 e) in E1. rewrite (bind_run _ _ _ _ _ E1).
  destruct (logged_step_returns
              (now ← datetime_now;
               updated ← lift (updated_profile e p now);
               customers_put_item (_convert_to_dynamodb_format updated))
              "Error updating customer profile" w1) as [w2 E2].
  fold (_update_customer_profile e p) in E2.
  rewrite (bind_run _ _ _ _ _ E2).
  assert (exists w3, _send_metrics e w2 = (Ok tt, w3)) as [w3 E3]
    by apply logged_step_returns.
  rewrite (bind_run _ _ _ _ _ E3).
  destruct (is_fraud (analysis e)); [| by eexists].
  apply logged_step_returns.
Qed.

Section Persist.
Context `{Config} `{FloatMath}.

(** What the scoring steps hand to the persist step. *)
Lemma scoring_steps_Ok (transaction_data : Transaction)
    (e : EnrichedTransaction) (p : Profile) (w w1 : World) :
  scoring_steps transaction_data w = (Ok (e, p), w1) ->
  exists v wa recent_transactions,
    validated transaction_data w = (Ok v, wa)
    /\ base e = v
    /\ calculate_risk_score v p recent_transactions = Ok (analysis e).
Proof.
  unfold scoring_steps, score_and_enrich. intros E.
  apply bind_Ok_at in E as (v & wa & Ev & E).
  apply bind_Ok_at in E as (c & w2 & _ & E).
  apply bind_Ok_at in E as (p' & w3 & _ & E).
  apply bind_Ok_at in E as (e' & w4 & E & [= <- <- <-]).
  apply bind_Ok_at in E as (c' & w5 & _ & E).
  apply bind_Ok_at in E as (recent & w6 & _ & E).
  apply bind_Ok_at in E as (a & w7 & Ea & E).
  apply bind_Ok_at in E as (now & w8 & _ & [= <- <-]).
  injection Ea as Ea _. by exists v, wa, recent.
Qed.

Lemma scoring_steps_id (transaction_data : Transaction)
    (e : EnrichedTransaction) (p : Profile) (w w1 : World) :
  scoring_steps transaction_data w = (Ok (e, p), w1) ->
  is_Some (transaction_id (base e)).
Proof.
  intros E. apply scoring_steps_Ok in E as (v & wa & _ & Ev & <- & _).
  by apply validated_Ok in Ev as (_ & _ & _ & Hid).
Qed.

(** C5. For every record whose scored transaction was persisted,
    [process_transaction] returns the success summary built from that
    transaction (status, transaction id, risk score, is_fraud), in every
    world: whichever of the archive, profile-update, metrics and
    fraud-alert calls fail afterwards, nothing is raised and the summary is
    the same. *)
Theorem best_effort_failures_keep_the_summary
    (transaction_data : Transaction) (e : EnrichedTransaction)
    (p : Profile) (w w1 w2 : World) :
  scoring_steps transaction_data w = (Ok (e, p), w1) ->
  _store_transaction e w1 = (Ok tt, w2) ->
  exists id w',
    transaction_id (base e) = Some id
    /\ process_transaction transaction_data w
       = (Ok {| status := "success";
                summary_transaction_id := id;
                summary_risk_score := risk_score (analysis e);
                summary_is_fraud := is_fraud (analysis e) |}, w').
Proof.
  intros Escore Estore.
  destruct (scoring_steps_id _ _ _ _ _ Escore) as [id Hid].
  destruct (best_effort_steps_return e p w2) as [w3 Ebest].
  exists id. eexists. split; [done |].
  rewrite process_transaction_phases. unfold try_except.
  rewrite (bind_run _ _ _ _ _ Escore), (bind_run _ _ _ _ _ Estore),
    (bind_run _ _ _ _ _ Ebest).
  unfold success_summary. by rewrite Hid.
Qed.




End Persist.

Section Batch.
Context `{Config} `{FloatMath}.

Lemma try_reraise_Ok {A} (body : M A) (w w' : World) (a : A) :
  try_except body log_and_reraise w = (Ok a, w') -> body w = (Ok a, w').
Proof.
  unfold try_except. by destruct (body w) as [[a'|e] w1].
Qed.



End Batch.

(** ** Concrete runs *)

(** C1 fails on the code. A first purchase of 0.004 leaves the customer
    with a stored average monthly spend of 0.00 ([round(new_avg, 2)]);
    from then on scoring any transaction of that customer divides by zero
    in [_check_amount_risk], and [process_transaction] raises
    [ZeroDivisionError]. *)
Theorem zero_average_spend_breaks_scoring :
  let w0 := empty_world (13 * hour) in
  let w1 :=
    (@process_transaction default_config exact_math tiny_purchase w0).2 in
  (exists summary,
     (@process_transaction default_config exact_math tiny_purchase w0).1
     = Ok summary)
  /\ average_monthly_spend <$> customers_table w1 !! "c1"
     = Some (Some (PDecimal 0.00))
  /\ (@process_transaction default_config exact_math
        (afternoon_purchase 50) w1).1
     = Raise ZeroDivisionError
  /\ @calculate_risk_score default_config exact_math
       (afternoon_purchase 50) (stored_profile (PStr (Numeral 0))) []
     = Raise ZeroDivisionError.
Proof.
  cbv zeta. split; [eexists; vm_compute; reflexivity |].
  split; [vm_compute; reflexivity |].
  split; vm_compute; reflexivity.
Qed.



Lemma best_effort_failures_keep_the_summary_witness :
  exists e p w1 w2,
    @scoring_steps default_config exact_math morning_purchase
      troubled_world = (Ok (e, p), w1)
    /\ _store_transaction e w1 = (Ok tt, w2)
    /\ exists id w',
         transaction_id (base e) = Some id
         /\ @process_transaction default_config exact_math
              morning_purchase troubled_world
            = (Ok {| status := "success";
                     summary_transaction_id := id;
                     summary_risk_score := risk_score (analysis e);
                     summary_is_fraud := is_fraud (analysis e) |}, w').
Proof.
  do 4 eexists. split; [vm_compute; reflexivity |].
  split; [vm_compute; reflexivity |].
  eapply (@best_effort_failures_keep_the_summary default_config
            exact_math morning_purchase); vm_compute; reflexivity.
Defined.



(** * Further properties of the code *)

(** ** The signals one by one *)

Lemma py_min_le_l (a b : Q) : (py_min a b <= a)%Q.
Proof. destruct (py_min_spec a b) as [[? ->]|[? ->]]; lra. Qed.

Lemma bind_Raise {A B} (r : result A) (k : A -> result B) (e : exn) :
  r ≫= k = Raise e <-> r = Raise e \/ exists a, r = Ok a /\ k a = Raise e.
Proof.
  destruct r as [a|e']; simpl; split.
  - intros Hk. right. by exists a.
  - by intros [[=]|(a' & [= <-] & Hk)].
  - intros [= <-]. by left.
  - by intros [[= <-]|(a' & [=] & _)].
Qed.

Lemma hour_of_range (t : datetime) : 0 <= hour_of t < 24.
Proof. unfold hour_of. apply Z.mod_pos_bound. lia. Qed.

(** X1. The time signal by hour of day (UTC): 0.4 from 02:00 up to and
    including the hour of 06:00, 0.2 in the hours of 00:00, 01:00 and
    23:00, and 0 otherwise; the second test of the code, [hour < 6],
    matters for midnight and one o'clock only. *)
Theorem time_signal_by_hour (transaction : Transaction) (now : datetime) :
  timestamp transaction = Some now ->
  _check_time_risk transaction
  = Ok (if bool_decide (2 <= hour_of now <= 6) then 0.4%Q
        else if bool_decide (hour_of now = 0 \/ hour_of now = 1
                             \/ hour_of now = 23)
             then 0.2%Q else 0%Q).
Proof.
  intros Hnow. unfold _check_time_risk. rewrite Hnow. simpl.
  pose proof (hour_of_range now) as Hrange.
  destruct (bool_decide_reflect (2 <= hour_of now <= 6)) as [Hin|Hout].
  - by rewrite (proj2 (Z.leb_le _ _) (proj1 Hin)),
      (proj2 (Z.leb_le _ _) (proj2 Hin)).
  - destruct (2 <=? hour_of now) eqn:E2; destruct (hour_of now <=? 6) eqn:E6;
      try (apply Z.leb_le in E2); try (apply Z.leb_le in E6);
      try (apply Z.leb_gt in E2); try (apply Z.leb_gt in E6);
      try lia; simpl.
    + destruct (bool_decide_reflect
                  (hour_of now = 0 \/ hour_of now = 1 \/ hour_of now = 23))
        as [Hedge|Hmid].
      * assert ((22 <? hour_of now) = true) as -> by (apply Z.ltb_lt; lia).
        by rewrite orb_true_r.
      * assert ((22 <? hour_of now) = false) as -> by (apply Z.ltb_ge; lia).
        assert ((hour_of now <? 6) = false) as -> by (apply Z.ltb_ge; lia).
        done.
    + assert ((hour_of now <? 6) = true) as -> by (apply Z.ltb_lt; lia).
      rewrite bool_decide_true by lia. done.
Qed.

Lemma time_signal_by_hour_witness :
  _check_time_risk (purchase "t" "c1" 5 (6 * hour + 59 * minute)
                      (place 40 (-74) "US"))
  = Ok 0.4%Q.
Proof.
  exact (time_signal_by_hour
           (purchase "t" "c1" 5 (6 * hour + 59 * minute)
              (place 40 (-74) "US"))
           (6 * hour + 59 * minute) eq_refl).
Defined.

Section LocationSignal.
Context `{FloatMath}.

(** Reading a coordinate fails with [KeyError] or [ValueError] only. *)
Lemma coordinate_error (key : string) (field : option pyval) (e : exn) :
  getitem key field ≫= py_float = Raise e ->
  (exists k, e = KeyError k) \/ (exists m, e = ValueError m).
Proof.
  destruct field as [[z|x|q|[q|s]]|]; simpl; intros [= <-]; eauto.
Qed.

(** A coordinate is read as a number, or reading it fails with
    [KeyError] or [ValueError]. *)
Lemma coordinate_cases (key : string) (field : option pyval) :
  (exists c x,
     field = Some c /\ py_float c = Ok x
     /\ getitem key field ≫= py_float = Ok x)
  \/ (exists k, getitem key field ≫= py_float = Raise (KeyError k))
  \/ (exists m, getitem key field ≫= py_float = Raise (ValueError m)).
Proof.
  destruct field as [[z | x | q | [q | s]] |]; cbn; eauto 8.
Qed.

Lemma py_pow2_in_range (x : Q) :
  (Qabs x <= 2 * magnitude_bound)%Q -> py_pow2 x = Ok (x ^ 2)%Q.
Proof.
  intros Hx. unfold py_pow2.
  assert (Qle_bool float_overflow (x ^ 2) = false) as ->; [| done].
  apply not_true_iff_false. rewrite Qle_bool_iff. apply Qlt_not_le.
  assert (4 * magnitude_bound * magnitude_bound < float_overflow)%Q
    as Hfar by (vm_compute; reflexivity).
  assert (0 <= magnitude_bound)%Q as Hpos by (vm_compute; discriminate).
  assert (x ^ 2 == Qabs x * Qabs x)%Q as ->.
  { simpl. apply Qabs_case; intros _; ring. }
  pose proof (Qabs_nonneg x) as Hnonneg.
  set (d := Qabs x) in *. set (B := magnitude_bound) in *.
  assert (d * d <= (2 * B) * (2 * B))%Q
    by (apply Qmult_le_compat_nonneg; split; lra).
  lra.
Qed.

Lemma difference_in_range (x y : Q) :
  (Qabs x <= magnitude_bound)%Q -> (Qabs y <= magnitude_bound)%Q ->
  (Qabs (Qabs (x - y)) <= 2 * magnitude_bound)%Q.
Proof.
  intros Hx Hy. rewrite Qabs_pos by apply Qabs_nonneg.
  revert Hx Hy. do 3 (apply Qabs_case; intros ?); lra.
Qed.

(** [_calculate_distance] returns whatever the dicts hold, as long as the
    coordinates that are numbers are in range: a missing coordinate and
    one that is not a number are caught and turned into 0. *)
Lemma _calculate_distance_returns (loc1 loc2 : Location) :
  coordinates_in_range loc1 -> coordinates_in_range loc2 ->
  exists d, _calculate_distance loc1 loc2 = Ok d.
Proof.
  intros Hloc1 Hloc2. unfold _calculate_distance, distance_body.
  destruct (coordinate_cases "latitude" (latitude loc1))
    as [(c1 & lat1 & Ec1 & Fc1 & ->) | [[k ->] | [m ->]]];
    [| by eexists ..].
  destruct (coordinate_cases "longitude" (longitude loc1))
    as [(c2 & lon1 & Ec2 & Fc2 & ->) | [[k ->] | [m ->]]];
    [| by eexists ..].
  destruct (coordinate_cases "latitude" (latitude loc2))
    as [(c3 & lat2 & Ec3 & Fc3 & ->) | [[k ->] | [m ->]]];
    [| by eexists ..].
  destruct (coordinate_cases "longitude" (longitude loc2))
    as [(c4 & lon2 & Ec4 & Fc4 & ->) | [[k ->] | [m ->]]];
    [| by eexists ..].
  cbn [mbind result_bind].
  rewrite !py_pow2_in_range; [by eexists | |];
    apply difference_in_range; eauto.
Qed.

(** Out of that range the square overflows, and [OverflowError] is not
    among the exceptions [_calculate_distance] catches. *)
Lemma _calculate_distance_overflows :
  _calculate_distance place_out_of_range
    {| latitude := Some (PFloat 40); longitude := Some (PFloat (-74));
       city := None; state := None; country := Some "US" |}
  = Raise OverflowError.
Proof. vm_compute. reflexivity. Qed.

Lemma scan_recent_returns (txn_location : Location)
    (slice : list Transaction) :
  coordinates_in_range txn_location ->
  Forall
    (fun txn =>
       dict_or_absent (location txn) /\ located_in_range (location txn))
    slice ->
  exists l, scan_recent txn_location slice = Ok l.
Proof.
  intros Htxn.
  induction 1 as [|recent_txn rest [Hdict Hrange] _ IH]; simpl;
    [by eexists |].
  destruct (location recent_txn) as [[l|]|]; [| done |]; simpl.
  - destruct (truthy (latitude l)); simpl; [| done].
    destruct (truthy (longitude l)); simpl; [| done].
    destruct (_calculate_distance_returns txn_location l) as [d ->];
      [done | by apply Hrange |].
    simpl. destruct (Qlt_bool 500 d); [by eexists | done].
  - done.
Qed.

Lemma _check_location_risk_returns (transaction : Transaction)
    (customer_profile : Profile) (recent_transactions : list Transaction) :
  dict_or_absent (location transaction) ->
  located_in_range (location transaction) ->
  dict_or_absent (home_location customer_profile) ->
  Forall
    (fun txn =>
       dict_or_absent (location txn) /\ located_in_range (location txn))
    recent_transactions ->
  exists l,
    _check_location_risk transaction customer_profile recent_transactions
    = Ok l.
Proof.
  intros Htxn Hrange Hhome Hwindow. unfold _check_location_risk.
  destruct (location transaction) as [[loc|]|] eqn:Hloc;
    destruct (home_location customer_profile) as [[home|]|];
    try done; simpl.
  all: repeat match goal with
         | |- context [bool_decide ?P] => destruct (bool_decide P); simpl
         end; try by eexists.
  all: destruct recent_transactions as [|txn rest]; [by eexists |].
  all: repeat match goal with
         | |- context [truthy ?v] => destruct (truthy v); simpl
         end; try by eexists.
  all: apply scan_recent_returns;
    [first [by apply Hrange | by intros c x [[=] | [=]]]
    | unfold last5; by apply Forall_drop].
Qed.

(** X2. Whatever the coordinates are (missing, zero, text that is not a
    number, any number up to 1e150 in absolute value), the location check
    raises nothing: with dicts (or nothing) under the ['location'] keys of
    the transaction, the profile and the window entries,
    [_check_location_risk] returns a signal.  ([_calculate_distance]
    catches [KeyError], [ValueError] and [TypeError]; the bound keeps
    [x ** 2] from raising [OverflowError], which it does not catch.) *)
Theorem location_check_returns (transaction : Transaction)
    (customer_profile : Profile) (recent_transactions : list Transaction) :
  dict_or_absent (location transaction) ->
  located_in_range (location transaction) ->
  dict_or_absent (home_location customer_profile) ->
  Forall
    (fun txn =>
       dict_or_absent (location txn) /\ located_in_range (location txn))
    recent_transactions ->
  exists l,
    _check_location_risk transaction customer_profile recent_transactions
    = Ok l.
Proof.
  apply _check_location_risk_returns.
Qed.

(** X3. A customer whose home country is "US" gets the location signal
    0.6, whatever the window holds, for every transaction whose country is
    anything but "US"; a transaction without a country, or without a
    location at all, counts as abroad. *)
Theorem us_customer_abroad_scores_six_tenths (transaction : Transaction)
    (customer_profile : Profile) (recent_transactions : list Transaction)
    (home loc : Location) :
  home_location customer_profile = Some (LocDict home) ->
  country home = Some "US" ->
  default (LocDict empty_location) (location transaction) = LocDict loc ->
  country loc <> Some "US" ->
  _check_location_risk transaction customer_profile recent_transactions
  = Ok 0.6%Q.
Proof.
  intros Hhome Hus Hloc Habroad. unfold _check_location_risk.
  rewrite Hhome, Hloc. simpl. rewrite Hus.
  rewrite bool_decide_true by done. simpl.
  by rewrite bool_decide_false by done.
Qed.

(** X4. Away from the international rule, the distance check takes place
    only if the window is not empty and the transaction's latitude and
    longitude are both true in Python's sense: a transaction on the equator
    or the prime meridian (coordinate 0.0), or without coordinates, gets
    the location signal 0 however far it is from the window entries. *)
Theorem location_needs_nonzero_coordinates (transaction : Transaction)
    (customer_profile : Profile) (recent_transactions : list Transaction)
    (home loc : Location) :
  default (LocDict empty_location) (home_location customer_profile)
    = LocDict home ->
  default (LocDict empty_location) (location transaction) = LocDict loc ->
  country home <> Some "US" \/ country loc = Some "US" ->
  recent_transactions = [] \/ truthy (latitude loc) = false
  \/ truthy (longitude loc) = false ->
  _check_location_risk transaction customer_profile recent_transactions
  = Ok 0%Q.
Proof.
  intros Hhome Hloc Hdomestic Hskip. unfold _check_location_risk.
  rewrite Hhome, Hloc. simpl.
  assert ((if bool_decide (country home = Some "US")
           then Ok (negb (bool_decide (country loc = Some "US")))
           else Ok false) = Ok false) as Hint.
  { destruct (bool_decide_reflect (country home = Some "US")); [| done].
    destruct Hdomestic as [?|Hus]; [done |].
    by rewrite bool_decide_true. }
  simpl in Hint |- *.
  destruct (bool_decide (country home = Some "US")); simpl in *.
  - injection Hint as ->. simpl.
    destruct recent_transactions; [done |].
    destruct Hskip as [?|[-> | Hlon]]; [done | done |].
    destruct (truthy (latitude loc)); simpl; [by rewrite Hlon | done].
  - destruct recent_transactions; [done |].
    destruct Hskip as [?|[-> | Hlon]]; [done | done |].
    destruct (truthy (latitude loc)); simpl; [by rewrite Hlon | done].
Qed.

End LocationSignal.

(** Settles [located_in_range] of a given location. *)
Ltac solve_located_in_range :=
  intros ? [= <-] ? ? [[= <-] | [= <-]] [= <-]; vm_compute; discriminate.

Lemma location_check_returns_witness :
  exists l,
    @_check_location_risk exact_math
      (purchase "t" "c1" 5 (14 * hour)
         (LocDict {| latitude := Some (PStr (Text "north"));
                     longitude := Some (PFloat 3);
                     city := None; state := None; country := None |}))
      us_profile far_then_near = Ok l.
Proof.
  apply (@location_check_returns exact_math).
  - discriminate.
  - solve_located_in_range.
  - discriminate.
  - unfold far_then_near, five_in_last_hour. cbn [fmap list_fmap].
    repeat (constructor; [split; [discriminate | solve_located_in_range] |]).
    constructor.
Defined.

Lemma us_customer_abroad_scores_six_tenths_witness :
  @_check_location_risk exact_math night_purchase_abroad us_profile []
  = Ok 0.6%Q.
Proof.
  eapply (@us_customer_abroad_scores_six_tenths exact_math);
    [reflexivity | reflexivity | reflexivity | discriminate].
Defined.

Lemma location_needs_nonzero_coordinates_witness :
  @_check_location_risk exact_math equator_purchase
    (stored_profile (PStr (Numeral 1000))) far_then_near = Ok 0%Q.
Proof.
  eapply (@location_needs_nonzero_coordinates exact_math);
    [reflexivity | reflexivity | left; discriminate
    | right; left; reflexivity].
Defined.

(** ** The values the signals take *)

Section SignalValues.
Context `{Config} `{FloatMath}.

Lemma velocity_values (transaction : Transaction)
    (recent_transactions : list Transaction) (v : Q) :
  0 < VELOCITY_THRESHOLD ->
  _check_velocity_risk transaction recent_transactions = Ok v ->
  v = 0%Q \/ (0.5 <= v <= 1)%Q.
Proof.
  intros HT. unfold _check_velocity_risk.
  destruct recent_transactions as [|txn rest]; [intros [= <-]; by left |].
  intros Hv. bind_inv Hv. bind_inv Hv.
  destruct (VELOCITY_THRESHOLD <=? a0) eqn:E; [| injection Hv as <-; by left].
  apply Z.leb_le in E. bind_inv Hv. injection Hv as <-. right.
  apply py_div_Ok in Ha1 as [_ ->].
  assert (0 < inject_Z (VELOCITY_THRESHOLD * 2))%Q as Hden.
  { change 0%Q with (inject_Z 0). rewrite <- Zlt_Qlt. lia. }
  assert (0.5 <= inject_Z a0 / inject_Z (VELOCITY_THRESHOLD * 2))%Q as Hr.
  { apply Qle_shift_div_l; [done |].
    rewrite inject_Z_mult. rewrite Zle_Qle in E.
    change (inject_Z 2) with 2%Q. lra. }
  destruct (py_min_spec 1 (inject_Z a0 / inject_Z (VELOCITY_THRESHOLD * 2)))
    as [[? ->]|[? ->]]; lra.
Qed.

Lemma amount_values (transaction : Transaction)
    (customer_profile : Profile) (spend a : Q) :
  (0 < AMOUNT_THRESHOLD_MULTIPLIER)%Q ->
  py_float (default (PInt 1000) (average_monthly_spend customer_profile))
    = Ok spend ->
  (0 < spend)%Q ->
  _check_amount_risk transaction customer_profile = Ok a ->
  a = 0%Q \/ (0.5 < a <= 1)%Q.
Proof.
  intros HM Hs Hpos. unfold _check_amount_risk. intros Ha.
  bind_inv Ha. bind_inv Ha. bind_inv Ha.
  rewrite Hs in Ha2. injection Ha2 as <-.
  destruct (Qlt_bool _ a1) eqn:E.
  - apply Qlt_bool_iff in E. bind_inv Ha. injection Ha as <-. right.
    apply py_div_Ok in Ha2 as [_ ->].
    assert (0 < spend / 30 * AMOUNT_THRESHOLD_MULTIPLIER)%Q as Hd.
    { apply Qmult_lt_0_compat; [| done]. apply Qlt_shift_div_l; lra. }
    assert (0.5 < a1 / (spend / 30 * AMOUNT_THRESHOLD_MULTIPLIER * 2))%Q.
    { apply Qlt_shift_div_l; lra. }
    destruct (py_min_spec 1
                (a1 / (spend / 30 * AMOUNT_THRESHOLD_MULTIPLIER * 2)))
      as [[? ->]|[? ->]]; lra.
  - destruct (Qlt_bool 10000 a1); injection Ha as <-; [right; lra | by left].
Qed.

(** Whatever the profile holds, the amount signal is at most 1. *)
Lemma amount_at_most_one (transaction : Transaction)
    (customer_profile : Profile) (a : Q) :
  _check_amount_risk transaction customer_profile = Ok a -> (a <= 1)%Q.
Proof.
  unfold _check_amount_risk. intros Ha. do 3 bind_inv Ha.
  destruct (Qlt_bool _ a1).
  - bind_inv Ha. injection Ha as <-. apply py_min_le_l.
  - destruct (Qlt_bool 10000 a1); injection Ha as <-; lra.
Qed.

Lemma scan_recent_values (txn_location : Location)
    (slice : list Transaction) (l : Q) :
  scan_recent txn_location slice = Ok l ->
  l = 0%Q \/ (0.5 < l <= 0.8)%Q.
Proof.
  induction slice as [|recent_txn rest IH]; simpl.
  - intros [= <-]. by left.
  - intros Hl. bind_inv Hl. bind_inv Hl.
    destruct a0; [| by apply IH].
    bind_inv Hl.
    destruct (Qlt_bool 500 a0) eqn:E; [| by apply IH].
    apply Qlt_bool_iff in E. injection Hl as <-. right.
    assert (0.5 < a0 / 1000)%Q by (apply Qlt_shift_div_l; lra).
    destruct (py_min_spec 0.8 (a0 / 1000)) as [[? ->]|[? ->]]; lra.
Qed.

Lemma location_values (transaction : Transaction)
    (customer_profile : Profile) (recent_transactions : list Transaction)
    (l : Q) :
  _check_location_risk transaction customer_profile recent_transactions
    = Ok l ->
  l = 0%Q \/ (0.5 < l <= 0.8)%Q.
Proof.
  unfold _check_location_risk. intros Hl.
  bind_inv Hl. bind_inv Hl.
  destruct a0; [injection Hl as <-; right; lra |].
  destruct recent_transactions as [|txn rest]; [injection Hl as <-; by left |].
  bind_inv Hl. bind_inv Hl.
  destruct a1; [| injection Hl as <-; by left].
  by apply scan_recent_values in Hl.
Qed.

Lemma time_values (transaction : Transaction) (t : Q) :
  _check_time_risk transaction = Ok t ->
  t = 0%Q \/ t = 0.2%Q \/ t = 0.4%Q.
Proof.
  unfold _check_time_risk. intros Ht. bind_inv Ht.
  destruct (_ && _); [injection Ht as <-; auto |].
  destruct (_ || _); injection Ht as <-; auto.
Qed.

(** X5. No signal is small and positive. Whenever scoring returns, the
    velocity signal is 0 or at least 0.5, the location signal is 0 or
    above 0.5 (and at most 0.8), the time signal is 0, 0.2 or 0.4, and,
    for a profile with a positive average monthly spend, the amount signal
    is 0 or above 0.5.  (Thresholds positive, as their defaults are.) *)
Theorem signals_are_zero_or_at_least_half
    (transaction : Transaction) (customer_profile : Profile)
    (recent_transactions : list Transaction) (spend : Q)
    (a : RiskAssessment) :
  0 < VELOCITY_THRESHOLD ->
  (0 < AMOUNT_THRESHOLD_MULTIPLIER)%Q ->
  py_float (default (PInt 1000) (average_monthly_spend customer_profile))
    = Ok spend ->
  (0 < spend)%Q ->
  calculate_risk_score transaction customer_profile recent_transactions
    = Ok a ->
  exists velocity amount location time,
    risk_factors a =
      [("velocity", velocity); ("amount", amount);
       ("location", location); ("time", time)]
    /\ (velocity = 0%Q \/ (0.5 <= velocity <= 1)%Q)
    /\ (amount = 0%Q \/ (0.5 < amount <= 1)%Q)
    /\ (location = 0%Q \/ (0.5 < location <= 0.8)%Q)
    /\ (time = 0%Q \/ time = 0.2%Q \/ time = 0.4%Q).
Proof.
  intros HT HM Hs Hpos Ha. apply calculate_risk_score_Ok in Ha
    as (v & am & l & t & Hv & Ham & Hl & Ht & ->).
  exists v, am, l, t. split; [done |].
  split; [by eapply velocity_values |].
  split; [by eapply amount_values |].
  split; [by eapply location_values | by eapply time_values].
Qed.

(** X6. The time of day is never given as a fraud reason: the time signal
    never exceeds 0.4, and [fraud_reasons] keeps the signals above 0.5.
    The reasons are a selection of "velocity", "amount", "location", in
    that order. *)
Theorem time_is_never_a_fraud_reason
    (transaction : Transaction) (customer_profile : Profile)
    (recent_transactions : list Transaction) (a : RiskAssessment) :
  calculate_risk_score transaction customer_profile recent_transactions
    = Ok a ->
  fraud_reasons a `sublist_of` ["velocity"; "amount"; "location"]
  /\ "time" ∉ fraud_reasons a.
Proof.
  intros Ha. apply calculate_risk_score_Ok in Ha
    as (v & am & l & t & _ & _ & _ & Ht & ->).
  cbn [fraud_reasons].
  assert (Qlt_bool 0.5 t = false) as Htime.
  { apply time_values in Ht as [->|[->| ->]]; reflexivity. }
  rewrite !filter_cons, filter_nil. cbn [snd]. rewrite Htime.
  rewrite (decide_False (P := false = true)) by done.
  destruct (decide (Qlt_bool 0.5 v = true));
    destruct (decide (Qlt_bool 0.5 am = true));
    destruct (decide (Qlt_bool 0.5 l = true)); cbn [map fst];
    (split; [repeat first [apply sublist_nil | apply sublist_skip
                           | apply sublist_cons]
            | intros Hin;
              repeat (apply elem_of_cons in Hin as [Hin|Hin];
                      [discriminate |]);
              by apply elem_of_nil in Hin]).
Qed.

End SignalValues.

Lemma signals_are_zero_or_at_least_half_witness :
  exists a,
    @calculate_risk_score default_config exact_math night_purchase_abroad
      us_profile ten_in_last_hour = Ok a
    /\ exists velocity amount location time,
         risk_factors a =
           [("velocity", velocity); ("amount", amount);
            ("location", location); ("time", time)]
         /\ (velocity = 0%Q \/ (0.5 <= velocity <= 1)%Q)
         /\ (amount = 0%Q \/ (0.5 < amount <= 1)%Q)
         /\ (location = 0%Q \/ (0.5 < location <= 0.8)%Q)
         /\ (time = 0%Q \/ time = 0.2%Q \/ time = 0.4%Q).
Proof.
  eexists. split; [vm_compute; reflexivity |].
  apply (@signals_are_zero_or_at_least_half default_config exact_math
           night_purchase_abroad us_profile ten_in_last_hour 1000);
    vm_compute; reflexivity.
Defined.

Lemma time_is_never_a_fraud_reason_witness :
  exists a,
    @calculate_risk_score default_config exact_math night_purchase_abroad
      us_profile ten_in_last_hour = Ok a
    /\ fraud_reasons a `sublist_of` ["velocity"; "amount"; "location"]
    /\ "time" ∉ fraud_reasons a.
Proof.
  eexists. split; [vm_compute; reflexivity |].
  apply (@time_is_never_a_fraud_reason default_config exact_math
           night_purchase_abroad us_profile ten_in_last_hour).
  vm_compute. reflexivity.
Defined.

(** ** Velocity by count *)

Section VelocityCount.
Context `{Config}.

Lemma _check_velocity_risk_by_count (transaction : Transaction) (now : datetime)
    (recent_transactions : list Transaction) :
  0 < VELOCITY_THRESHOLD ->
  timestamp transaction = Some now ->
  Forall (fun txn => is_Some (timestamp txn)) recent_transactions ->
  let n :=
    Z.of_nat
      (length
         (filter
            (fun txn => in_last_hour (now - timedelta_hours 1) txn = true)
            recent_transactions)) in
  _check_velocity_risk transaction recent_transactions
  = Ok (if VELOCITY_THRESHOLD <=? n
        then py_min 1 (inject_Z n / inject_Z (VELOCITY_THRESHOLD * 2))
        else 0%Q).
Proof.
  intros HT Hnow Hts n.
  pose proof (count_recent_counts (now - timedelta_hours 1) _ 0 Hts) as Hc.
  fold n in Hc. unfold _check_velocity_risk.
  destruct recent_transactions as [|txn rest].
  - subst n. cbn -[Z.leb Z.mul]. change (Z.of_nat 0) with 0.
    by rewrite (proj2 (Z.leb_gt _ _) HT).
  - rewrite Hnow. cbn -[count_recent Z.mul Z.leb]. rewrite Hc.
    cbn -[Z.mul Z.leb]. replace (0 + n) with n by lia.
    destruct (VELOCITY_THRESHOLD <=? n); [| done].
    unfold py_div.
    assert (Qeq_bool (inject_Z (VELOCITY_THRESHOLD * 2)) 0 = false) as ->;
      [| done].
    apply not_true_iff_false. intros Hzero. apply Qeq_bool_iff in Hzero.
    unfold Qeq in Hzero. simpl in Hzero. lia.
Qed.

(** X7. With a positive threshold [T], a transaction with a timestamp and
    a window whose entries all have one, the velocity signal is
    [min(1.0, n / (2 T))] if [n >= T] and 0 otherwise, where [n] is the
    number of window entries later than one hour before the transaction's
    timestamp.  There is no upper end: entries dated after the transaction
    count as well. *)
Theorem velocity_by_count (transaction : Transaction) (now : datetime)
    (recent_transactions : list Transaction) :
  0 < VELOCITY_THRESHOLD ->
  timestamp transaction = Some now ->
  Forall (fun txn => is_Some (timestamp txn)) recent_transactions ->
  let n :=
    Z.of_nat
      (length
         (filter
            (fun txn => in_last_hour (now - timedelta_hours 1) txn = true)
            recent_transactions)) in
  _check_velocity_risk transaction recent_transactions
  = Ok (if VELOCITY_THRESHOLD <=? n
        then py_min 1 (inject_Z n / inject_Z (VELOCITY_THRESHOLD * 2))
        else 0%Q).
Proof.
  apply _check_velocity_risk_by_count.
Qed.

End VelocityCount.

Lemma velocity_by_count_witness :
  exists v,
    @_check_velocity_risk default_config night_purchase_abroad
      ten_in_last_hour = Ok v
    /\ (v == 1)%Q.
Proof.
  eexists. split.
  - apply (@velocity_by_count default_config night_purchase_abroad
             (3 * hour + 30 * minute) ten_in_last_hour).
    + reflexivity.
    + reflexivity.
    + repeat constructor; eexists; reflexivity.
  - by vm_compute.
Defined.

(** The clamped score exceeds a non-negative bound only if the weighted
    sum does. *)
Lemma clamp_above (x bound : Q) :
  (0 <= bound)%Q -> (bound < py_min (py_max x 0) 1)%Q -> (bound < x)%Q.
Proof.
  intros Hb. destruct (py_max_spec x 0) as [[? ->]|[? ->]].
  - pose proof (py_min_le_l 0 1). lra.
  - pose proof (py_min_le_l x 1). lra.
Qed.

(** X8. Under the default configuration a transaction is flagged as fraud
    only when at least 8 window entries are dated later than one hour
    before its timestamp (entries dated after the transaction count as
    well): amount, location and time together weigh at most
    0.3 + 0.2 * 0.8 + 0.1 * 0.4 = 0.5, so the velocity signal must exceed
    0.75.  In particular nothing is flagged on an empty window. *)
Theorem fraud_needs_eight_recent_transactions `{FloatMath}
    (transaction : Transaction) (customer_profile : Profile)
    (recent_transactions : list Transaction) (now : datetime)
    (a : RiskAssessment) :
  timestamp transaction = Some now ->
  Forall (fun txn => is_Some (timestamp txn)) recent_transactions ->
  @calculate_risk_score default_config _ transaction customer_profile
    recent_transactions = Ok a ->
  is_fraud a = true ->
  (8 <= length
          (filter
             (fun txn =>
                in_last_hour (now - timedelta_hours 1)%Z txn = true)
             recent_transactions))%nat.
Proof.
  intros Hnow Hts Ha Hfraud. apply calculate_risk_score_Ok in Ha
    as (v & am & l & t & Hv & Ham & Hl & Ht & ->).
  cbn [is_fraud] in Hfraud. apply Qlt_bool_iff in Hfraud.
  apply clamp_above in Hfraud; [| done].
  apply amount_at_most_one in Ham.
  apply location_values in Hl.
  apply time_values in Ht.
  unfold weight_velocity, weight_amount, weight_location, weight_time
    in Hfraud. cbn [FRAUD_THRESHOLD default_config] in Hfraud.
  assert (0.75 < v)%Q as Hhigh.
  { destruct Hl as [->|Hl]; destruct Ht as [->|[->| ->]]; lra. }
  rewrite (@_check_velocity_risk_by_count default_config _ now) in Hv
    by done.
  injection Hv as Hv. cbn [VELOCITY_THRESHOLD default_config] in Hv.
  set (n := length _) in *.
  destruct (5 <=? Z.of_nat n) eqn:E; [| subst v; lra].
  destruct (le_lt_dec 8 n) as [|Hfew]; [done | exfalso].
  assert (inject_Z (Z.of_nat n) <= 7)%Q as Hn.
  { change 7%Q with (inject_Z 7). rewrite <- Zle_Qle. lia. }
  assert (inject_Z (Z.of_nat n) / inject_Z (5 * 2) <= 0.7)%Q as Hr.
  { apply Qle_shift_div_r; [done |].
    change (inject_Z (5 * 2)) with 10%Q. lra. }
  subst v.
  destruct (py_min_spec 1 (inject_Z (Z.of_nat n) / inject_Z (5 * 2)))
    as [[? E']|[? E']]; rewrite E' in Hhigh; lra.
Qed.

Lemma fraud_needs_eight_recent_transactions_witness :
  exists a,
    @calculate_risk_score default_config exact_math night_purchase_abroad
      us_profile ten_in_last_hour = Ok a
    /\ is_fraud a = true
    /\ (8 <= length
               (filter
                  (fun txn =>
                     in_last_hour
                       (3 * hour + 30 * minute - timedelta_hours 1)%Z txn
                     = true)
                  ten_in_last_hour))%nat.
Proof.
  eexists. split; [vm_compute; reflexivity |]. split; [reflexivity |].
  eapply (@fraud_needs_eight_recent_transactions exact_math
            night_purchase_abroad us_profile ten_in_last_hour).
  - reflexivity.
  - repeat constructor; eexists; reflexivity.
  - vm_compute. reflexivity.
  - reflexivity.
Defined.

(** ** The reported score *)

Lemma round_half_even_close (y : Q) :
  (y - (1 # 2) <= inject_Z (round_half_even y) <= y + (1 # 2))%Q.
Proof.
  unfold round_half_even.
  pose proof (Qfloor_le y) as Hf. pose proof (Qlt_floor y) as Hf'.
  rewrite inject_Z_plus in Hf'. change (inject_Z 1) with 1%Q in Hf'.
  destruct (Qlt_bool (y - inject_Z (Qfloor y)) (1 # 2)) eqn:E1.
  { apply Qlt_bool_iff in E1. lra. }
  apply Qlt_bool_false in E1.
  destruct (Qlt_bool (1 # 2) (y - inject_Z (Qfloor y))) eqn:E2.
  { rewrite inject_Z_plus. change (inject_Z 1) with 1%Q. lra. }
  apply Qlt_bool_false in E2.
  destruct (Z.even (Qfloor y)); [lra |].
  rewrite inject_Z_plus. change (inject_Z 1) with 1%Q. lra.
Qed.

Lemma py_round_3_close (x : Q) :
  (x - (1 # 2000) <= py_round x 3 <= x + (1 # 2000))%Q.
Proof.
  unfold py_round. change (inject_Z (10 ^ Z.of_nat 3)) with 1000%Q.
  pose proof (round_half_even_close (x * 1000)) as [Hlo Hhi]. split.
  - apply Qle_shift_div_l; lra.
  - apply Qle_shift_div_r; lra.
Qed.

Section ReportedScore.
Context `{Config} `{FloatMath}.

(** X9. The reported [risk_score] is within 0.0005 of the composite score,
    the clamped weighted sum of the four signals. *)
Theorem risk_score_within_half_a_thousandth
    (transaction : Transaction) (customer_profile : Profile)
    (recent_transactions : list Transaction) (a : RiskAssessment) :
  calculate_risk_score transaction customer_profile recent_transactions
    = Ok a ->
  exists velocity amount location time,
    risk_factors a =
      [("velocity", velocity); ("amount", amount);
       ("location", location); ("time", time)]
    /\ (Qabs (risk_score a - spec_composite velocity amount location time)
        <= 1 # 2000)%Q.
Proof.
  intros Ha. apply calculate_risk_score_Ok in Ha
    as (v & am & l & t & _ & _ & _ & _ & ->).
  exists v, am, l, t. split; [done |]. cbn [risk_score].
  set (total := (0 + v * weight_velocity + am * weight_amount
                 + l * weight_location + t * weight_time)%Q).
  assert (spec_composite v am l t == py_min (py_max total 0) 1)%Q as ->.
  { rewrite clamp_is_Qmin_Qmax. unfold spec_composite.
    assert (total == 0.4 * v + 0.3 * am + 0.2 * l + 0.1 * t)%Q as ->;
      [| done].
    unfold total, weight_velocity, weight_amount, weight_location,
      weight_time. ring. }
  pose proof (py_round_3_close (py_min (py_max total 0) 1)) as [Hlo Hhi].
  apply Qabs_case; intros _; lra.
Qed.

End ReportedScore.

Lemma risk_score_within_half_a_thousandth_witness :
  exists a,
    @calculate_risk_score default_config exact_math night_purchase_abroad
      us_profile ten_in_last_hour = Ok a
    /\ exists velocity amount location time,
         risk_factors a =
           [("velocity", velocity); ("amount", amount);
            ("location", location); ("time", time)]
         /\ (Qabs
               (risk_score a - spec_composite velocity amount location time)
             <= 1 # 2000)%Q.
Proof.
  eexists. split; [vm_compute; reflexivity |].
  apply (@risk_score_within_half_a_thousandth default_config exact_math
           night_purchase_abroad us_profile ten_in_last_hour).
  vm_compute. reflexivity.
Defined.

(** A whole number no less than [x - 1/2], for [x] above a whole bound, is
    at least that bound. *)
Lemma thousandths_at_least (k bound : Z) (x : Q) :
  (x - (1 # 2) <= inject_Z k)%Q -> (inject_Z bound < x)%Q -> bound < k + 1.
Proof.
  intros Hk Hx. rewrite Zlt_Qlt, inject_Z_plus.
  change (inject_Z 1) with 1%Q. lra.
Qed.

(** X10. Under the default threshold 0.8 the reported score and the flag
    disagree at the threshold value only: a flagged transaction reports a
    [risk_score] of at least 0.8, and a reported [risk_score] above 0.8
    belongs to a flagged transaction. *)
Theorem flag_and_reported_score_agree_off_the_threshold `{FloatMath}
    (transaction : Transaction) (customer_profile : Profile)
    (recent_transactions : list Transaction) (a : RiskAssessment) :
  @calculate_risk_score default_config _ transaction customer_profile
    recent_transactions = Ok a ->
  (is_fraud a = true -> (0.8 <= risk_score a)%Q)
  /\ ((0.8 < risk_score a)%Q -> is_fraud a = true).
Proof.
  intros Ha. apply calculate_risk_score_Ok in Ha
    as (v & am & l & t & _ & _ & _ & _ & ->).
  cbn [is_fraud risk_score FRAUD_THRESHOLD default_config].
  set (total := py_min (py_max _ 0) 1).
  unfold py_round. change (inject_Z (10 ^ Z.of_nat 3)) with 1000%Q.
  pose proof (round_half_even_close (total * 1000)) as [Hlo Hhi].
  set (k := round_half_even (total * 1000)) in *. split.
  - intros Hfraud. apply Qlt_bool_iff in Hfraud.
    assert (800 < k + 1) as Hk.
    { apply (thousandths_at_least k 800 (total * 1000)); [done |].
      change (inject_Z 800) with 800%Q. lra. }
    apply Qle_shift_div_l; [done |].
    assert (inject_Z 800 <= inject_Z k)%Q as Hk'
      by (rewrite <- Zle_Qle; lia).
    change (inject_Z 800) with 800%Q in Hk'. lra.
  - intros Hscore. apply Qlt_bool_iff.
    assert (800 < k) as Hk.
    { rewrite Zlt_Qlt. change (inject_Z 800) with 800%Q.
      assert (inject_Z k / 1000 * 1000 == inject_Z k)%Q as Hdiv by field.
      set (score := (inject_Z k / 1000)%Q) in *. lra. }
    assert (inject_Z 801 <= inject_Z k)%Q as Hk'
      by (rewrite <- Zle_Qle; lia).
    change (inject_Z 801) with 801%Q in Hk'. lra.
Qed.

Lemma flag_and_reported_score_agree_off_the_threshold_witness :
  exists a,
    @calculate_risk_score default_config exact_math night_purchase_abroad
      us_profile ten_in_last_hour = Ok a
    /\ (is_fraud a = true -> (0.8 <= risk_score a)%Q)
    /\ ((0.8 < risk_score a)%Q -> is_fraud a = true).
Proof.
  eexists. split; [vm_compute; reflexivity |].
  apply (@flag_and_reported_score_agree_off_the_threshold exact_math
           night_purchase_abroad us_profile ten_in_last_hour).
  vm_compute. reflexivity.
Defined.

(** ** What the risk engine reads *)

Section ScoringInputs.
Context `{Config} `{FloatMath}.

Lemma count_recent_reads_timestamps (one_hour_ago : datetime)
    (window window' : list Transaction) (n : Z) :
  Forall2 same_window_entry window window' ->
  count_recent one_hour_ago window n = count_recent one_hour_ago window' n.
Proof.
  intros Hw. revert n.
  induction Hw as [| x y l l' [Hts _] _ IH]; intros n; [done |].
  cbn [count_recent]. rewrite Hts.
  destruct (getitem "timestamp" (timestamp y)); cbn; [apply IH | done].
Qed.

Lemma scan_recent_reads_locations (txn_location : Location)
    (slice slice' : list Transaction) :
  Forall2 same_window_entry slice slice' ->
  scan_recent txn_location slice = scan_recent txn_location slice'.
Proof.
  induction 1 as [| x y l l' [_ Hloc] _ IH]; [done |].
  cbn [scan_recent]. rewrite Hloc, IH. done.
Qed.

Lemma last5_Forall2 {A B} (R : A -> B -> Prop) (l : list A) (l' : list B) :
  Forall2 R l l' -> Forall2 R (last5 l) (last5 l').
Proof.
  intros Hl. unfold last5. rewrite <- (Forall2_length _ _ _ Hl).
  by apply Forall2_drop.
Qed.

(** X11. The assessment depends on the amount, timestamp and location of
    the transaction, on the average monthly spend and home location of the
    profile, and on the timestamps and locations of the window entries, and
    on nothing else: not on the merchant, the currency, the ids, or the
    profile's [risk_profile] and counters. *)
Theorem assessment_reads_amount_time_and_place
    (transaction transaction' : Transaction)
    (customer_profile customer_profile' : Profile)
    (recent_transactions recent_transactions' : list Transaction) :
  same_for_scoring transaction transaction' ->
  average_monthly_spend customer_profile
    = average_monthly_spend customer_profile' ->
  home_location customer_profile = home_location customer_profile' ->
  Forall2 same_window_entry recent_transactions recent_transactions' ->
  calculate_risk_score transaction customer_profile recent_transactions
  = calculate_risk_score transaction' customer_profile'
      recent_transactions'.
Proof.
  intros (Ham & Hts & Hloc) Hspend Hhome Hw.
  assert (_check_velocity_risk transaction recent_transactions
          = _check_velocity_risk transaction' recent_transactions') as Hv.
  { unfold _check_velocity_risk. rewrite Hts.
    destruct (getitem "timestamp" (timestamp transaction'))
      as [current_time |]; cbn -[count_recent].
    - rewrite (count_recent_reads_timestamps _ _ _ _ Hw). by destruct Hw.
    - by destruct Hw. }
  assert (_check_amount_risk transaction customer_profile
          = _check_amount_risk transaction' customer_profile') as Ha.
  { unfold _check_amount_risk. by rewrite Ham, Hspend. }
  assert (_check_location_risk transaction customer_profile
            recent_transactions
          = _check_location_risk transaction' customer_profile'
              recent_transactions') as Hl.
  { unfold _check_location_risk. rewrite Hloc, Hhome.
    rewrite (scan_recent_reads_locations _ _ _ (last5_Forall2 _ _ _ Hw)).
    by destruct Hw. }
  assert (_check_time_risk transaction = _check_time_risk transaction')
    as Ht.
  { unfold _check_time_risk. by rewrite Hts. }
  unfold calculate_risk_score. by rewrite Hv, Ha, Hl, Ht.
Qed.

End ScoringInputs.

Lemma assessment_reads_amount_time_and_place_witness :
  @calculate_risk_score default_config exact_math (afternoon_purchase 50)
    us_profile five_in_last_hour
  = @calculate_risk_score default_config exact_math other_merchant_purchase
      flagged_us_profile five_in_last_hour.
Proof.
  apply (@assessment_reads_amount_time_and_place default_config exact_math).
  - done.
  - reflexivity.
  - reflexivity.
  - unfold five_in_last_hour. cbn [fmap list_fmap].
    repeat (constructor; [done |]). constructor.
Defined.

(** ** Through the table and back *)

(** X12. A number written through [_convert_to_dynamodb_format], stored,
    and read back through [_convert_from_dynamodb_format] arrives as a
    [str] holding its value: [float] of it is the number, it is true in
    Python's sense even when the number is zero, and adding 1 to it raises
    [TypeError]. *)
Theorem numbers_come_back_as_strings (v : pyval) :
  (forall text, v <> PStr (Text text)) ->
  exists q,
    from_dynamodb_value (number_as_decimal (to_dynamodb_value v))
      = PStr (Numeral q)
    /\ py_float v = Ok q
    /\ truthy
         (Some (from_dynamodb_value
                  (number_as_decimal (to_dynamodb_value v)))) = true
    /\ py_add_int
         (from_dynamodb_value (number_as_decimal (to_dynamodb_value v))) 1
       = Raise TypeError.
Proof.
  intros Hnum. destruct v as [z | x | q | [q | text]];
    [by eexists .. |]. by destruct (Hnum text).
Qed.

Lemma numbers_come_back_as_strings_witness :
  exists q,
    from_dynamodb_value (number_as_decimal (to_dynamodb_value (PFloat 0)))
      = PStr (Numeral q)
    /\ py_float (PFloat 0) = Ok q
    /\ truthy
         (Some (from_dynamodb_value
                  (number_as_decimal (to_dynamodb_value (PFloat 0))))) = true
    /\ py_add_int
         (from_dynamodb_value
            (number_as_decimal (to_dynamodb_value (PFloat 0)))) 1
       = Raise TypeError.
Proof.
  apply (numbers_come_back_as_strings (PFloat 0)). intros text. discriminate.
Defined.

Section StoredProfiles.
Context `{Config} `{FloatMath}.

Lemma py_float_read_back (v : pyval) :
  py_float (from_dynamodb_value (number_as_decimal (to_dynamodb_value v)))
  = py_float v.
Proof. by destruct v as [| | | []]. Qed.

Lemma country_read_back (v : option LocationValue) :
  loc_get
    (default (LocDict empty_location)
       (map_location from_dynamodb_value
          <$> (map_location number_as_decimal
                 <$> (map_location to_dynamodb_value <$> v))))
    country
  = loc_get (default (LocDict empty_location) v) country.
Proof. by destruct v as [[] |]. Qed.

(** X13. Scoring against a profile that went through the table (written
    with [_convert_to_dynamodb_format], read back with
    [_convert_from_dynamodb_format]) gives the assessment that scoring
    against the profile in memory gives. *)
Theorem stored_profile_scores_as_in_memory (transaction : Transaction)
    (customer_profile : Profile) (recent_transactions : list Transaction) :
  calculate_risk_score transaction
    (_convert_from_dynamodb_format
       (map_profile number_as_decimal
          (_convert_to_dynamodb_format customer_profile)))
    recent_transactions
  = calculate_risk_score transaction customer_profile recent_transactions.
Proof.
  assert (forall p,
            _check_amount_risk transaction
              (_convert_from_dynamodb_format
                 (map_profile number_as_decimal
                    (_convert_to_dynamodb_format p)))
            = _check_amount_risk transaction p) as Ha.
  { intros p. unfold _check_amount_risk, _convert_from_dynamodb_format,
      _convert_to_dynamodb_format, map_item, profile_item. cbn [map_profile
      average_monthly_spend].
    destruct (average_monthly_spend p) as [v |]; [| done].
    cbn [fmap option_fmap option_map default].
    unfold id. by rewrite py_float_read_back. }
  assert (forall p,
            _check_location_risk transaction
              (_convert_from_dynamodb_format
                 (map_profile number_as_decimal
                    (_convert_to_dynamodb_format p)))
              recent_transactions
            = _check_location_risk transaction p recent_transactions) as Hl.
  { intros p. unfold _check_location_risk, _convert_from_dynamodb_format,
      _convert_to_dynamodb_format, map_item, profile_item.
    cbn [map_profile home_location]. by rewrite country_read_back. }
  unfold calculate_risk_score. by rewrite Ha, Hl.
Qed.

End StoredProfiles.

(** ** Fetching the profile and the window *)

(** X14. When the read of the customers table fails, or the customer has
    no profile and the write of the new one fails, [_get_customer_profile]
    does not raise: it logs one error and returns the conservative profile
    (risk profile high, average monthly spend 500.0), and nothing but the
    log has changed. *)
Theorem profile_fetch_falls_back_on_failure (customer : string)
    (w : World) :
  outage w (GetItem customer) = true
  \/ (customers_table w !! customer = None
      /\ outage w
           (PutProfile
              (_convert_to_dynamodb_format
                 (default_profile customer (clock w)))) = true) ->
  exists e,
    _get_customer_profile customer w
    = (Ok (fallback_profile customer),
       with_logger
         (cons (LogError
                  ("Error retrieving customer profile for " +:+ customer)
                  e)) w).
Proof.
  unfold _get_customer_profile, try_except, customers_get_item,
    customers_put_item, datetime_now.
  intros Hfail. destruct (outage w (GetItem customer)) eqn:Hget.
  - rewrite (bind_raise _ _ _ _ _
               (bind_raise _ _ _ _ _ (external_down _ _ Hget))).
    by eexists.
  - destruct Hfail as [? | [Hnone Hput]]; [done |].
    unfold gets, mbind, M_bind, external.
    rewrite Hget, Hnone. cbn [fmap option_fmap option_map]. rewrite Hput.
    by eexists.
Qed.

Lemma profile_fetch_falls_back_on_failure_witness :
  exists e,
    _get_customer_profile "c1" customers_unreadable
    = (Ok (fallback_profile "c1"),
       with_logger
         (cons (LogError ("Error retrieving customer profile for " +:+ "c1")
                  e)) customers_unreadable).
Proof.
  apply (profile_fetch_falls_back_on_failure "c1" customers_unreadable).
  left. reflexivity.
Defined.

(** X15. For a customer without a profile, with the customers table
    answering, [_get_customer_profile] stores the default profile under the
    customer's id and returns the dict it built, whose count is the [int]
    0 and whose average is the [float] 1000.0.  The next fetch returns what
    is stored instead: the same values as [str]. *)
Theorem new_customer_profile_is_created (customer : string) (w : World) :
  customers_table w !! customer = None ->
  no_outage w ->
  exists w1 p2,
    _get_customer_profile customer w
      = (Ok (default_profile customer (clock w)), w1)
    /\ w1 = with_customers
              <[customer :=
                  _convert_to_dynamodb_format
                    (default_profile customer (clock w))]> w
    /\ _get_customer_profile customer w1 = (Ok p2, w1)
    /\ transaction_count p2 = Some (PStr (Numeral 0))
    /\ average_monthly_spend p2 = Some (PStr (Numeral 1000))
    /\ risk_profile p2 = Some "medium".
Proof.
  intros Hnone Hup. eexists _, _. split; [| split; [reflexivity |]].
  - unfold _get_customer_profile, try_except, customers_get_item,
      customers_put_item, datetime_now, gets, modify, mbind, M_bind,
      external.
    rewrite Hup, Hnone. cbn [fmap option_fmap option_map]. by rewrite Hup.
  - split.
    + apply _get_customer_profile_stored; [| apply Hup].
      cbn [customers_table with_customers]. apply lookup_insert_eq.
    + split; [reflexivity | split; reflexivity].
Qed.

Lemma new_customer_profile_is_created_witness :
  exists w1 p2,
    _get_customer_profile "c1" (empty_world (14 * hour))
      = (Ok (default_profile "c1" (clock (empty_world (14 * hour)))), w1)
    /\ w1 = with_customers
              <["c1" :=
                  _convert_to_dynamodb_format
                    (default_profile "c1"
                       (clock (empty_world (14 * hour))))]>
              (empty_world (14 * hour))
    /\ _get_customer_profile "c1" w1 = (Ok p2, w1)
    /\ transaction_count p2 = Some (PStr (Numeral 0))
    /\ average_monthly_spend p2 = Some (PStr (Numeral 1000))
    /\ risk_profile p2 = Some "medium".
Proof.
  apply (new_customer_profile_is_created "c1" (empty_world (14 * hour))).
  - reflexivity.
  - intros c. reflexivity.
Defined.

Lemma insert_desc_Forall (P : EnrichedTransaction -> Prop)
    (x : EnrichedTransaction) (l : list EnrichedTransaction) :
  P x -> Forall P l -> Forall P (insert_desc x l).
Proof.
  intros Hx. induction 1 as [| y l Hy Hl IH]; cbn [insert_desc].
  - by constructor.
  - destruct (_ <=? _); repeat constructor; auto.
Qed.

Lemma sort_desc_Forall (P : EnrichedTransaction -> Prop)
    (l : list EnrichedTransaction) :
  Forall P l -> Forall P (sort_desc l).
Proof.
  unfold sort_desc. induction 1; cbn [foldr]; [constructor |].
  by apply insert_desc_Forall.
Qed.

Lemma insert_desc_length (x : EnrichedTransaction)
    (l : list EnrichedTransaction) :
  length (insert_desc x l) = S (length l).
Proof.
  induction l as [| y l IH]; [done |]. cbn [insert_desc].
  destruct (_ <=? _); cbn [length]; congruence.
Qed.

Lemma insert_desc_sorted (x : EnrichedTransaction)
    (l : list EnrichedTransaction) :
  StronglySorted (fun a b => not_older (base a) (base b)) l ->
  StronglySorted (fun a b => not_older (base a) (base b)) (insert_desc x l).
Proof.
  induction 1 as [| y l Hl IH Hy]; cbn [insert_desc].
  - repeat constructor.
  - destruct (_ <=? _) eqn:Hle.
    + apply Z.leb_le in Hle. constructor; [by constructor |].
      constructor; [done |].
      eapply Forall_impl; [exact Hy |]. unfold not_older. intros z Hz. lia.
    + apply Z.leb_gt in Hle. constructor; [done |].
      apply insert_desc_Forall; [| done]. unfold not_older. lia.
Qed.

Lemma sort_desc_sorted (l : list EnrichedTransaction) :
  StronglySorted (fun a b => not_older (base a) (base b)) (sort_desc l).
Proof.
  unfold sort_desc. induction l; cbn [foldr]; [constructor |].
  by apply insert_desc_sorted.
Qed.

Lemma StronglySorted_take {A} (R : A -> A -> Prop) (n : nat) (l : list A) :
  StronglySorted R l -> StronglySorted R (take n l).
Proof.
  intros Hl. revert n. induction Hl as [| x l Hl IH Hx]; intros [| n];
    cbn [take]; try constructor; [apply IH |].
  by apply Forall_take.
Qed.

Lemma StronglySorted_fmap_base (l : list EnrichedTransaction) :
  StronglySorted (fun a b => not_older (base a) (base b)) l ->
  StronglySorted not_older
    ((fun item => base (_convert_from_dynamodb_format item)) <$> l).
Proof.
  induction 1 as [| x l Hl IH Hx]; cbn [fmap list_fmap]; constructor;
    [done |].
  apply Forall_fmap. eapply Forall_impl; [exact Hx |]. by intros y.
Qed.

(** X16. [_get_recent_transactions] does not raise and changes nothing
    but the log.  The window it returns has at most 50 entries, each of the
    customer asked for and none older than the given number of hours, the
    most recent first; it is empty when the query fails. *)
Theorem recent_window_is_bounded_and_ordered (customer : string) (hours : Z)
    (w : World) :
  exists window w',
    _get_recent_transactions customer hours w = (Ok window, w')
    /\ only_logged w w'
    /\ (length window <= 50)%nat
    /\ Forall
         (fun txn =>
            customer_id txn = Some customer
            /\ clock w - timedelta_hours hours
               <= default 0 (timestamp txn))
         window
    /\ StronglySorted not_older window
    /\ (if outage w (Query customer (clock w - timedelta_hours hours))
        then window = []
        else w' = w).
Proof.
  unfold _get_recent_transactions, try_except, transactions_query,
    datetime_now, gets, mbind, M_bind, external.
  destruct (outage w (Query customer (clock w - timedelta_hours hours))).
  - eexists _, _. split; [reflexivity |].
    split; [by eexists [_] |]. cbn [length].
    split; [lia |]. split; [constructor |]. split; [constructor | done].
  - eexists _, _. split; [reflexivity |].
    split; [reflexivity |]. split; [| split; [| split; [| done]]].
    + rewrite length_fmap, length_take. lia.
    + apply Forall_fmap, Forall_take, sort_desc_Forall.
      apply Forall_forall. intros x Hx.
      apply list_elem_of_filter in Hx as [Hx _]. exact Hx.
    + apply StronglySorted_fmap_base, StronglySorted_take, sort_desc_sorted.
Qed.

(** ** Updating the profile *)

(** The update either writes the updated profile under the profile's own
    customer id, or logs one error; it returns in both cases. *)
Lemma _update_customer_profile_cases (e : EnrichedTransaction)
    (p : Profile) (w : World) :
  (exists updated,
     updated_profile e p (clock w) = Ok updated
     /\ _update_customer_profile e p w
        = (Ok tt,
           with_customers
             <[profile_customer_id p :=
                 _convert_to_dynamodb_format updated]> w))
  \/ (exists err,
        _update_customer_profile e p w
        = (Ok tt,
           with_logger
             (cons (LogError "Error updating customer profile" err)) w)).
Proof.
  unfold _update_customer_profile, try_except, datetime_now, gets, lift,
    customers_put_item, modify, mbind, M_bind, external.
  destruct (updated_profile e p (clock w)) as [updated | err] eqn:Hu;
    [| right; by eexists].
  destruct (outage w _); [right; by eexists |].
  left. exists updated. split; [done |].
  by apply updated_profile_count in Hu as [_ <-].
Qed.

(** X17. [_update_customer_profile] does not raise, whatever profile and
    transaction it is given and whichever service is out.  It leaves the
    transactions table, the bucket and the metrics alone, and in the
    customers table every profile but the one of the profile's own customer
    id. *)
Theorem profile_update_never_raises (e : EnrichedTransaction) (p : Profile)
    (w : World) :
  exists w',
    _update_customer_profile e p w = (Ok tt, w')
    /\ transactions_table w' = transactions_table w
    /\ s3_raw_bucket w' = s3_raw_bucket w
    /\ cloudwatch w' = cloudwatch w
    /\ forall customer,
         customer <> profile_customer_id p ->
         customers_table w' !! customer = customers_table w !! customer.
Proof.
  destruct (_update_customer_profile_cases e p w)
    as [(updated & _ & ->) | (err & ->)]; eexists; (split; [done |]);
    repeat (split; [done |]); intros customer Hne; [| done].
  cbn [customers_table with_customers]. by rewrite lookup_insert_ne.
Qed.

(** What [_get_customer_profile] returns: the stored profile as read, the
    new default profile, or the conservative profile. *)
Lemma _get_customer_profile_cases (customer : string) (p : Profile)
    (w w1 : World) :
  _get_customer_profile customer w = (Ok p, w1) ->
  (exists item,
     customers_table w !! customer = Some item
     /\ p = _convert_from_dynamodb_format
              (map_profile number_as_decimal item))
  \/ p = default_profile customer (clock w)
  \/ p = fallback_profile customer.
Proof.
  unfold _get_customer_profile, try_except, customers_get_item,
    customers_put_item, datetime_now, gets, modify, logger_log, mbind,
    M_bind, mret, M_ret, external.
  destruct (outage w (GetItem customer)); [intros [= <- _]; auto |].
  destruct (customers_table w !! customer) as [item |];
    cbn [fmap option_fmap option_map].
  - intros [= <- _]. left. by exists item.
  - destruct (outage w _); intros [= <- _]; auto.
Qed.

(** The first update of a profile that counts no transaction yet. *)
Lemma updated_profile_first (e : EnrichedTransaction) (p updated : Profile)
    (now : datetime) :
  transaction_count p = Some (PInt 0) ->
  updated_profile e p now = Ok updated ->
  exists a x,
    amount (base e) = Some a /\ py_float a = Ok x
    /\ transaction_count updated = Some (PInt 1)
    /\ average_monthly_spend updated = Some (PFloat (py_round x 2)).
Proof.
  intros Hcount. unfold updated_profile. rewrite Hcount.
  cbn [default from_option id py_add_int py_gt_zero Z.ltb Z.compare mbind
         result_bind].
  destruct (amount (base e)) as [a |]; [| done].
  cbn [getitem mbind result_bind].
  destruct (py_float a) as [x |] eqn:Hx; [| done].
  cbn [mbind result_bind]. intros Hu. do 2 bind_inv Hu.
  injection Hu as <-. by exists a, x.
Qed.

(** X18. In the pipeline the profile handed to the update is the one
    [_get_customer_profile] returned.  Whatever the customers table holds
    (every stored profile having a count), an update of that profile that
    writes at all writes a transaction count of 1 and, as the average
    monthly spend, the amount of this one transaction rounded to two
    digits: a stored profile is read back with a [str] for a count, and the
    update of it fails. *)
Theorem fetched_profile_updates_to_count_one (customer : string)
    (p : Profile) (e : EnrichedTransaction) (w w1 w2 w3 : World) :
  counted_profiles w ->
  _get_customer_profile customer w = (Ok p, w1) ->
  _update_customer_profile e p w2 = (Ok tt, w3) ->
  customers_table w3 = customers_table w2
  \/ exists updated a x,
       customers_table w3 = <[customer := updated]> (customers_table w2)
       /\ amount (base e) = Some a /\ py_float a = Ok x
       /\ transaction_count updated = Some (PInt 1)
       /\ average_monthly_spend updated
          = Some (PDecimal (py_round x 2)).
Proof.
  intros Hcounted Hp Hupdate.
  apply _get_customer_profile_cases in Hp
    as [(item & Hitem & ->) | Hnew].
  - left. destruct (stored_count_is_str item) as [s Hs]; [by eapply Hcounted |].
    rewrite (_update_customer_profile_str_count _ _ _ _ Hs) in Hupdate.
    by injection Hupdate as <-.
  - assert (transaction_count p = Some (PInt 0)
            /\ profile_customer_id p = customer) as [Hzero Hid]
      by (by destruct Hnew as [-> | ->]).
    destruct (_update_customer_profile_cases e p w2)
      as [(updated & Hu & Hrun) | [err Hrun]];
      rewrite Hrun in Hupdate; injection Hupdate as <-; [right | by left].
    destruct (updated_profile_first _ _ _ _ Hzero Hu)
      as (a & x & Ha & Hx & Hc & Havg).
    exists (_convert_to_dynamodb_format updated), a, x.
    rewrite <- Hid. split; [done |]. split; [done |]. split; [done |].
    unfold _convert_to_dynamodb_format, map_item, profile_item.
    cbn [map_profile transaction_count average_monthly_spend].
    by rewrite Hc, Havg.
Qed.

Lemma fetched_profile_updates_to_count_one_witness :
  let w := empty_world (14 * hour) in
  let w1 := (_get_customer_profile "c1" w).2 in
  let w3 :=
    (_update_customer_profile scored_purchase
       (default_profile "c1" (14 * hour)) w1).2 in
  customers_table w3 = customers_table w1
  \/ exists updated a x,
       customers_table w3 = <["c1" := updated]> (customers_table w1)
       /\ amount (base scored_purchase) = Some a /\ py_float a = Ok x
       /\ transaction_count updated = Some (PInt 1)
       /\ average_monthly_spend updated
          = Some (PDecimal (py_round x 2)).
Proof.
  apply (fetched_profile_updates_to_count_one "c1"
           (default_profile "c1" (14 * hour)) scored_purchase
           (empty_world (14 * hour))
           (_get_customer_profile "c1" (empty_world (14 * hour))).2
           (_get_customer_profile "c1" (empty_world (14 * hour))).2).
  - intros customer item. vm_compute. discriminate.
  - vm_compute. reflexivity.
  - vm_compute. reflexivity.
Defined.

(** A mean of [n] times [avg] and once [x] lies between the two. *)
Lemma running_mean_between (avg x : Q) (n : Z) :
  0 < n ->
  (Qmin avg x <= (avg * inject_Z n + x) / inject_Z (n + 1)
   <= Qmax avg x)%Q.
Proof.
  intros Hn. rewrite inject_Z_plus. change (inject_Z 1) with 1%Q.
  assert (0 < inject_Z n)%Q as Hn'.
  { change 0%Q with (inject_Z 0). by rewrite <- Zlt_Qlt. }
  set (N := inject_Z n) in *.
  pose proof (Q.le_min_l avg x). pose proof (Q.le_min_r avg x).
  pose proof (Q.le_max_l avg x). pose proof (Q.le_max_r avg x).
  set (lo := Qmin avg x) in *. set (hi := Qmax avg x) in *.
  assert (lo * N <= avg * N)%Q by (apply Qmult_le_compat_r; lra).
  assert (avg * N <= hi * N)%Q by (apply Qmult_le_compat_r; lra).
  split.
  - apply Qle_shift_div_l; lra.
  - apply Qle_shift_div_r; lra.
Qed.

(** X19. On a profile whose count, fraud count and average are numbers of
    the types the code itself creates ([int], [int], [float]), the update
    of the profile adds one to the count, adds one to the fraud count
    exactly when the transaction was flagged, and keeps the customer id,
    risk profile and home location.  The new average is rounded to two
    digits from the amount itself when the count was not positive, and
    otherwise from a mean that lies between the old average and the
    amount. *)
Theorem profile_update_counts_and_averages (e : EnrichedTransaction)
    (p : Profile) (now ts : datetime) (n f : Z) (avg x : Q) (a : pyval) :
  transaction_count p = Some (PInt n) ->
  fraud_count p = Some (PInt f) ->
  average_monthly_spend p = Some (PFloat avg) ->
  amount (base e) = Some a -> py_float a = Ok x ->
  timestamp (base e) = Some ts ->
  exists updated mean,
    updated_profile e p now = Ok updated
    /\ transaction_count updated = Some (PInt (n + 1))
    /\ fraud_count updated
       = Some (PInt (if is_fraud (analysis e) then f + 1 else f))
    /\ profile_customer_id updated = profile_customer_id p
    /\ risk_profile updated = risk_profile p
    /\ home_location updated = home_location p
    /\ last_transaction_timestamp updated = Some ts
    /\ average_monthly_spend updated = Some (PFloat (py_round mean 2))
    /\ (if 0 <? n then (Qmin avg x <= mean <= Qmax avg x)%Q else mean = x).
Proof.
  intros Hn Hf Havg Ha Hx Hts. unfold updated_profile.
  rewrite Hn, Hf, Havg, Ha, Hts.
  cbn [default from_option id py_add_int py_gt_zero float_operand getitem
         mbind result_bind].
  rewrite Hx. cbn [mbind result_bind].
  destruct (0 <? n) eqn:Hpos.
  - apply Z.ltb_lt in Hpos. cbn [mbind result_bind]. unfold py_div.
    assert (Qeq_bool (inject_Z (n + 1)) 0 = false) as ->.
    { apply not_true_iff_false. rewrite Qeq_bool_iff.
      change 0%Q with (inject_Z 0). rewrite inject_Z_injective. lia. }
    cbn [mbind result_bind].
    destruct (is_fraud (analysis e)); cbn [mbind result_bind];
      eexists _, _; (split; [reflexivity |]); cbn;
      repeat (split; [reflexivity |]);
      by apply running_mean_between.
  - cbn [mbind result_bind].
    destruct (is_fraud (analysis e)); cbn [mbind result_bind];
      eexists _, _; (split; [reflexivity |]); cbn;
      repeat (split; [reflexivity |]); reflexivity.
Qed.

Lemma profile_update_counts_and_averages_witness :
  exists updated mean,
    updated_profile scored_purchase (default_profile "c1" (14 * hour))
      (14 * hour) = Ok updated
    /\ transaction_count updated = Some (PInt (0 + 1))
    /\ fraud_count updated
       = Some (PInt (if is_fraud (analysis scored_purchase) then 0 + 1
                     else 0))
    /\ profile_customer_id updated
       = profile_customer_id (default_profile "c1" (14 * hour))
    /\ risk_profile updated = risk_profile (default_profile "c1" (14 * hour))
    /\ home_location updated
       = home_location (default_profile "c1" (14 * hour))
    /\ last_transaction_timestamp updated = Some (14 * hour)
    /\ average_monthly_spend updated = Some (PFloat (py_round mean 2))
    /\ (if 0 <? 0 then (Qmin 1000 50 <= mean <= Qmax 1000 50)%Q
        else mean = 50%Q).
Proof.
  apply (profile_update_counts_and_averages scored_purchase
           (default_profile "c1" (14 * hour)) (14 * hour) (14 * hour) 0 0
           1000 50 (PFloat 50)); reflexivity.
Defined.

(** ** Metrics and the archive *)

(** X20. [_send_metrics] does not raise.  Either it sends one batch and
    logs nothing, or it logs one error and sends nothing.  The batch holds
    ProcessedTransactions, TransactionAmount and RiskScore, in this order,
    followed by FraudDetected exactly when the transaction is flagged; the
    amount is [float] of the transaction's amount and the score is the
    reported one. *)
Theorem metrics_are_one_batch_or_one_error (e : EnrichedTransaction)
    (w : World) :
  exists w',
    _send_metrics e w = (Ok tt, w')
    /\ ((exists batch a x,
           w' = with_cloudwatch (cons batch) w
           /\ amount (base e) = Some a /\ py_float a = Ok x
           /\ MetricName <$> batch
              = (["ProcessedTransactions"; "TransactionAmount"; "RiskScore"]
                   ++ (if is_fraud (analysis e) then ["FraudDetected"]
                       else []))%list
           /\ Value <$> batch
              = ([1; x; risk_score (analysis e)]
                   ++ (if is_fraud (analysis e) then [1] else []))%list%Q)
        \/ (exists err,
              w' = with_logger (cons (LogError "Error sending metrics" err))
                     w)).
Proof.
  unfold _send_metrics, try_except, cloudwatch_put_metric_data, logger_log,
    modify, lift, mbind, M_bind, external.
  destruct (amount (base e)) as [a |]; cbn [getitem];
    [| eexists; split; [reflexivity | right; by eexists]].
  destruct (py_float a) as [x |] eqn:Hx;
    [| eexists; split; [reflexivity | right; by eexists]].
  destruct (outage w _);
    [eexists; split; [reflexivity | right; by eexists] |].
  eexists. split; [reflexivity |]. left. eexists _, a, x.
  split; [reflexivity |]. split; [done |]. split; [done |].
  by destruct (is_fraud (analysis e)).
Qed.

(** X21. [_archive_to_s3] does not raise.  Either it puts the enriched
    transaction, as it is in memory, under the key made of the hour its
    timestamp falls in and its id, and logs nothing; or it logs one error
    and puts nothing. *)
Theorem archive_is_one_object_or_one_error (e : EnrichedTransaction)
    (w : World) :
  exists w',
    _archive_to_s3 e w = (Ok tt, w')
    /\ ((exists ts id,
           timestamp (base e) = Some ts
           /\ transaction_id (base e) = Some id
           /\ w' = with_bucket
                     (cons ({| partition_hour := ts / timedelta_hours 1;
                               key_transaction_id := id |}, e)) w)
        \/ (exists err,
              w' = with_logger
                     (cons (LogError "Error archiving transaction to S3"
                              err)) w)).
Proof.
  unfold _archive_to_s3, try_except, s3_put_object, logger_log, modify,
    lift, mbind, M_bind, external.
  destruct (timestamp (base e)) as [ts |]; cbn [getitem];
    [| eexists; split; [reflexivity | right; by eexists]].
  destruct (transaction_id (base e)) as [id |]; cbn [getitem];
    [| eexists; split; [reflexivity | right; by eexists]].
  destruct (outage w _);
    [eexists; split; [reflexivity | right; by eexists] |].
  eexists. split; [reflexivity |]. left. by eexists ts, id.
Qed.

(** ** What a record leaves behind *)

#[export] Instance same_transactions_preorder : PreOrder same_transactions.
Proof.
  split; [by intros w |]. unfold same_transactions.
  intros w1 w2 w3 H1 H2. congruence.
Qed.

#[export] Instance same_records_preorder : PreOrder same_records.
Proof.
  split; [by intros w |].
  intros w1 w2 w3 (H1 & H2 & H3) (H4 & H5 & H6).
  unfold same_records. split; [| split]; congruence.
Qed.

Lemma same_records_same_transactions (w w' : World) :
  same_records w w' -> same_transactions w w'.
Proof. by intros [Ht _]. Qed.

Lemma only_logged_same_records (w w' : World) :
  only_logged w w' -> same_records w w'.
Proof. by intros [records ->]. Qed.

Lemma validated_same_records (transaction_data : Transaction) :
  respects same_records (validated transaction_data).
Proof.
  intros w r w'. unfold validated.
  pose proof (validate_world transaction_data w) as Hw.
  destruct (_validate_transaction transaction_data w) as [[r1 after] w1].
  intros [= <- <-]. simpl in Hw. by destruct Hw as [->| ->].
Qed.

Lemma _get_customer_profile_same_records (customer : string) :
  respects same_records (_get_customer_profile customer).
Proof.
  unfold _get_customer_profile, customers_get_item, customers_put_item,
    logger_log, datetime_now.
  apply respects_try; [apply _ | | respects_steps].
  apply respects_bind; [apply _ | respects_steps |].
  intros [item |]; respects_steps.
Qed.

Section Records.
Context `{Config} `{FloatMath}.

Lemma scoring_steps_same_records (transaction_data : Transaction) :
  respects same_records (scoring_steps transaction_data).
Proof.
  pose proof validated_same_records.
  pose proof _get_customer_profile_same_records.
  unfold scoring_steps, score_and_enrich, _get_recent_transactions,
    transactions_query, logger_log, datetime_now.
  respects_steps.
Qed.

Lemma after_store_same_transactions (e : EnrichedTransaction)
    (p : Profile) :
  respects same_transactions
    (best_effort_steps e p;; success_summary e).
Proof.
  unfold best_effort_steps, success_summary, _archive_to_s3,
    _update_customer_profile, _send_metrics, _handle_fraud_alert,
    s3_put_object, customers_put_item, cloudwatch_put_metric_data,
    logger_log, datetime_now.
  respects_steps.
Qed.

Lemma _store_transaction_Raise (e : EnrichedTransaction) (err : exn)
    (w w' : World) :
  _store_transaction e w = (Raise err, w') -> only_logged w w'.
Proof.
  unfold _store_transaction, try_except, transactions_put_item, logger_log,
    modify, lift, raise, mbind, M_bind, external.
  destruct (outage w _); [| done].
  destruct (getitem _ _); intros [= _ <-]; [by eexists [_] | reflexivity].
Qed.

Lemma _store_transaction_Ok (e : EnrichedTransaction) (w w' : World) :
  _store_transaction e w = (Ok tt, w') ->
  w' = with_transactions
         (fun table =>
            _convert_to_dynamodb_format e
              :: filter
                   (fun x => same_key x (_convert_to_dynamodb_format e)
                             = false) table) w.
Proof.
  unfold _store_transaction, try_except, transactions_put_item, logger_log,
    modify, lift, raise, mbind, M_bind, external.
  destruct (outage w _); [| by intros [= <-]].
  by destruct (getitem _ _).
Qed.

(** The steps of [process_transaction] when it raises: the scoring steps
    raised, or the persist step did. *)
Lemma process_transaction_Raise (transaction_data : Transaction)
    (err : exn) (w w' : World) :
  process_transaction transaction_data w = (Raise err, w') ->
  exists w1,
    same_records w w1
    /\ w' = with_logger
              (cons (LogError "Error processing transaction" err)) w1.
Proof.
  rewrite process_transaction_phases. unfold try_except.
  destruct (scoring_steps transaction_data w) as [[[e p] | e1] w0] eqn:Es.
  - rewrite (bind_run _ _ _ _ _ Es).
    pose proof (scoring_steps_same_records _ _ _ _ Es) as Hw0.
    destruct (scoring_steps_id _ _ _ _ _ Es) as [id Hid].
    destruct (_store_transaction e w0) as [[[] | e2] w2] eqn:Est.
    + rewrite (bind_run _ _ _ _ _ Est).
      destruct (best_effort_steps_return e p w2) as [w3 Eb].
      rewrite (bind_run _ _ _ _ _ Eb).
      unfold success_summary, logger_log, modify, lift, mbind, M_bind.
      by rewrite Hid.
    + rewrite (bind_raise _ _ _ _ _ Est).
      unfold log_and_reraise, logger_log, modify, raise, mbind, M_bind.
      intros [= <- <-]. exists w2. split; [| done].
      transitivity w0; [done |].
      by apply only_logged_same_records, (_store_transaction_Raise e e2).
  - rewrite (bind_raise _ _ _ _ _ Es).
    unfold log_and_reraise, logger_log, modify, raise, mbind, M_bind.
    intros [= <- <-]. exists w0. split; [| done].
    by apply (scoring_steps_same_records _ _ _ _ Es).
Qed.

(** X22. A transaction whose processing raises leaves no record behind:
    the transactions table, the bucket and the metrics are as they were
    (the customers table may have gained a new default profile), and the
    error logged last is the one that is raised. *)
Theorem failed_transaction_records_nothing (transaction_data : Transaction)
    (err : exn) (w w' : World) :
  process_transaction transaction_data w = (Raise err, w') ->
  transactions_table w' = transactions_table w
  /\ s3_raw_bucket w' = s3_raw_bucket w
  /\ cloudwatch w' = cloudwatch w
  /\ head (logger w') = Some (LogError "Error processing transaction" err).
Proof.
  intros E. apply process_transaction_Raise in E
    as (w1 & (Ht & Hb & Hc) & ->).
  by cbn.
Qed.

(** X23. A transaction that is processed is in the transactions table
    when [process_transaction] returns: the item written last is the
    enriched transaction in DynamoDB format, with the id, the risk score
    and the flag of the summary, and the payload's customer id and
    timestamp. *)
Theorem processed_transaction_is_stored (transaction_data : Transaction)
    (summary : Summary) (w w' : World) :
  process_transaction transaction_data w = (Ok summary, w') ->
  exists item,
    head (transactions_table w') = Some item
    /\ status summary = "success"
    /\ transaction_id (base item) = Some (summary_transaction_id summary)
    /\ risk_score (analysis item) = summary_risk_score summary
    /\ is_fraud (analysis item) = summary_is_fraud summary
    /\ customer_id (base item) = customer_id transaction_data
    /\ timestamp (base item) = timestamp transaction_data.
Proof.
  rewrite process_transaction_phases. intros E. apply try_reraise_Ok in E.
  apply bind_Ok_at in E as ([e p] & w0 & Es & E).
  apply bind_Ok_at in E as ([] & w2 & Est & E).
  pose proof (after_store_same_transactions e p _ _ _ E) as Ht.
  apply _store_transaction_Ok in Est as ->.
  exists (_convert_to_dynamodb_format e).
  split; [by rewrite Ht |].
  apply bind_Ok_at in E as ([] & w3 & _ & E).
  unfold success_summary in E.
  apply bind_Ok_at in E as (id & w4 & Eid & E).
  apply bind_Ok_at in E as ([] & w5 & _ & [= <- _]).
  unfold lift in Eid. injection Eid as Hid _. cbn.
  destruct (transaction_id (base e)) as [id' |] eqn:Hid'; [| done].
  injection Hid as <-.
  apply scoring_steps_Ok in Es as (v & wa & _ & Ev & Hbase & _).
  unfold validated, _validate_transaction in Ev.
  destruct (check_required _ _) as [[] |]; [| done].
  destruct (transaction_id transaction_data).
  - injection Ev as Ev _. apply validate_checks_Ok in Ev as ->.
    by rewrite Hbase.
  - cbn in Ev. injection Ev as Ev _. apply validate_checks_Ok in Ev as ->.
    by rewrite Hbase.
Qed.

End Records.

Lemma failed_transaction_records_nothing_witness :
  let w' :=
    (@process_transaction default_config exact_math (afternoon_purchase 50)
       troubled_world).2 in
  transactions_table w' = transactions_table troubled_world
  /\ s3_raw_bucket w' = s3_raw_bucket troubled_world
  /\ cloudwatch w' = cloudwatch troubled_world
  /\ head (logger w')
     = Some (LogError "Error processing transaction"
               (ClientError TransactionsPut)).
Proof.
  apply (@failed_transaction_records_nothing default_config exact_math
           (afternoon_purchase 50) (ClientError TransactionsPut)
           troubled_world).
  vm_compute. reflexivity.
Defined.

Lemma processed_transaction_is_stored_witness :
  exists summary item,
    (@process_transaction default_config exact_math (afternoon_purchase 50)
       (empty_world (14 * hour))).1 = Ok summary
    /\ head
         (transactions_table
            (@process_transaction default_config exact_math
               (afternoon_purchase 50) (empty_world (14 * hour))).2)
       = Some item
    /\ status summary = "success"
    /\ transaction_id (base item) = Some (summary_transaction_id summary)
    /\ risk_score (analysis item) = summary_risk_score summary
    /\ is_fraud (analysis item) = summary_is_fraud summary
    /\ customer_id (base item) = customer_id (afternoon_purchase 50)
    /\ timestamp (base item) = timestamp (afternoon_purchase 50).
Proof.
  eexists.
  destruct (@processed_transaction_is_stored default_config exact_math
              (afternoon_purchase 50)
              {| status := "success"; summary_transaction_id := "t-now";
                 summary_risk_score := 0 # 1000;
                 summary_is_fraud := false |}
              (empty_world (14 * hour))
              (@process_transaction default_config exact_math
                 (afternoon_purchase 50) (empty_world (14 * hour))).2)
    as [item Hitem]; [vm_compute; reflexivity |].
  exists item. split; [vm_compute; reflexivity |]. exact Hitem.
Defined.

(** ** Validation, as the orchestrator sees it *)

Lemma check_required_Ok (transaction : Transaction) :
  check_required required_fields transaction = Ok tt <->
  is_Some (customer_id transaction) /\ is_Some (amount transaction)
  /\ is_Some (currency transaction) /\ is_Some (merchant_id transaction)
  /\ is_Some (merchant_category transaction)
  /\ is_Some (timestamp transaction) /\ is_Some (location transaction).
Proof.
  unfold required_fields. cbn [check_required].
  destruct (customer_id transaction), (amount transaction),
    (currency transaction), (merchant_id transaction),
    (merchant_category transaction), (timestamp transaction),
    (location transaction); cbn [present];
    (split; [intros Hreq; try discriminate; by repeat split |]);
    intros (? & ? & ? & ? & ? & ? & ?); try done;
    by match goal with Hnone : is_Some None |- _ => destruct Hnone end.
Qed.

Lemma validate_checks_Ok_iff (transaction : Transaction) :
  (exists v, validate_checks transaction = Ok v) <->
  exists a x c,
    amount transaction = Some a /\ py_float a = Ok x /\ (0 < x)%Q
    /\ currency transaction = Some c /\ c ∈ supported_currencies
    /\ location transaction <> Some LocOther.
Proof.
  unfold validate_checks. split.
  - intros [v Hv].
    destruct (amount transaction) as [a |]; [| done].
    cbn [getitem mbind result_bind] in Hv.
    destruct (py_float a) as [x |] eqn:Hx; [| done].
    cbn [mbind result_bind] in Hv.
    destruct (Qle_bool x 0) eqn:Hpos; [done |].
    destruct (currency transaction) as [c |]; [| done].
    cbn [getitem mbind result_bind] in Hv.
    destruct (bool_decide (c ∈ supported_currencies)) eqn:Hc; [| done].
    apply bool_decide_eq_true in Hc.
    exists a, x, c. repeat (split; [done |]). split.
    + apply not_true_iff_false in Hpos. rewrite Qle_bool_iff in Hpos.
      by apply Qnot_le_lt.
    + split; [done | split; [done |]].
      by destruct (location transaction) as [[] |].
  - intros (a & x & c & -> & Hx & Hpos & -> & Hc & Hloc).
    cbn [getitem mbind result_bind]. rewrite Hx.
    cbn [mbind result_bind].
    assert (Qle_bool x 0 = false) as ->.
    { apply not_true_iff_false. rewrite Qle_bool_iff.
      by apply Qlt_not_le. }
    rewrite bool_decide_eq_true_2 by done.
    destruct (location transaction) as [[] |]; by eauto.
Qed.

(** X24. For a payload whose amount, if present, is a number that is
    zero, negative, or of ordinary magnitude (between 1e-150 and 1e150),
    [_validate_transaction] accepts the payload exactly when the seven
    required keys are present, [float] of the amount is positive, the
    currency is one of USD, EUR, GBP and CAD, and the location is a dict;
    whether the payload has a transaction id, and what is in the merchant
    fields and the timestamp, plays no part. *)
Theorem validation_accepts_exactly (transaction : Transaction) (w : World) :
  (forall a,
     amount transaction = Some a ->
     exists x, py_float a = Ok x /\ ((0 < x)%Q -> ordinary x)) ->
  (exists v, (_validate_transaction transaction w).1.1 = Ok v) <->
  is_Some (customer_id transaction) /\ is_Some (merchant_id transaction)
  /\ is_Some (merchant_category transaction)
  /\ is_Some (timestamp transaction)
  /\ exists a x c l,
       amount transaction = Some a /\ py_float a = Ok x /\ (0 < x)%Q
       /\ currency transaction = Some c /\ c ∈ supported_currencies
       /\ location transaction = Some (LocDict l).
Proof.
  intros _.
  assert ((exists v, (_validate_transaction transaction w).1.1 = Ok v) <->
          check_required required_fields transaction = Ok tt
          /\ exists v, validate_checks transaction = Ok v) as ->.
  { unfold _validate_transaction.
    destruct (check_required required_fields transaction) as [[] |];
      [| split; [by intros [v ?] | by intros [? _]]].
    destruct (transaction_id transaction); cbn.
    - naive_solver.
    - rewrite validate_checks_set_id.
      destruct (validate_checks transaction); naive_solver. }
  rewrite check_required_Ok, validate_checks_Ok_iff. split.
  - intros ((Hcid & _ & _ & Hmid & Hmcat & Hts & [loc Hloc])
            & a & x & c & Ha & Hx & Hpos & Hc & Hin & Hdict).
    repeat (split; [done |]). destruct loc as [l |]; [| done].
    by exists a, x, c, l.
  - intros (Hcid & Hmid & Hmcat & Hts
            & a & x & c & l & Ha & Hx & Hpos & Hc & Hin & Hloc).
    split.
    + rewrite Ha, Hc, Hloc. by repeat split.
    + exists a, x, c. rewrite Hloc. by repeat split.
Qed.

Lemma validation_accepts_exactly_witness :
  (exists v,
     (_validate_transaction anonymous_purchase (empty_world (14 * hour))).1.1
     = Ok v) <->
  is_Some (customer_id anonymous_purchase)
  /\ is_Some (merchant_id anonymous_purchase)
  /\ is_Some (merchant_category anonymous_purchase)
  /\ is_Some (timestamp anonymous_purchase)
  /\ exists a x c l,
       amount anonymous_purchase = Some a /\ py_float a = Ok x /\ (0 < x)%Q
       /\ currency anonymous_purchase = Some c /\ c ∈ supported_currencies
       /\ location anonymous_purchase = Some (LocDict l).
Proof.
  apply (validation_accepts_exactly anonymous_purchase
           (empty_world (14 * hour))).
  intros a [= <-]. exists 50%Q. split; [reflexivity |].
  intros _. split; vm_compute; discriminate.
Defined.

Section Rejections.
Context `{Config} `{FloatMath}.

(** X25. A payload that validation rejects is not processed any further:
    [process_transaction] raises the validation error, and all it leaves
    behind is one error record in the log and, when the payload had the
    required keys but no id, one uuid drawn.  No table is read or written
    and no metric is sent. *)
Theorem rejected_payload_is_only_logged (transaction_data : Transaction)
    (err : exn) (w : World) :
  (_validate_transaction transaction_data w).1.1 = Raise err ->
  exists w1,
    (w1 = w \/ w1 = with_uuid_drawn S w)
    /\ process_transaction transaction_data w
       = (Raise err,
          with_logger
            (cons (LogError "Error processing transaction" err)) w1).
Proof.
  intros Hv. exists (_validate_transaction transaction_data w).2.
  split; [apply validate_world |].
  unfold process_transaction, try_except, mbind at 1, M_bind at 1.
  destruct (_validate_transaction transaction_data w) as [[r after] w1].
  cbn in Hv. by rewrite Hv.
Qed.

End Rejections.

Lemma rejected_payload_is_only_logged_witness :
  exists w1,
    (w1 = empty_world (14 * hour)
     \/ w1 = with_uuid_drawn S (empty_world (14 * hour)))
    /\ @process_transaction default_config exact_math
         purchase_without_currency (empty_world (14 * hour))
       = (Raise (ValueError "Missing required field: currency"),
          with_logger
            (cons (LogError "Error processing transaction"
                     (ValueError "Missing required field: currency"))) w1).
Proof.
  apply (@rejected_payload_is_only_logged default_config exact_math
           purchase_without_currency
           (ValueError "Missing required field: currency")
           (empty_world (14 * hour))).
  vm_compute. reflexivity.
Defined.

(** ** The response of the handler *)

Section Handler.
Context `{Config} `{FloatMath}.

Lemma process_records_fraud (records : list KinesisRecord)
    (processed_count error_count fraud_count : Z) (w : World) :
  let '(pc, ec, fc, _) :=
    process_records records processed_count error_count fraud_count w in
  pc + ec = processed_count + error_count + Z.of_nat (length records)
  /\ processed_count <= pc /\ error_count <= ec
  /\ fraud_count <= fc /\ fc - fraud_count <= pc - processed_count.
Proof.
  revert processed_count error_count fraud_count w.
  induction records as [| record rest IH]; intros pc ec fc w.
  - cbn. lia.
  - cbn [process_records length].
    match goal with
    | |- context [match ?run with _ => _ end] =>
        destruct run as [[summary | e] w0]
    end.
    + specialize (IH (pc + 1)
                    ec (if summary_is_fraud summary then fc + 1 else fc) w0).
      destruct (process_records rest _ _ _ w0) as [[[pc' ec'] fc'] w'].
      destruct (summary_is_fraud summary); lia.
    + specialize (IH pc (ec + 1) fc
                    (with_logger
                       (cons (LogError "Error processing record" e)) w0)).
      destruct (process_records rest _ _ _ _) as [[[pc' ec'] fc'] w'].
      lia.
Qed.

(** X26. In the response of [lambda_handler] every record of the event is
    counted once, as processed or as an error, and the number of frauds
    detected is at most the number of processed records; no counter is
    negative. *)
Theorem handler_counts_every_record_once (event : list KinesisRecord)
    (w : World) :
  let response := (lambda_handler event w).1 in
  processed response + errors response = Z.of_nat (length event)
  /\ 0 <= errors response
  /\ 0 <= fraud_detected response <= processed response.
Proof.
  unfold lambda_handler.
  pose proof (process_records_fraud event 0 0 0 w) as Hcounts.
  destruct (process_records event 0 0 0 w) as [[[pc ec] fc] w'].
  cbn. lia.
Qed.

End Handler.

(** ** Fraud warnings *)

#[export] Instance same_warnings_preorder : PreOrder same_warnings.
Proof.
  split; [by intros w |]. unfold same_warnings.
  intros w1 w2 w3 H1 H2. congruence.
Qed.

Lemma validated_same_warnings (transaction_data : Transaction) :
  respects same_warnings (validated transaction_data).
Proof.
  intros w r w'. unfold validated.
  pose proof (validate_world transaction_data w) as Hw.
  destruct (_validate_transaction transaction_data w) as [[r1 after] w1].
  intros [= <- <-]. simpl in Hw. by destruct Hw as [->| ->].
Qed.

Lemma _get_customer_profile_same_warnings (customer : string) :
  respects same_warnings (_get_customer_profile customer).
Proof.
  unfold _get_customer_profile, customers_get_item, customers_put_item,
    logger_log, datetime_now.
  apply respects_try; [apply _ | | respects_steps].
  apply respects_bind; [apply _ | respects_steps |].
  intros [item |]; respects_steps.
Qed.

Lemma _store_transaction_same_warnings (e : EnrichedTransaction) :
  respects same_warnings (_store_transaction e).
Proof.
  unfold _store_transaction, transactions_put_item, logger_log.
  respects_steps.
Qed.

Lemma quiet_steps_same_warnings (e : EnrichedTransaction) (p : Profile) :
  respects same_warnings
    (_archive_to_s3 e;; _update_customer_profile e p;; _send_metrics e).
Proof.
  unfold _archive_to_s3, _update_customer_profile, _send_metrics,
    s3_put_object, customers_put_item, cloudwatch_put_metric_data,
    logger_log, datetime_now.
  respects_steps.
Qed.

Lemma success_summary_same_warnings (e : EnrichedTransaction) :
  respects same_warnings (success_summary e).
Proof. unfold success_summary, logger_log. respects_steps. Qed.

Lemma log_and_reraise_same_warnings {A} (err : exn) :
  respects same_warnings (log_and_reraise err : M A).
Proof. unfold log_and_reraise, logger_log. respects_steps. Qed.

Section Warnings.
Context `{Config} `{FloatMath}.

Lemma scoring_steps_same_warnings (transaction_data : Transaction) :
  respects same_warnings (scoring_steps transaction_data).
Proof.
  pose proof validated_same_warnings.
  pose proof _get_customer_profile_same_warnings.
  unfold scoring_steps, score_and_enrich, _get_recent_transactions,
    transactions_query, logger_log, datetime_now.
  respects_steps.
Qed.

(** X27. [process_transaction] logs a fraud warning exactly for the
    transactions it returns as flagged: one warning, naming the
    transaction id and the customer and carrying the reported risk score.
    A transaction that is not flagged, and one whose processing raises,
    adds no warning to the log. *)
Theorem fraud_warning_iff_flagged (transaction_data : Transaction)
    (r : result Summary) (w w' : World) :
  process_transaction transaction_data w = (r, w') ->
  match r with
  | Ok summary =>
      if summary_is_fraud summary then
        exists customer,
          customer_id transaction_data = Some customer
          /\ warnings (logger w')
             = ("FRAUD DETECTED: Transaction "
                  +:+ summary_transaction_id summary
                  +:+ " for customer " +:+ customer,
                summary_risk_score summary) :: warnings (logger w)
      else warnings (logger w') = warnings (logger w)
  | Raise _ => warnings (logger w') = warnings (logger w)
  end.
Proof.
  rewrite process_transaction_phases. unfold try_except.
  destruct (scoring_steps transaction_data w) as [[[e p] | e1] w0] eqn:Es;
    pose proof (scoring_steps_same_warnings _ _ _ _ Es) as Hw0.
  - rewrite (bind_run _ _ _ _ _ Es).
    destruct (_store_transaction e w0) as [[[] | e2] w2] eqn:Est;
      pose proof (_store_transaction_same_warnings _ _ _ _ Est) as Hw2.
    + rewrite (bind_run _ _ _ _ _ Est).
      destruct (best_effort_steps_return e p w2) as [w3 Eb].
      rewrite (bind_run _ _ _ _ _ Eb).
      destruct (success_summary e w3) as [r' w4] eqn:Esum.
      pose proof (success_summary_same_warnings _ _ _ _ Esum) as Hw4.
      assert (exists wq,
                same_warnings w2 wq
                /\ (if is_fraud (analysis e) then _handle_fraud_alert e
                    else mret tt) wq = (Ok tt, w3)) as (wq & Hwq & Ealert).
      { unfold best_effort_steps in Eb.
        rewrite <- !bind_assoc_at in Eb.
        apply bind_Ok_at in Eb as ([] & wq & Eq & Ealert).
        exists wq. split; [| done]. rewrite bind_assoc_at in Eq.
        apply (quiet_steps_same_warnings e p _ _ _ Eq). }
      destruct (scoring_steps_id _ _ _ _ _ Es) as [id Hid].
      pose proof Es as Hscore.
      apply scoring_steps_Ok in Hscore as (v & wa & _ & Ev & Hbase & _).
      apply validated_Ok in Ev as (Hreq & _ & Hcust & _).
      apply check_required_customer in Hreq as [customer Hcustomer].
      unfold success_summary, logger_log, modify, lift, mbind, M_bind
        in Esum.
      rewrite Hid in Esum. cbn in Esum. injection Esum as <- <-.
      intros [= <- <-]. cbn [summary_is_fraud summary_transaction_id
        summary_risk_score].
      unfold same_warnings in *. cbn [logger with_logger warnings].
      destruct (is_fraud (analysis e)).
      * exists customer. split; [done |].
        unfold _handle_fraud_alert, try_except, logger_log, modify, lift,
          mbind, M_bind in Ealert.
        rewrite Hid, Hbase, Hcust, Hcustomer in Ealert. cbn in Ealert.
        injection Ealert as <-. cbn [logger with_logger warnings].
        congruence.
      * injection Ealert as <-. congruence.
    + rewrite (bind_raise _ _ _ _ _ Est).
      destruct (log_and_reraise e2 w2) as [r' w3] eqn:El.
      pose proof (log_and_reraise_same_warnings _ _ _ _ El) as Hw3.
      unfold log_and_reraise, logger_log, modify, raise, mbind, M_bind
        in El.
      injection El as <- <-. intros [= <- <-].
      unfold same_warnings in *. congruence.
  - rewrite (bind_raise _ _ _ _ _ Es).
    destruct (log_and_reraise e1 w0) as [r' w3] eqn:El.
    pose proof (log_and_reraise_same_warnings _ _ _ _ El) as Hw3.
    unfold log_and_reraise, logger_log, modify, raise, mbind, M_bind in El.
    injection El as <- <-. intros [= <- <-].
    unfold same_warnings in *. congruence.
Qed.

End Warnings.

Lemma fraud_warning_iff_flagged_witness :
  let run :=
    @process_transaction default_config exact_math night_purchase_abroad
      busy_world in
  (exists summary, run.1 = Ok summary /\ summary_is_fraud summary = true)
  /\ match run.1 with
     | Ok summary =>
         if summary_is_fraud summary then
           exists customer,
             customer_id night_purchase_abroad = Some customer
             /\ warnings (logger run.2)
                = ("FRAUD DETECTED: Transaction "
                     +:+ summary_transaction_id summary
                     +:+ " for customer " +:+ customer,
                   summary_risk_score summary)
                    :: warnings (logger busy_world)
         else warnings (logger run.2) = warnings (logger busy_world)
     | Raise _ => warnings (logger run.2) = warnings (logger busy_world)
     end.
Proof.
  split.
  - eexists. split; vm_compute; reflexivity.
  - apply (@fraud_warning_iff_flagged default_config exact_math
             night_purchase_abroad
             (@process_transaction default_config exact_math
                night_purchase_abroad busy_world).1
             busy_world
             (@process_transaction default_config exact_math
                night_purchase_abroad busy_world).2).
    vm_compute. reflexivity.
Defined.

(** ** When scoring returns *)

Section ScoringReturns.
Context `{Config} `{FloatMath}.

Lemma _check_velocity_risk_returns (transaction : Transaction)
    (recent_transactions : list Transaction) :
  VELOCITY_THRESHOLD <> 0 ->
  is_Some (timestamp transaction) ->
  Forall (fun txn => is_Some (timestamp txn)) recent_transactions ->
  exists v, _check_velocity_risk transaction recent_transactions = Ok v.
Proof.
  intros HT [now Hnow] Hts. unfold _check_velocity_risk.
  destruct recent_transactions as [| txn rest]; [by eexists |].
  rewrite Hnow. cbn -[count_recent Z.mul Z.leb].
  rewrite (count_recent_counts _ _ 0 Hts). cbn -[Z.mul Z.leb].
  destruct (VELOCITY_THRESHOLD <=? _); [| by eexists].
  unfold py_div.
  assert (Qeq_bool (inject_Z (VELOCITY_THRESHOLD * 2)) 0 = false) as ->;
    [| by eexists].
  apply not_true_iff_false. intros Hzero. apply Qeq_bool_iff in Hzero.
  unfold Qeq in Hzero. simpl in Hzero. lia.
Qed.

Lemma _check_amount_risk_returns (transaction : Transaction)
    (customer_profile : Profile) (a : pyval) (x s : Q) :
  amount transaction = Some a -> py_float a = Ok x ->
  py_float (default (PInt 1000) (average_monthly_spend customer_profile))
    = Ok s ->
  ~ (s == 0)%Q -> ~ (AMOUNT_THRESHOLD_MULTIPLIER == 0)%Q ->
  exists r, _check_amount_risk transaction customer_profile = Ok r.
Proof.
  intros Ha Hx Hs Hspend Hm. unfold _check_amount_risk.
  rewrite Ha. cbn [getitem mbind result_bind]. rewrite Hx.
  cbn [mbind result_bind]. rewrite Hs. cbn [mbind result_bind].
  destruct (Qlt_bool _ x).
  - unfold py_div.
    assert (Qeq_bool (s / 30 * AMOUNT_THRESHOLD_MULTIPLIER * 2) 0 = false)
      as ->; [| by eexists].
    apply not_true_iff_false. rewrite Qeq_bool_iff. intros Hzero.
    assert (s * AMOUNT_THRESHOLD_MULTIPLIER == 0)%Q as Hprod.
    { assert (s * AMOUNT_THRESHOLD_MULTIPLIER
              == s / 30 * AMOUNT_THRESHOLD_MULTIPLIER * 2 * 15)%Q as ->
        by field.
      rewrite Hzero. reflexivity. }
    apply Qmult_integral in Hprod. tauto.
  - destruct (Qlt_bool 10000 x); by eexists.
Qed.

Lemma calculate_risk_score_returns (transaction : Transaction)
    (customer_profile : Profile) (recent_transactions : list Transaction)
    (a : pyval) (x s l : Q) :
  VELOCITY_THRESHOLD <> 0 ->
  ~ (AMOUNT_THRESHOLD_MULTIPLIER == 0)%Q ->
  amount transaction = Some a -> py_float a = Ok x ->
  is_Some (timestamp transaction) ->
  py_float (default (PInt 1000) (average_monthly_spend customer_profile))
    = Ok s ->
  ~ (s == 0)%Q ->
  Forall (fun txn => is_Some (timestamp txn)) recent_transactions ->
  _check_location_risk transaction customer_profile recent_transactions
    = Ok l ->
  exists assessment,
    calculate_risk_score transaction customer_profile recent_transactions
    = Ok assessment.
Proof.
  intros HT Hm Ha Hx Hts Hs Hspend Hwts Hl.
  destruct (_check_velocity_risk_returns transaction recent_transactions)
    as [v Hv]; [done .. |].
  destruct (_check_amount_risk_returns transaction customer_profile a x s)
    as [r Hr]; [done .. |].
  destruct Hts as [now Hnow].
  unfold calculate_risk_score. rewrite Hv, Hr, Hl.
  cbn [mbind result_bind]. unfold _check_time_risk. rewrite Hnow.
  cbn [getitem mbind result_bind].
  destruct (_ && _); [by eexists |]. destruct (_ || _); by eexists.
Qed.

Lemma ordinary_nonzero (x : Q) : ordinary x -> ~ (x == 0)%Q.
Proof.
  intros [Hlo _] Hzero. rewrite Hzero in Hlo.
  assert (0 < / magnitude_bound)%Q by (vm_compute; reflexivity).
  change (Qabs 0) with 0%Q in Hlo. lra.
Qed.

(** X28. The risk engine returns an assessment whenever its input is well
    formed and of ordinary magnitude: the amount is a number of at most
    1e150 in absolute value, the transaction and the window entries have
    timestamps (that denote instants), whatever is under a ['location'] key
    is a dict whose coordinates, where they are numbers, are at most 1e150
    in absolute value, the profile's average monthly spend and the
    configured multiplier are numbers between 1e-150 and 1e150 in absolute
    value, and the velocity threshold is not zero. *)
Theorem scoring_returns_on_well_formed_input (transaction : Transaction)
    (customer_profile : Profile) (recent_transactions : list Transaction)
    (a : pyval) (x s : Q) :
  VELOCITY_THRESHOLD <> 0 ->
  ordinary AMOUNT_THRESHOLD_MULTIPLIER ->
  amount transaction = Some a -> py_float a = Ok x ->
  (Qabs x <= magnitude_bound)%Q ->
  is_Some (timestamp transaction) ->
  dict_or_absent (location transaction) ->
  located_in_range (location transaction) ->
  py_float (default (PInt 1000) (average_monthly_spend customer_profile))
    = Ok s ->
  ordinary s ->
  dict_or_absent (home_location customer_profile) ->
  Forall
    (fun txn =>
       is_Some (timestamp txn)
       /\ dict_or_absent (location txn) /\ located_in_range (location txn))
    recent_transactions ->
  exists assessment,
    calculate_risk_score transaction customer_profile recent_transactions
    = Ok assessment.
Proof.
  intros HT Hm Ha Hx _ Hts Hloc Hrange Hs Hspend Hhome Hwindow.
  apply Forall_and in Hwindow as [Hwts Hwloc].
  destruct (_check_location_risk_returns transaction customer_profile
              recent_transactions) as [l Hl]; [done .. |].
  apply (calculate_risk_score_returns transaction customer_profile
           recent_transactions a x s l); auto using ordinary_nonzero.
Qed.

End ScoringReturns.

Lemma scoring_returns_on_well_formed_input_witness :
  exists assessment,
    @calculate_risk_score default_config exact_math night_purchase_abroad
      us_profile ten_in_last_hour = Ok assessment.
Proof.
  apply (@scoring_returns_on_well_formed_input default_config exact_math
           night_purchase_abroad us_profile ten_in_last_hour
           (PFloat 160.16) 160.16 1000).
  - done.
  - split; vm_compute; discriminate.
  - reflexivity.
  - reflexivity.
  - vm_compute. discriminate.
  - by eexists.
  - done.
  - solve_located_in_range.
  - reflexivity.
  - split; vm_compute; discriminate.
  - done.
  - unfold ten_in_last_hour. cbn [fmap list_fmap].
    repeat (constructor;
            [split; [by eexists | split; [done | solve_located_in_range]] |]).
    constructor.
Defined.

(** ** The first transaction of a new customer *)

Lemma _get_customer_profile_new (customer : string) (w : World) :
  customers_table w !! customer = None ->
  no_outage w ->
  _get_customer_profile customer w
  = (Ok (default_profile customer (clock w)),
     with_customers
       <[customer :=
           _convert_to_dynamodb_format
             (default_profile customer (clock w))]> w).
Proof.
  intros Hnone Hup.
  unfold _get_customer_profile, try_except, customers_get_item,
    customers_put_item, datetime_now, gets, modify, mbind, M_bind,
    external.
  rewrite Hup, Hnone. cbn [fmap option_fmap option_map]. by rewrite Hup.
Qed.

Lemma _get_recent_transactions_none (customer : string) (hours : Z)
    (w : World) :
  Forall (fun item => customer_id (base item) <> Some customer)
    (transactions_table w) ->
  no_outage w ->
  _get_recent_transactions customer hours w = (Ok [], w).
Proof.
  intros Hnone Hup.
  unfold _get_recent_transactions, try_except, transactions_query,
    datetime_now, gets, mbind, M_bind, external.
  rewrite Hup.
  assert (filter
            (fun x : EnrichedTransaction =>
               customer_id (base x) = Some customer
               /\ clock w - timedelta_hours hours
                  <= default 0 (timestamp (base x)))
            (map_enriched number_as_decimal <$> transactions_table w)
          = []) as ->; [| done].
  induction Hnone as [| item table Hitem _ IH]; [done |].
  cbn [fmap list_fmap]. rewrite filter_cons, decide_False; [done |].
  by intros [? _].
Qed.

Lemma _store_transaction_up (e : EnrichedTransaction) (w : World) :
  no_outage w ->
  _store_transaction e w
  = (Ok tt,
     with_transactions
       (fun table =>
          _convert_to_dynamodb_format e
            :: filter
                 (fun x => same_key x (_convert_to_dynamodb_format e)
                           = false) table) w).
Proof.
  intros Hup. unfold _store_transaction, try_except, transactions_put_item,
    modify, mbind, M_bind, external.
  by rewrite Hup.
Qed.

Lemma _archive_to_s3_up (e : EnrichedTransaction) (ts : datetime)
    (id : string) (w : World) :
  timestamp (base e) = Some ts ->
  transaction_id (base e) = Some id ->
  no_outage w ->
  _archive_to_s3 e w
  = (Ok tt,
     with_bucket
       (cons ({| partition_hour := ts / timedelta_hours 1;
                 key_transaction_id := id |}, e)) w).
Proof.
  intros Hts Hid Hup. unfold _archive_to_s3, try_except, s3_put_object,
    modify, lift, mbind, M_bind, external.
  rewrite Hts, Hid. cbn [getitem]. by rewrite Hup.
Qed.

Lemma _send_metrics_up (e : EnrichedTransaction) (a : pyval) (x : Q)
    (w : World) :
  amount (base e) = Some a -> py_float a = Ok x ->
  no_outage w ->
  _send_metrics e w
  = (Ok tt,
     with_cloudwatch
       (cons
          ([ {| MetricName := "ProcessedTransactions"; Value := 1;
                Unit := "Count" |};
             {| MetricName := "TransactionAmount"; Value := x;
                Unit := "None" |};
             {| MetricName := "RiskScore";
                Value := risk_score (analysis e); Unit := "None" |} ]
             ++ (if is_fraud (analysis e)
                 then [ {| MetricName := "FraudDetected"; Value := 1;
                           Unit := "Count" |} ]
                 else []))%list) w).
Proof.
  intros Ha Hx Hup. unfold _send_metrics, try_except,
    cloudwatch_put_metric_data, modify, lift, mbind, M_bind, external.
  rewrite Ha. cbn [getitem]. rewrite Hx, Hup.
  by destruct (is_fraud (analysis e)).
Qed.

Lemma _update_customer_profile_up (e : EnrichedTransaction)
    (p updated : Profile) (w : World) :
  updated_profile e p (clock w) = Ok updated ->
  no_outage w ->
  _update_customer_profile e p w
  = (Ok tt,
     with_customers
       <[profile_customer_id p := _convert_to_dynamodb_format updated]> w).
Proof.
  intros Hu Hup.
  unfold _update_customer_profile, try_except, datetime_now, gets, lift,
    customers_put_item, modify, mbind, M_bind, external.
  rewrite Hu, Hup.
  by apply updated_profile_count in Hu as [_ <-].
Qed.

Lemma empty_window_is_not_flagged `{FloatMath} (transaction : Transaction)
    (customer_profile : Profile) (a : RiskAssessment) :
  @calculate_risk_score default_config _ transaction customer_profile []
    = Ok a ->
  is_fraud a = false.
Proof.
  intros Ha. apply calculate_risk_score_Ok in Ha
    as (v & am & l & t & Hv & Ham & Hl & Ht & ->).
  cbn [is_fraud]. apply not_true_iff_false. intros Hfraud.
  apply Qlt_bool_iff in Hfraud. apply clamp_above in Hfraud; [| done].
  apply amount_at_most_one in Ham.
  apply location_values in Hl.
  apply time_values in Ht.
  injection Hv as <-.
  unfold weight_velocity, weight_amount, weight_location, weight_time
    in Hfraud. cbn [FRAUD_THRESHOLD default_config] in Hfraud.
  destruct Hl as [-> | Hl]; destruct Ht as [-> | [-> | ->]]; lra.
Qed.

Lemma other_customers_keep_their_items (e : EnrichedTransaction)
    (customer : string) (table : list EnrichedTransaction) :
  customer_id (base e) = Some customer ->
  Forall (fun item => customer_id (base item) <> Some customer) table ->
  filter (fun x => same_key x (_convert_to_dynamodb_format e) = false)
    table = table.
Proof.
  intros Hcustomer. induction 1 as [| item table Hitem _ IH]; [done |].
  rewrite filter_cons, decide_True, IH; [done |].
  unfold same_key. apply bool_decide_eq_false. intros [Hsame _].
  cbn in Hsame. congruence.
Qed.

Lemma _check_location_risk_no_window `{FloatMath}
    (transaction : Transaction) (customer_profile : Profile) :
  dict_or_absent (location transaction) ->
  dict_or_absent (home_location customer_profile) ->
  exists l, _check_location_risk transaction customer_profile [] = Ok l.
Proof.
  intros Htxn Hhome. unfold _check_location_risk.
  destruct (location transaction) as [[loc|]|];
    destruct (home_location customer_profile) as [[home|]|];
    try done; simpl.
  all: repeat match goal with
         | |- context [bool_decide ?P] => destruct (bool_decide P); simpl
         end; by eexists.
Qed.

Lemma no_outage_same (w w' : World) :
  outage w' = outage w -> no_outage w -> no_outage w'.
Proof. unfold no_outage. by intros ->. Qed.

(** What the checks have established of the dict they return. *)
Lemma checked_fields (transaction : Transaction) :
  check_required required_fields transaction = Ok tt ->
  validate_checks transaction = Ok transaction ->
  is_Some (transaction_id transaction) ->
  exists a x ts id,
    amount transaction = Some a /\ py_float a = Ok x
    /\ timestamp transaction = Some ts
    /\ transaction_id transaction = Some id
    /\ dict_or_absent (location transaction).
Proof.
  intros Hreq Hchecks [id Hid].
  apply check_required_Ok in Hreq as (_ & _ & _ & _ & _ & [ts Hts] & _).
  destruct (proj1 (validate_checks_Ok_iff transaction)
              (ex_intro _ transaction Hchecks))
    as (a & x & c & Ha & Hx & _ & _ & _ & Hloc).
  by exists a, x, ts, id.
Qed.

(** What validation has checked of the dict it returns. *)
Lemma validated_fields (transaction_data v : Transaction) (w : World) :
  (_validate_transaction transaction_data w).1.1 = Ok v ->
  exists a x ts id,
    amount v = Some a /\ py_float a = Ok x
    /\ timestamp v = Some ts /\ transaction_id v = Some id
    /\ dict_or_absent (location v)
    /\ customer_id v = customer_id transaction_data.
Proof.
  unfold _validate_transaction.
  destruct (check_required required_fields transaction_data)
    as [[] |] eqn:Hreq; [| done].
  destruct (transaction_id transaction_data) as [id |] eqn:Hid; cbn.
  - intros Hv. pose proof (validate_checks_Ok _ _ Hv) as ->.
    destruct (checked_fields transaction_data)
      as (a & x & ts & id' & ?); [done | done | by rewrite Hid |].
    exists a, x, ts, id'. naive_solver.
  - intros Hv. pose proof (validate_checks_Ok _ _ Hv) as ->.
    destruct (checked_fields
                (set_transaction_id (generate_transaction_id w).1
                   transaction_data))
      as (a & x & ts & id' & ?);
      [by rewrite check_required_set_id | exact Hv | by eexists |].
    exists a, x, ts, id'. naive_solver.
Qed.

(** X29. With every service answering, the first payload of a customer
    who has neither a profile nor a stored transaction, when validation
    accepts it and its amount is of ordinary magnitude (between 1e-150 and
    1e150) and its timestamp denotes an instant, is processed without a
    single error: the summary is returned and is not flagged under the
    default configuration, and what is left behind is the transaction added
    to the table, one object in the bucket, one batch of three metrics, one
    line in the log, and a profile of the customer that counts one
    transaction and no fraud. *)
Theorem first_transaction_of_a_new_customer `{FloatMath}
    (transaction_data v : Transaction) (customer : string) (w : World) :
  no_outage w ->
  customers_table w !! customer = None ->
  Forall (fun item => customer_id (base item) <> Some customer)
    (transactions_table w) ->
  customer_id transaction_data = Some customer ->
  (_validate_transaction transaction_data w).1.1 = Ok v ->
  (forall a x,
     amount transaction_data = Some a -> py_float a = Ok x -> ordinary x) ->
  is_Some (timestamp transaction_data) ->
  exists summary w' e stored key batch,
    @process_transaction default_config _ transaction_data w
      = (Ok summary, w')
    /\ base e = v
    /\ status summary = "success"
    /\ summary_is_fraud summary = false
    /\ transaction_id v = Some (summary_transaction_id summary)
    /\ transactions_table w'
       = _convert_to_dynamodb_format e :: transactions_table w
    /\ s3_raw_bucket w' = (key, e) :: s3_raw_bucket w
    /\ cloudwatch w' = batch :: cloudwatch w
    /\ MetricName <$> batch
       = ["ProcessedTransactions"; "TransactionAmount"; "RiskScore"]
    /\ customers_table w' = <[customer := stored]> (customers_table w)
    /\ transaction_count stored = Some (PInt 1)
    /\ fraud_count stored = Some (PInt 0)
    /\ logger w'
       = LogInfo
           ("Successfully processed transaction "
              +:+ summary_transaction_id summary) :: logger w.
Proof.
  intros Hup Hnew Hnone Hcustomer Hv _ _.
  destruct (validated_fields _ _ _ Hv)
    as (a & x & ts & id & Ha & Hx & Hts & Hid & Hloc & Hcust).
  rewrite process_transaction_fetch.
  set (wa := (_validate_transaction transaction_data w).2).
  assert (validated transaction_data w = (Ok v, wa)) as Ev.
  { unfold validated, wa.
    destruct (_validate_transaction transaction_data w) as [[r after] w0].
    cbn in Hv. by rewrite Hv. }
  assert (customers_table wa = customers_table w
          /\ transactions_table wa = transactions_table w
          /\ s3_raw_bucket wa = s3_raw_bucket w
          /\ cloudwatch wa = cloudwatch w
          /\ logger wa = logger w
          /\ no_outage wa) as (Hca & Hta & Hba & Hma & Hla & Hupa).
  { destruct (validate_world transaction_data w) as [Hw | Hw];
      fold wa in Hw; by rewrite Hw. }
  assert (_get_customer_profile customer wa
          = (Ok (default_profile customer (clock wa)),
             with_customers
               <[customer :=
                   _convert_to_dynamodb_format
                     (default_profile customer (clock wa))]> wa)) as Ep.
  { apply _get_customer_profile_new; [by rewrite Hca | done]. }
  set (p := default_profile customer (clock wa)) in *.
  set (w1 := with_customers _ wa) in Ep.
  assert (no_outage w1) as Hup1 by done.
  destruct (_check_location_risk_no_window v p) as [l Hl]; [done .. |].
  destruct (@calculate_risk_score_returns default_config _ v p [] a x 1000
              l) as [fa Hfa]; [done .. | by constructor | done |].
  pose proof (empty_window_is_not_flagged _ _ _ Hfa) as Hfraud.
  set (e := {| base := v; analysis := fa; processed_timestamp := clock w1;
               processor_version := "1.0.0" |}).
  assert (is_fraud (analysis e) = false) as Hquiet by done.
  assert (@score_and_enrich default_config _ v p w1 = (Ok e, w1))
    as Escore.
  { unfold score_and_enrich. rewrite Hcust, Hcustomer. cbn [getitem].
    rewrite (ret_bind_at customer).
    rewrite (bind_run _ _ _ _ _
               (_get_recent_transactions_none customer 24 w1
                  ltac:(by cbn; rewrite Hta) Hup1)).
    by rewrite Hfa. }
  pose proof (_store_transaction_up e w1 Hup1) as Estore.
  set (w2 := with_transactions _ w1) in Estore.
  assert (no_outage w2) as Hup2 by done.
  pose proof (_archive_to_s3_up e ts id w2 Hts Hid Hup2) as Earchive.
  set (key := {| partition_hour := ts / timedelta_hours 1;
                 key_transaction_id := id |}) in Earchive.
  set (w3 := with_bucket _ w2) in Earchive.
  assert (no_outage w3) as Hup3 by done.
  assert (exists updated,
            updated_profile e p (clock w3) = Ok updated
            /\ transaction_count updated = Some (PInt 1)
            /\ fraud_count updated = Some (PInt 0))
    as (updated & Hupdated & Hcount & Hfrauds).
  { unfold updated_profile. cbn. rewrite Ha. cbn. rewrite Hx. cbn.
    rewrite Hfraud. cbn. rewrite Hts. cbn. by eexists. }
  pose proof (_update_customer_profile_up e p updated w3 Hupdated Hup3)
    as Eupdate.
  set (w4 := with_customers _ w3) in Eupdate.
  assert (no_outage w4) as Hup4 by done.
  pose proof (_send_metrics_up e a x w4 Ha Hx Hup4) as Emetrics.
  rewrite Hquiet, app_nil_r in Emetrics.
  set (w5 := with_cloudwatch _ w4) in Emetrics.
  assert (best_effort_steps e p w2 = (Ok tt, w5)) as Ebest.
  { unfold best_effort_steps.
    rewrite (bind_run _ _ _ _ _ Earchive), (bind_run _ _ _ _ _ Eupdate),
      (bind_run _ _ _ _ _ Emetrics).
    by rewrite Hquiet. }
  eexists _, _, e, (_convert_to_dynamodb_format updated), key, _.
  split.
  { unfold try_except. rewrite (bind_run _ _ _ _ _ Ev).
    rewrite Hcust, Hcustomer. cbn [getitem]. rewrite (ret_bind_at customer).
    rewrite (bind_run _ _ _ _ _ Ep). unfold after_fetch.
    rewrite (bind_run _ _ _ _ _ Escore), (bind_run _ _ _ _ _ Estore),
      (bind_run _ _ _ _ _ Ebest).
    unfold success_summary, logger_log, modify, lift, mbind, M_bind.
    cbn [base e]. rewrite Hid. reflexivity. }
  cbn [status summary_is_fraud summary_transaction_id analysis base e].
  split; [done |]. split; [done |]. split; [done |]. split; [done |].
  split.
  { cbn. rewrite Hta.
    rewrite (other_customers_keep_their_items e customer); [done | | done].
    cbn. by rewrite Hcust. }
  split; [cbn; by rewrite Hba |].
  split; [cbn; by rewrite Hma |].
  split; [done |].
  split; [cbn; by rewrite Hca, insert_insert_eq |].
  split; [cbn; by rewrite Hcount |]. split; [cbn; by rewrite Hfrauds |].
  cbn. by rewrite Hla.
Qed.

Lemma first_transaction_of_a_new_customer_witness :
  exists summary w' e stored key batch,
    @process_transaction default_config exact_math (afternoon_purchase 50)
      (empty_world (14 * hour)) = (Ok summary, w')
    /\ base e = afternoon_purchase 50
    /\ status summary = "success"
    /\ summary_is_fraud summary = false
    /\ transaction_id (afternoon_purchase 50)
       = Some (summary_transaction_id summary)
    /\ transactions_table w'
       = _convert_to_dynamodb_format e
           :: transactions_table (empty_world (14 * hour))
    /\ s3_raw_bucket w' = (key, e) :: s3_raw_bucket (empty_world (14 * hour))
    /\ cloudwatch w' = batch :: cloudwatch (empty_world (14 * hour))
    /\ MetricName <$> batch
       = ["ProcessedTransactions"; "TransactionAmount"; "RiskScore"]
    /\ customers_table w'
       = <["c1" := stored]> (customers_table (empty_world (14 * hour)))
    /\ transaction_count stored = Some (PInt 1)
    /\ fraud_count stored = Some (PInt 0)
    /\ logger w'
       = LogInfo
           ("Successfully processed transaction "
              +:+ summary_transaction_id summary)
           :: logger (empty_world (14 * hour)).
Proof.
  apply (@first_transaction_of_a_new_customer exact_math
           (afternoon_purchase 50) (afternoon_purchase 50) "c1"
           (empty_world (14 * hour))).
  - intros c. reflexivity.
  - reflexivity.
  - constructor.
  - reflexivity.
  - vm_compute. reflexivity.
  - intros a x [= <-] [= <-]. split; vm_compute; discriminate.
  - by eexists.
Defined.

(** ** Stored profiles *)

(** X30. With every service answering, processing a transaction of a
    customer who has a stored profile leaves the customers table as it
    was, whether the transaction is processed or rejected: the profile is
    read back with a [str] for a count, so the update of it fails and is
    only logged.  The counters and the average of a stored profile are
    never brought up to date. *)
Theorem stored_profiles_are_frozen `{Config} `{FloatMath}
    (transaction_data : Transaction) (customer : string) (w : World) :
  no_outage w ->
  counted_profiles w ->
  customer_id transaction_data = Some customer ->
  customer ∈ dom (customers_table w) ->
  customers_table (process_transaction transaction_data w).2
  = customers_table w.
Proof.
  intros Hup Hcounted Hcustomer Hstored.
  apply (stored_profile_is_never_updated transaction_data w Hup Hcounted).
  intros v wa customer' _ Hcustomer'. congruence.
Qed.

Lemma stored_profiles_are_frozen_witness :
  customers_table
    (@process_transaction default_config exact_math night_purchase_abroad
       busy_world).2
  = customers_table busy_world.
Proof.
  apply (@stored_profiles_are_frozen default_config exact_math
           night_purchase_abroad "c1" busy_world).
  - intros c. reflexivity.
  - intros customer item. unfold busy_world.
    cbn [customers_table with_customers with_transactions empty_world].
    rewrite lookup_insert_Some, lookup_empty.
    intros [[_ <-] | [_ Hnone]]; [by eexists | discriminate].
  - reflexivity.
  - apply elem_of_dom. eexists. vm_compute. reflexivity.
Defined.
